(** * OpenSearch cluster CDK: topology planner, configuration assembler and
      capture-proxy supervisor

    A shallow embedding of [lib/infra/infra-stack.ts] (the [InfraStack]
    constructor and [getCfnInitElement]) and of [startCaptureProxy.sh],
    followed by the properties the specification states about them.

    Conventions.
    - A JavaScript [number] holding a node count or a volume size is a [Z].
    - An optional string property ([jvmSysPropsString?: string]) is an
      [option string]; calling [.toString()] on [undefined] throws.
    - A thrown JavaScript exception is the [Thrown] outcome of the [Outcome]
      monad.
    - CDK constructs are objects on a heap: [new] allocates a location, a
      variable holds a location, and [Tags.of(x).add] mutates the object the
      location names. *)

From Stdlib Require Import ZArith String Ascii List Bool Lia.
From stdpp Require Import base list strings gmap.

Open Scope string_scope.
Open Scope list_scope.

(** ** Characters that a Rocq string literal cannot hold *)

Definition dq : string := String (ascii_of_nat 34) EmptyString.
Definition nl : string := String (ascii_of_nat 10) EmptyString.
Definition bslash : string := String (ascii_of_nat 92) EmptyString.
Definition btick : string := String (ascii_of_nat 96) EmptyString.

(** ** Outcomes of code that may throw *)

Inductive JsError := TypeError.

Inductive Outcome (A : Type) : Type :=
| Returned (a : A)
| Thrown (e : JsError).
Arguments Returned {A} a.
Arguments Thrown {A} e.

Definition obind {A B} (m : Outcome A) (k : A -> Outcome B) : Outcome B :=
  match m with
  | Returned a => k a
  | Thrown e => Thrown e
  end.

Declare Scope outcome_scope.
Delimit Scope outcome_scope with outcome.
Notation "'let!' x ':=' m 'in' k" := (obind m (fun x => k))
  (at level 10, x name, m at level 100, k at level 200) : outcome_scope.

(** [x.toString()] for an optional string property [x]. *)
Definition toString (x : option string) : Outcome string :=
  match x with
  | Some s => Returned s
  | None => Thrown TypeError
  end.

(** ** JavaScript values handed to [dump] and to the CloudWatch agent *)

#[local] Unset Elimination Schemes.
Inductive JsValue :=
| JUndefined
| JString (s : string)
| JNumber (n : Z)
| JBool (b : bool)
| JArray (l : list JsValue)
| JObject (m : list (string * JsValue)).
#[local] Set Elimination Schemes.

(** [obj[k] = v] on an object whose own keys are kept in insertion order. *)
Fixpoint obj_set (k : string) (v : JsValue) (m : list (string * JsValue))
  : list (string * JsValue) :=
  match m with
  | [] => [(k, v)]
  | (k', v') :: m' =>
      if String.eqb k k' then (k, v) :: m' else (k', v') :: obj_set k v m'
  end.

(** ** The properties of the stack *)

Inductive AmazonLinuxCpuType := X86_64 | ARM_64.
Inductive InstanceClass := R5 | R6G | C5 | C6G.
Inductive InstanceSize := XLARGE.
Inductive InstanceType :=
| InstanceType_of (c : InstanceClass) (s : InstanceSize)
| InstanceType_named (identifier : string).
Inductive EbsDeviceVolumeType := STANDARD | IO1 | IO2 | GP2 | GP3 | ST1 | SC1.

Record infraProps := {
  opensearchVersion : string;
  cpuArch : string;
  cpuType : AmazonLinuxCpuType;
  securityDisabled : bool;
  minDistribution : bool;
  distributionUrl : string;
  captureProxyEnabled : string;
  captureProxyTarUrl : string;
  dashboardsUrl : string;
  singleNodeCluster : bool;
  managerNodeCount : Z;
  dataNodeCount : Z;
  ingestNodeCount : Z;
  clientNodeCount : Z;
  mlNodeCount : Z;
  dataNodeStorage : Z;
  mlNodeStorage : Z;
  jvmSysPropsString : option string;
  additionalConfig : option string;
  additionalOsdConfig : option string;
  dataEc2InstanceType : option InstanceType;
  mlEc2InstanceType : option InstanceType;
  use50PercentHeap : bool;
  isInternal : bool;
  enableRemoteStore : bool;
  storageVolumeType : EbsDeviceVolumeType;
  customRoleArn : string
}.

(** The optional strings the code calls [.toString()] on are there: callers
    pass the text [undefined] for a string they do not set. *)
Definition strings_supplied (props : infraProps) : Prop :=
  is_Some (jvmSysPropsString props)
  /\ is_Some (additionalConfig props)
  /\ (dashboardsUrl props <> "undefined" -> is_Some (additionalOsdConfig props)).

(** [props] with the remote store switched on or off. *)
Definition with_enableRemoteStore (props : infraProps) (enable : bool) : infraProps :=
  {| opensearchVersion := opensearchVersion props;
     cpuArch := cpuArch props;
     cpuType := cpuType props;
     securityDisabled := securityDisabled props;
     minDistribution := minDistribution props;
     distributionUrl := distributionUrl props;
     captureProxyEnabled := captureProxyEnabled props;
     captureProxyTarUrl := captureProxyTarUrl props;
     dashboardsUrl := dashboardsUrl props;
     singleNodeCluster := singleNodeCluster props;
     managerNodeCount := managerNodeCount props;
     dataNodeCount := dataNodeCount props;
     ingestNodeCount := ingestNodeCount props;
     clientNodeCount := clientNodeCount props;
     mlNodeCount := mlNodeCount props;
     dataNodeStorage := dataNodeStorage props;
     mlNodeStorage := mlNodeStorage props;
     jvmSysPropsString := jvmSysPropsString props;
     additionalConfig := additionalConfig props;
     additionalOsdConfig := additionalOsdConfig props;
     dataEc2InstanceType := dataEc2InstanceType props;
     mlEc2InstanceType := mlEc2InstanceType props;
     use50PercentHeap := use50PercentHeap props;
     isInternal := isInternal props;
     enableRemoteStore := enable;
     storageVolumeType := storageVolumeType props;
     customRoleArn := customRoleArn props |}.

(** [props] with another user text. *)
Definition with_additionalConfig (props : infraProps) (extra : string) : infraProps :=
  {| opensearchVersion := opensearchVersion props;
     cpuArch := cpuArch props;
     cpuType := cpuType props;
     securityDisabled := securityDisabled props;
     minDistribution := minDistribution props;
     distributionUrl := distributionUrl props;
     captureProxyEnabled := captureProxyEnabled props;
     captureProxyTarUrl := captureProxyTarUrl props;
     dashboardsUrl := dashboardsUrl props;
     singleNodeCluster := singleNodeCluster props;
     managerNodeCount := managerNodeCount props;
     dataNodeCount := dataNodeCount props;
     ingestNodeCount := ingestNodeCount props;
     clientNodeCount := clientNodeCount props;
     mlNodeCount := mlNodeCount props;
     dataNodeStorage := dataNodeStorage props;
     mlNodeStorage := mlNodeStorage props;
     jvmSysPropsString := jvmSysPropsString props;
     additionalConfig := Some extra;
     additionalOsdConfig := additionalOsdConfig props;
     dataEc2InstanceType := dataEc2InstanceType props;
     mlEc2InstanceType := mlEc2InstanceType props;
     use50PercentHeap := use50PercentHeap props;
     isInternal := isInternal props;
     enableRemoteStore := enableRemoteStore props;
     storageVolumeType := storageVolumeType props;
     customRoleArn := customRoleArn props |}.

(** What the code reads of a CDK [Stack]. *)
Record Stack := {
  stackName : string;
  account : string;
  region : string
}.

Record LogGroup := { logGroupName : string }.

(** A string used as a condition: only the empty string is falsy. *)
Definition truthy (s : string) : bool := negb (String.eqb s EmptyString).

(** ** Init elements *)

Record CommandOptions := {
  cwd : option string;
  ignoreErrors : option bool
}.

Definition noOptions : CommandOptions := {| cwd := None; ignoreErrors := None |}.

Inductive InitElement :=
| InitPackage_yum (name : string)
| CloudwatchAgent_asInitFile (path : string) (config : JsValue)
| InitCommand_shellCommand (command : string) (options : CommandOptions)
| InitFile_fromFileInline (target sourcePath mode : string).

Definition shellCommand (command : string) : InitElement :=
  InitCommand_shellCommand command noOptions.

Definition shellCommandIn (command : string) (dir : string) (ignore : option bool)
  : InitElement :=
  InitCommand_shellCommand command {| cwd := Some dir; ignoreErrors := ignore |}.

(** ** The configuration assembler: [InfraStack.getCfnInitElement] *)

Module Assembler.

Section GetCfnInitElement.

(** External collaborators: [dump] of js-yaml, the [nodeConfig] map of
    [lib/opensearch-config/node-config] and the two base documents as
    [load(readFileSync(...))] returns them. *)
Variable dump : JsValue -> string.
Variable nodeConfig : string -> JsValue.
Variable single_node_base_config : list (string * JsValue).
Variable multi_node_base_config : list (string * JsValue).

Definition cloudwatchAgentConfig (scope : Stack) (logGroup : LogGroup) : JsValue :=
  JObject [
    ("agent", JObject [
      ("metrics_collection_interval", JNumber 60);
      ("logfile", JString "/opt/aws/amazon-cloudwatch-agent/logs/amazon-cloudwatch-agent.log");
      ("omit_hostname", JBool true);
      ("debug", JBool false)]);
    ("metrics", JObject [
      ("metrics_collected", JObject [
        ("cpu", JObject [("measurement", JArray (map JString [
           "usage_active"; "usage_guest"; "usage_guest_nice"; "usage_idle";
           "usage_iowait"; "usage_irq"; "usage_nice"; "usage_softirq";
           "usage_steal"; "usage_system"; "usage_user"; "time_active";
           "time_iowait"; "time_system"; "time_user"]))]);
        ("disk", JObject [("measurement", JArray (map JString [
           "free"; "total"; "used"; "used_percent"; "inodes_free";
           "inodes_used"; "inodes_total"]))]);
        ("diskio", JObject [("measurement", JArray (map JString [
           "reads"; "writes"; "read_bytes"; "write_bytes"; "read_time";
           "write_time"; "io_time"]))]);
        ("mem", JObject [("measurement", JArray (map JString [
           "active"; "available"; "available_percent"; "buffered"; "cached";
           "free"; "inactive"; "total"; "used"; "used_percent"]))]);
        ("net", JObject [("measurement", JArray (map JString [
           "bytes_sent"; "bytes_recv"; "drop_in"; "drop_out"; "err_in";
           "err_out"; "packets_sent"; "packets_recv"]))])])]);
    ("logs", JObject [
      ("logs_collected", JObject [
        ("files", JObject [
          ("collect_list", JArray [JObject [
            ("file_path", JString ("/home/ec2-user/elasticsearch/logs/"
               +:+ stackName scope +:+ "-" +:+ account scope +:+ "-"
               +:+ region scope +:+ ".log"));
            ("log_group_name", JString (logGroupName logGroup));
            ("log_stream_name", JString "{instance_id}");
            ("auto_removal", JBool true)]])])]);
      ("force_flush_interval", JNumber 5)])].

(** The elements every node starts with (lines 432-499). *)
Definition initialElements (scope : Stack) (logGroup : LogGroup) (props : infraProps)
  : list InitElement :=
  [ InitPackage_yum "amazon-cloudwatch-agent";
    CloudwatchAgent_asInitFile
      "/opt/aws/amazon-cloudwatch-agent/etc/amazon-cloudwatch-agent.json"
      (cloudwatchAgentConfig scope logGroup);
    shellCommand "set -ex;/opt/aws/amazon-cloudwatch-agent/bin/amazon-cloudwatch-agent-ctl -a stop";
    shellCommand "set -ex;/opt/aws/amazon-cloudwatch-agent/bin/amazon-cloudwatch-agent-ctl -a fetch-config -m ec2 -c file:/opt/aws/amazon-cloudwatch-agent/etc/amazon-cloudwatch-agent.json -s";
    shellCommand ("set -ex; sudo echo " +:+ dq +:+ "vm.max_map_count=262144" +:+ dq
                  +:+ " >> /etc/sysctl.conf;sudo sysctl -p");
    shellCommandIn
      ("set -ex;mkdir elasticsearch; curl -L " +:+ distributionUrl props
       +:+ " -o elasticsearch.tar.gz;"
       +:+ "tar zxf elasticsearch.tar.gz -C elasticsearch --strip-components=1; chown -R ec2-user:ec2-user elasticsearch;")
      "/home/ec2-user" (Some false);
    shellCommand "sleep 15" ].

Definition clusterName (scope : Stack) : string :=
  stackName scope +:+ "-" +:+ account scope +:+ "-" +:+ region scope.

(** Lines 502-511: the single-node document. *)
Definition opensearchConfig (scope : Stack) : string :=
  let fileContent :=
    obj_set "cluster.name" (JString (clusterName scope)) single_node_base_config in
  dump (JObject fileContent).

Definition singleNodeCommand (scope : Stack) : InitElement :=
  shellCommandIn
    ("set -ex;cd elasticsearch; echo " +:+ dq +:+ opensearchConfig scope +:+ dq
     +:+ " > config/elasticsearch.yml")
    "/home/ec2-user" None.

Definition singleNodeElements (scope : Stack) : list InitElement :=
  [singleNodeCommand scope].

(** Lines 547-577: the remote-store attributes. *)
Definition remoteStoreElements (scope : Stack) : list InitElement :=
  [ shellCommandIn
      ("set -ex;cd opensearch; echo " +:+ dq
       +:+ ("node.attr.remote_store.segment.repository: " +:+ stackName scope +:+ "-repo")
       +:+ dq +:+ " >> config/opensearch.yml")
      "/home/ec2-user" (Some false);
    shellCommandIn
      ("set -ex;cd opensearch; echo " +:+ dq
       +:+ ("node.attr.remote_store.repository." +:+ stackName scope +:+ "-repo.type: s3")
       +:+ dq +:+ " >> config/opensearch.yml")
      "/home/ec2-user" (Some false);
    shellCommandIn
      ("set -ex;cd opensearch; echo " +:+ dq
       +:+ ("node.attr.remote_store.repository." +:+ stackName scope +:+ "-repo.settings:"
            +:+ nl +:+ "  bucket : " +:+ stackName scope
            +:+ nl +:+ "  base_path: remote-store"
            +:+ nl +:+ "  region: " +:+ region scope)
       +:+ dq +:+ " >> config/opensearch.yml")
      "/home/ec2-user" (Some false);
    shellCommandIn
      ("set -ex;cd opensearch; echo " +:+ dq
       +:+ ("node.attr.remote_store.translog.repository: " +:+ stackName scope +:+ "-repo")
       +:+ dq +:+ " >> config/opensearch.yml")
      "/home/ec2-user" (Some false);
    shellCommandIn
      ("set -ex;cd opensearch; echo " +:+ dq
       +:+ ("node.attr.remote_store.state.repository: " +:+ stackName scope +:+ "-repo")
       +:+ dq +:+ " >> config/opensearch.yml")
      "/home/ec2-user" (Some false) ].

(** Lines 513-529: the common multi-node document. *)
Definition commonConfig (scope : Stack) : string :=
  let baseConfig :=
    obj_set "cluster.name" (JString (clusterName scope)) multi_node_base_config in
  let baseConfig :=
    obj_set "discovery.ec2.tag.Name"
      (JString (stackName scope +:+ "/seedNodeAsg," +:+ stackName scope +:+ "/managerNodeAsg"))
      baseConfig in
  dump (JObject baseConfig).

Definition commonConfigCommand (scope : Stack) : InitElement :=
  shellCommandIn
    ("set -ex;cd elasticsearch; echo " +:+ dq +:+ commonConfig scope +:+ dq
     +:+ " > config/elasticsearch.yml")
    "/home/ec2-user" None.

(** Lines 531-538: the overlay of the node type. *)
Definition nodeConfigData (nodeType : string) : string :=
  let nodeTypeConfig := nodeConfig nodeType in
  dump nodeTypeConfig.

Definition nodeConfigCommand (nodeType : string) : InitElement :=
  shellCommandIn
    ("set -ex;cd elasticsearch; echo " +:+ dq +:+ nodeConfigData nodeType +:+ dq
     +:+ " >> config/elasticsearch.yml")
    "/home/ec2-user" None.

Definition discoveryPluginCommand : InitElement :=
  shellCommandIn
    "set -ex;cd elasticsearch;sudo -u ec2-user bin/elasticsearch-plugin install discovery-ec2 --batch"
    "/home/ec2-user" (Some false).

Definition multiNodeElements (scope : Stack) (props : infraProps)
    (nodeType : option string) : list InitElement :=
  [commonConfigCommand scope]
  ++ match nodeType with
     | Some t => [nodeConfigCommand t]
     | None => []
     end
  ++ (if negb (minDistribution props) then [discoveryPluginCommand] else [])
  ++ (if enableRemoteStore props then remoteStoreElements scope else []).

(** Lines 606-616. *)
Definition jvmSysPropsCommand (jvm : string) : InitElement :=
  shellCommandIn
    ("set -ex; cd elasticsearch; jvmSysPropsList=$(echo " +:+ dq +:+ jvm +:+ dq
     +:+ " | tr ',' '" +:+ bslash +:+ "n');"
     +:+ "for sysProp in $jvmSysPropsList;do echo " +:+ dq +:+ "-D$sysProp" +:+ dq
     +:+ " >> config/jvm.options;done")
    "/home/ec2-user" (Some false).

(** Lines 618-630. *)
Definition heapCommand : InitElement :=
  shellCommandIn
    ("set -ex; cd elasticsearch;" +:+ nl
     +:+ "      totalMem=" +:+ btick
     +:+ "expr $(free -g | awk '/^Mem:/{print $2}') + 1" +:+ btick +:+ ";" +:+ nl
     +:+ "      heapSizeInGb=" +:+ btick +:+ "expr $totalMem / 2" +:+ btick +:+ ";" +:+ nl
     +:+ "      if [ $heapSizeInGb -lt 32 ];then minHeap=" +:+ dq +:+ "-Xms" +:+ dq
     +:+ "$heapSizeInGb" +:+ dq +:+ "g" +:+ dq +:+ ";maxHeap=" +:+ dq +:+ "-Xmx" +:+ dq
     +:+ "$heapSizeInGb" +:+ dq +:+ "g" +:+ dq +:+ ";else minHeap=" +:+ dq +:+ "-Xms32g"
     +:+ dq +:+ ";maxHeap=" +:+ dq +:+ "-Xmx32g" +:+ dq +:+ ";fi" +:+ nl
     +:+ "      sed -i -e " +:+ dq +:+ "s/^-Xms[0-9a-z]*$/$minHeap/g" +:+ dq
     +:+ " config/jvm.options;" +:+ nl
     +:+ "      sed -i -e " +:+ dq +:+ "s/^-Xmx[0-9a-z]*$/$maxHeap/g" +:+ dq
     +:+ " config/jvm.options;")
    "/home/ec2-user" (Some false).

(** Lines 632-640: the user's text. *)
Definition additionalConfigCommand (extra : string) : InitElement :=
  shellCommandIn
    ("set -ex; cd elasticsearch; echo " +:+ dq +:+ extra +:+ dq
     +:+ ">>config/elasticsearch.yml")
    "/home/ec2-user" (Some false).

(** Lines 642-647. *)
Definition runCommand : InitElement :=
  shellCommandIn
    "set -ex;cd elasticsearch; sudo -u ec2-user nohup ./bin/elasticsearch >> install.log 2>&1 &"
    "/home/ec2-user" (Some false).

(** Lines 651-662. *)
Definition captureProxyElements (props : infraProps) : list InitElement :=
  [ shellCommandIn
      ("set -ex; curl -L0 " +:+ captureProxyTarUrl props
       +:+ " --output CaptureProxyX64.tar.gz; tar -xvf CaptureProxyX64.tar.gz;")
      "/home/ec2-user/capture-proxy" (Some false);
    InitFile_fromFileInline "/home/ec2-user/capture-proxy/startCaptureProxy.sh"
      "./startCaptureProxy.sh" "000744" ].

(** Lines 665-705. *)
Definition dashboardsElements (props : infraProps) : Outcome (list InitElement) :=
  let cfg :=
    [ shellCommandIn
        ("set -ex;mkdir opensearch-dashboards; curl -L " +:+ dashboardsUrl props
         +:+ " -o opensearch-dashboards.tar.gz;"
         +:+ "tar zxf opensearch-dashboards.tar.gz -C opensearch-dashboards --strip-components=1; chown -R ec2-user:ec2-user opensearch-dashboards;")
        "/home/ec2-user" (Some false);
      shellCommandIn
        ("set -ex;cd opensearch-dashboards;echo " +:+ dq +:+ "server.host: 0.0.0.0" +:+ dq
         +:+ " >> config/opensearch_dashboards.yml")
        "/home/ec2-user" (Some false) ] in
  let cfg :=
    if securityDisabled props && negb (minDistribution props)
    then cfg ++ [ shellCommandIn
                    ("set -ex;cd opensearch-dashboards;"
                     +:+ "./bin/opensearch-dashboards-plugin remove securityDashboards --allow-root;"
                     +:+ "sed -i /^opensearch_security/d config/opensearch_dashboards.yml;"
                     +:+ "sed -i 's/https/http/' config/opensearch_dashboards.yml")
                    "/home/ec2-user" (Some false) ]
    else cfg in
  (let! osd := toString (additionalOsdConfig props) in
   let cfg :=
     if negb (String.eqb osd "undefined")
     then cfg ++ [ shellCommandIn
                     ("set -ex;cd opensearch-dashboards; echo " +:+ dq +:+ osd +:+ dq
                      +:+ ">>config/opensearch_dashboards.yml")
                     "/home/ec2-user" (Some false) ]
     else cfg in
   Returned
     (cfg ++ [ shellCommandIn
                 ("set -ex;cd opensearch-dashboards;"
                  +:+ "sudo -u ec2-user nohup ./bin/opensearch-dashboards > dashboard_install.log 2>&1 &")
                 "/home/ec2-user" (Some false) ]))%outcome.

(** [InfraStack.getCfnInitElement] (lines 428-708). The list is built by
    [push], so each [++] below appends at the end. *)
Definition getCfnInitElement (scope : Stack) (logGroup : LogGroup)
    (props : infraProps) (nodeType : option string) : Outcome (list InitElement) :=
  let cfnInitConfig := initialElements scope logGroup props in
  let cfnInitConfig :=
    if singleNodeCluster props
    then cfnInitConfig ++ singleNodeElements scope
    else cfnInitConfig ++ multiNodeElements scope props nodeType in
  (let! jvm := toString (jvmSysPropsString props) in
   let cfnInitConfig :=
     if negb (String.eqb jvm "undefined")
     then cfnInitConfig ++ [jvmSysPropsCommand jvm] else cfnInitConfig in
   let cfnInitConfig :=
     if use50PercentHeap props
     then cfnInitConfig ++ [heapCommand] else cfnInitConfig in
   let! extra := toString (additionalConfig props) in
   let cfnInitConfig :=
     if negb (String.eqb extra "undefined")
     then cfnInitConfig ++ [additionalConfigCommand extra] else cfnInitConfig in
   let cfnInitConfig := cfnInitConfig ++ [runCommand] in
   let cfnInitConfig :=
     if truthy (captureProxyEnabled props)
     then cfnInitConfig ++ captureProxyElements props else cfnInitConfig in
   if negb (String.eqb (dashboardsUrl props) "undefined")
   then
     let! osd := dashboardsElements props in
     Returned (cfnInitConfig ++ osd)
   else Returned cfnInitConfig)%outcome.

(** *** The list around the user's text *)

(** Everything pushed before the user's text (lines 432-630). *)
Definition structural (scope : Stack) (logGroup : LogGroup) (props : infraProps)
    (nodeType : option string) (jvm : string) : list InitElement :=
  initialElements scope logGroup props
  ++ (if singleNodeCluster props
      then [singleNodeCommand scope]
      else multiNodeElements scope props nodeType)
  ++ (if negb (String.eqb jvm "undefined") then [jvmSysPropsCommand jvm] else [])
  ++ (if use50PercentHeap props then [heapCommand] else []).

(** Everything pushed after it (lines 642-705). *)
Definition trailing (props : infraProps) (osd : list InitElement) : list InitElement :=
  [runCommand]
  ++ (if truthy (captureProxyEnabled props) then captureProxyElements props else [])
  ++ osd.

Definition dashboards (props : infraProps) : list InitElement :=
  if negb (String.eqb (dashboardsUrl props) "undefined")
  then match dashboardsElements props with
       | Returned l => l
       | Thrown _ => []
       end
  else [].

End GetCfnInitElement.

End Assembler.

(** ** How the node runs the commands of an init list

    cfn-init puts the packages and files of the list in place and then runs
    its commands in the order of the list, each in its working directory; a
    command that fails ends the run unless it has [ignoreErrors: true]. The
    configuration documents are written by commands of the form
    [set -ex;cd DIR; echo "TEXT" > FILE] (or [>>]). The functions below read
    such a command back from its text and follow two things through a run:
    the directories that exist, which decide whether [cd DIR] succeeds, and
    the text of one document. What [echo] prints is read off the text as the
    shell does it where the text has quotes; a text with a dollar, a backquote
    or a backslash, or with anything but plain characters outside quotes, is
    not given a meaning. Everything else a command does is left to a
    parameter that stands for the node. *)

Module Shell.

Inductive Redirect := Truncate | Append.

Fixpoint strip_prefix (p s : string) : option string :=
  match p with
  | EmptyString => Some s
  | String a p' =>
      match s with
      | EmptyString => None
      | String b s' => if Ascii.eqb a b then strip_prefix p' s' else None
      end
  end.

Fixpoint skip_spaces (s : string) : string :=
  match s with
  | String c s' => if Ascii.eqb c " " then skip_spaces s' else s
  | EmptyString => EmptyString
  end.

(** The text up to the first [c], and the text after it. *)
Fixpoint split_at (c : ascii) (s : string) : option (string * string) :=
  match s with
  | EmptyString => None
  | String a s' =>
      if Ascii.eqb a c then Some (EmptyString, s')
      else match split_at c s' with
           | Some (l, r) => Some (String a l, r)
           | None => None
           end
  end.

(** The text up to the last [c], and the text after it. *)
Fixpoint split_at_last (c : ascii) (s : string) : option (string * string) :=
  match s with
  | EmptyString => None
  | String a s' =>
      match split_at_last c s' with
      | Some (l, r) => Some (String a l, r)
      | None => if Ascii.eqb a c then Some (EmptyString, s') else None
      end
  end.

Fixpoint all_chars (P : ascii -> bool) (s : string) : bool :=
  match s with
  | EmptyString => true
  | String a s' => P a && all_chars P s'
  end.

Definition quote : ascii := ascii_of_nat 34.

Definition no_quote (s : string) : bool :=
  all_chars (fun a => negb (Ascii.eqb a quote)) s.

(** A text the shell leaves alone inside double quotes. *)
Definition plain (text : string) : bool :=
  negb (String.prefix "-" text)
  && all_chars (fun a => negb (Ascii.eqb a quote) && negb (Ascii.eqb a "$")
                      && negb (Ascii.eqb a (ascii_of_nat 96))
                      && negb (Ascii.eqb a (ascii_of_nat 92))) text.

(** A file name that is one word of the command. *)
Definition word (file : string) : bool :=
  negb (String.eqb file EmptyString)
  && all_chars (fun a => negb (Ascii.eqb a " ") && negb (Ascii.eqb a ";")
                         && negb (Ascii.eqb a "&") && negb (Ascii.eqb a "|")
                         && negb (Ascii.eqb a "<") && negb (Ascii.eqb a ">")
                         && negb (Ascii.eqb a quote)) file.

Record EchoRedirect := {
  directory : string;
  text : string;
  redirect : Redirect;
  file : string
}.

(** The head [set -ex;cd DIR; echo] and the opening quote: the directory
    and what follows the quote. *)
Definition parse_head (command : string) : option (string * string) :=
  match strip_prefix "set -ex;" command with
  | None => None
  | Some s1 =>
      match strip_prefix "cd " (skip_spaces s1) with
      | None => None
      | Some s2 =>
          match split_at ";" s2 with
          | None => None
          | Some (dir, s3) =>
              match strip_prefix "echo " (skip_spaces s3) with
              | None => None
              | Some s4 =>
                  match s4 with
                  | String a s5 => if Ascii.eqb a quote then Some (dir, s5) else None
                  | EmptyString => None
                  end
              end
          end
      end
  end.

(** What follows the closing quote: [>] or [>>] and the file. *)
Definition parse_redirect (s : string) : option (Redirect * string) :=
  let s := skip_spaces s in
  match strip_prefix ">>" s with
  | Some f => if word (skip_spaces f) then Some (Append, skip_spaces f) else None
  | None =>
      match strip_prefix ">" s with
      | Some f => if word (skip_spaces f) then Some (Truncate, skip_spaces f) else None
      | None => None
      end
  end.

Definition parse_echo (command : string) : option EchoRedirect :=
  match parse_head command with
  | None => None
  | Some (dir, s) =>
      match split_at_last quote s with
      | None => None
      | Some (t, s') =>
          match parse_redirect s' with
          | None => None
          | Some (r, f) =>
              Some {| directory := dir; text := t; redirect := r; file := f |}
          end
      end
  end.

Definition target (cwd : string) (e : EchoRedirect) : string :=
  cwd +:+ "/" +:+ directory e +:+ "/" +:+ file e.

(** *** What [echo] prints *)

(** A character that stands for itself outside quotes: a letter, a digit or
    one of [/ . _ - : , = + @ %]. *)
Definition bare (a : ascii) : bool :=
  let n := nat_of_ascii a in
  ((48 <=? n)%nat && (n <=? 57)%nat)
  || ((65 <=? n)%nat && (n <=? 90)%nat)
  || ((97 <=? n)%nat && (n <=? 122)%nat)
  || existsb (Ascii.eqb a) (list_ascii_of_string "/._-:,=+@%").

(** The word the shell makes of what stands between the quote after [echo]
    and the last quote of the command. A quote inside the text closes the
    quoted stretch or opens the next one and is itself dropped. Inside
    quotes every character stands for itself but dollar, backquote and
    backslash, which are not read here; outside quotes only the [bare]
    characters are read. The last quote of the command must find a quoted
    stretch to close. *)
Fixpoint read_word (quoted : bool) (s : string) : option string :=
  match s with
  | EmptyString => if quoted then Some EmptyString else None
  | String a s' =>
      if Ascii.eqb a quote then read_word (negb quoted) s'
      else if (if quoted
               then negb (Ascii.eqb a "$") && negb (Ascii.eqb a (ascii_of_nat 96))
                    && negb (Ascii.eqb a (ascii_of_nat 92))
               else bare a)
      then match read_word quoted s' with
           | Some printed => Some (String a printed)
           | None => None
           end
      else None
  end.

(** What [echo "TEXT"] prints before the line end: the word, unless it
    begins with a dash ([echo] may take it for an option). *)
Definition shell_reads (text : string) : option string :=
  match read_word true text with
  | Some printed => if String.prefix "-" printed then None else Some printed
  | None => None
  end.

(** *** Running the commands of an init list *)

(** What the run keeps track of: the directories that exist and the text of
    one document. *)
Record Files := {
  directories : list string;
  document : string
}.

(** How a command, or a list, ends. cfn-init goes no further after a
    command that fails. *)
Inductive Step :=
| Ran (files : Files)
| Stopped (files : Files)
| Unread.

Definition exists_dir (path : string) (files : Files) : bool :=
  existsb (String.eqb path) (directories files).

Definition enter (dir : string) (files : Files) : Files :=
  {| directories := dir :: directories files; document := document files |}.

(** The directory of a command that begins [set -ex;cd DIR;]. *)
Definition parse_cd (command : string) : option string :=
  match strip_prefix "set -ex;" command with
  | None => None
  | Some s1 =>
      match strip_prefix "cd " (skip_spaces s1) with
      | None => None
      | Some s2 =>
          match split_at ";" s2 with
          | Some (dir, _) => Some dir
          | None => None
          end
      end
  end.

(** The directory of a command that begins [set -ex;mkdir DIR;]. *)
Definition parse_mkdir (command : string) : option string :=
  match strip_prefix "set -ex;" command with
  | None => None
  | Some s1 =>
      match strip_prefix "mkdir " (skip_spaces s1) with
      | None => None
      | Some s2 =>
          match split_at ";" s2 with
          | Some (dir, _) => Some dir
          | None => None
          end
      end
  end.

Definition ignored (options : CommandOptions) : bool :=
  match ignoreErrors options with
  | Some true => true
  | _ => false
  end.

Section Run.

(** What the model does not read is the node's: [other command files] is
    how a command, or the rest of one, ends on the node (downloads, archives,
    plugins, services). *)
Variable other : string -> Files -> Step.

(** The document the run follows. *)
Variable path : string.

(** One command in its working directory, under [set -e]:
    - [cd DIR] fails when the directory does not exist, and nothing of the
      command is done;
    - after [cd DIR], an [echo] with a redirection writes its file, the
      document when the file is the document; the directory of the file is
      taken to exist;
    - [mkdir DIR] fails when the directory exists, else it makes the
      directory and the rest of the command is the node's;
    - any other command is the node's. *)
Definition run_command (command : string) (dir : string) (files : Files) : Step :=
  match parse_cd command with
  | Some d =>
      if exists_dir (dir +:+ "/" +:+ d) files then
        match parse_echo command with
        | Some w =>
            match shell_reads (text w) with
            | Some printed =>
                if String.eqb (target dir w) path then
                  Ran {| directories := directories files;
                         document := match redirect w with
                                     | Truncate => printed +:+ nl
                                     | Append => document files +:+ printed +:+ nl
                                     end |}
                else Ran files
            | None => Unread
            end
        | None => other command files
        end
      else Stopped files
  | None =>
      match parse_mkdir command with
      | Some d =>
          if exists_dir (dir +:+ "/" +:+ d) files then Stopped files
          else other command (enter (dir +:+ "/" +:+ d) files)
      | None => other command files
      end
  end.

(** One element of the list. Packages and files are put in place before
    the first command runs and are left out. A failure is passed over when
    the command has [ignoreErrors: true]. *)
Definition run_element (e : InitElement) (files : Files) : Step :=
  match e with
  | InitCommand_shellCommand command options =>
      let step :=
        match cwd options with
        | Some dir => run_command command dir files
        | None => other command files
        end in
      match step with
      | Stopped files' => if ignored options then Ran files' else step
      | _ => step
      end
  | _ => Ran files
  end.

Fixpoint run_elements (l : list InitElement) (files : Files) : Step :=
  match l with
  | [] => Ran files
  | e :: l' =>
      match run_element e files with
      | Ran files' => run_elements l' files'
      | Stopped files' => Stopped files'
      | Unread => Unread
      end
  end.

End Run.

(** A node on which everything the model does not read ends well and leaves
    the directories and the document alone. *)
Definition quiet (command : string) (files : Files) : Step := Ran files.

(** Does the element write the document at [path]? *)
Definition writes (path : string) (e : InitElement) : bool :=
  match e with
  | InitCommand_shellCommand command {| cwd := Some dir |} =>
      match parse_echo command with
      | Some w => String.eqb (target dir w) path
      | None => false
      end
  | _ => false
  end.

(** *** Reading a document with the last occurrence of a key winning *)

(** The lines of a text. *)
Fixpoint lines (s : string) : list string :=
  match s with
  | EmptyString => [EmptyString]
  | String a s' =>
      if Ascii.eqb a (ascii_of_nat 10) then EmptyString :: lines s'
      else match lines s' with
           | l :: ls => String a l :: ls
           | [] => [String a EmptyString]
           end
  end.

(** A line [key: value] (the key is what stands before the first colon). *)
Definition setting (line : string) : option (string * string) :=
  match split_at ":" line with
  | Some (k, v) => Some (k, skip_spaces v)
  | None => None
  end.

Fixpoint lookup_last (key : string) (ls : list string) : option string :=
  match ls with
  | [] => None
  | l :: ls' =>
      match lookup_last key ls' with
      | Some v => Some v
      | None =>
          match setting l with
          | Some (k, v) => if String.eqb k key then Some v else None
          | None => None
          end
      end
  end.

Definition resolve (key : string) (document : string) : option string :=
  lookup_last key (lines document).

End Shell.

Definition elasticsearch_yml : string :=
  "/home/ec2-user/elasticsearch/config/elasticsearch.yml".

Section StructuralTexts.

Variable dump : JsValue -> string.
Variable nodeConfig : string -> JsValue.
Variable single_node_base_config : list (string * JsValue).
Variable multi_node_base_config : list (string * JsValue).

(** The structural texts are plain. *)
Definition structural_texts_plain (scope : Stack) (props : infraProps)
    (nodeType : option string) : Prop :=
  if singleNodeCluster props
  then Shell.plain (Assembler.opensearchConfig dump single_node_base_config scope) = true
  else Shell.plain (Assembler.commonConfig dump multi_node_base_config scope) = true
       /\ forall t, nodeType = Some t ->
                    Shell.plain (Assembler.nodeConfigData dump nodeConfig t) = true.

End StructuralTexts.

(** ** The topology planner: the [InfraStack] constructor

    The constructs that decide the topology are embedded: the single-node
    instance, the capacity groups, their tags and the targets of the
    listeners. The log group, the instance role, the load balancer and the
    stack outputs are handed to the provisioning layer as they are and are
    left out. The constructors of aws-cdk-lib are taken to accept the
    properties they are given. *)

Module Planner.

Record BlockDevice := {
  deviceName : string;
  volumeSize : Z;
  deleteOnTermination : bool;
  volumeType : EbsDeviceVolumeType
}.

(** [BlockDeviceVolume.ebs(size, { deleteOnTermination: true, volumeType })]
    on [/dev/xvda]. *)
Definition xvda (size : Z) (props : infraProps) : BlockDevice :=
  {| deviceName := "/dev/xvda"; volumeSize := size;
     deleteOnTermination := true; volumeType := storageVolumeType props |}.

(** The properties handed to [new AutoScalingGroup] and [new Instance] that
    vary between the groups; [vpc], [role], [vpcSubnets], [securityGroup],
    [initOptions] and [requireImdsv2] are the same everywhere. *)
Record AutoScalingGroup := {
  instanceType : option InstanceType;
  machineImageCpuType : AmazonLinuxCpuType;
  maxCapacity : Z;
  minCapacity : Z;
  desiredCapacity : Z;
  blockDevices : list BlockDevice;
  init : list InitElement
}.

Record Instance := {
  inst_instanceType : option InstanceType;
  inst_machineImageCpuType : AmazonLinuxCpuType;
  inst_blockDevices : list BlockDevice;
  inst_init : list InitElement
}.

Inductive Resource :=
| AnInstance (i : Instance)
| AnAutoScalingGroup (g : AutoScalingGroup).

(** An object of the construct tree: its id in the stack, what it is, and
    the tags added to it so far, in the order of the [add] calls. *)
Record Construct := {
  constructId : string;
  resource : Resource;
  tags : list (string * string)
}.

Definition loc := nat.

Record Listener := {
  listenerId : string;
  listenerPort : Z
}.

(** One [listener.addTargets(id, { port, targets })] call. *)
Record TargetGroup := {
  ofListener : Listener;
  targetGroupId : string;
  targetPort : Z;
  targets : list loc
}.

(** The state the constructor builds up. *)
Record Tree := {
  heap : list Construct;
  targetGroups : list TargetGroup
}.

Definition emptyTree : Tree := {| heap := []; targetGroups := [] |}.

(** Construction: a state over [Tree] in which a call may throw. *)
Definition Build (A : Type) : Type := Tree -> Outcome (A * Tree).

Definition ret {A} (a : A) : Build A := fun t => Returned (a, t).

Definition bind {A B} (m : Build A) (k : A -> Build B) : Build B :=
  fun t =>
    match m t with
    | Returned (a, t') => k a t'
    | Thrown e => Thrown e
    end.

Definition lift {A} (o : Outcome A) : Build A :=
  fun t =>
    match o with
    | Returned a => Returned (a, t)
    | Thrown e => Thrown e
    end.

#[global] Instance build_ret : MRet Build := @ret.
#[global] Instance build_bind : MBind Build := fun A B k m => bind m k.

(** [new C(this, id, props)]: the object gets the next free location. *)
Definition new (id : string) (r : Resource) : Build loc :=
  fun t =>
    Returned (length (heap t),
              {| heap := heap t ++ [{| constructId := id; resource := r; tags := [] |}];
                 targetGroups := targetGroups t |}).

(** [Tags.of(x).add(key, value)]: mutates the object [x] names. *)
Definition addTag (x : loc) (key value : string) : Build unit :=
  fun t =>
    Returned (tt,
              {| heap := alter (fun c => {| constructId := constructId c;
                                            resource := resource c;
                                            tags := tags c ++ [(key, value)] |}) x (heap t);
                 targetGroups := targetGroups t |}).

(** [listener.addTargets(id, { port, targets })]. *)
Definition addTargets (l : Listener) (id : string) (port : Z) (ts : list loc)
  : Build unit :=
  fun t =>
    Returned (tt,
              {| heap := heap t;
                 targetGroups := targetGroups t
                   ++ [{| ofListener := l; targetGroupId := id;
                          targetPort := port; targets := ts |}] |}).

(** The local variables of the distributed branch once it has run. *)
Record Plan := {
  managerAsgCapacity : Z;
  dataAsgCapacity : Z;
  seedConfig : string;
  managerNodeAsg : option loc;
  seedNodeAsg : loc;
  dataNodeAsg : loc;
  clientNodeAsg : loc;
  mlNodeAsg : option loc
}.

Section Constructor.

Variable dump : JsValue -> string.
Variable nodeConfig : string -> JsValue.
Variable single_node_base_config : list (string * JsValue).
Variable multi_node_base_config : list (string * JsValue).

Definition getCfnInitElement :=
  Assembler.getCfnInitElement dump nodeConfig
    single_node_base_config multi_node_base_config.

(** Lines 144-154. *)
Definition singleNodeInstanceType (props : infraProps) : InstanceType :=
  match dataEc2InstanceType props with
  | Some t => t
  | None =>
      match cpuType props with
      | X86_64 => InstanceType_of R5 XLARGE
      | ARM_64 => InstanceType_of R6G XLARGE
      end
  end.

Definition defaultInstanceType (props : infraProps) : InstanceType :=
  match cpuType props with
  | X86_64 => InstanceType_of C5 XLARGE
  | ARM_64 => InstanceType_of C6G XLARGE
  end.

(** Lines 162-187: the listeners of the load balancer. *)
Definition opensearchListener (props : infraProps) : Listener :=
  if negb (securityDisabled props) && negb (minDistribution props)
  then {| listenerId := "elasticsearchHTTPS"; listenerPort := 443 |}
  else {| listenerId := "elasticsearch9200"; listenerPort := 9200 |}.

Definition opensearchListener19200 (props : infraProps) : Listener :=
  if negb (securityDisabled props) && negb (minDistribution props)
  then {| listenerId := "elasticsearchHTTP"; listenerPort := 80 |}
  else {| listenerId := "elasticsearch19200"; listenerPort := 19200 |}.

Definition dashboardsListener : Listener :=
  {| listenerId := "dashboards"; listenerPort := 8443 |}.

(** Line 117: [clusterLogGroup]. *)
Definition clusterLogGroup (id : string) : LogGroup :=
  {| logGroupName := id +:+ "LogGroup/elasticsearch.log" |}.

Definition asg (props : infraProps) (type : option InstanceType) (capacity : Z)
    (volume : Z) (elements : list InitElement) : Resource :=
  AnAutoScalingGroup
    {| instanceType := type;
       machineImageCpuType := cpuType props;
       maxCapacity := capacity;
       minCapacity := capacity;
       desiredCapacity := capacity;
       blockDevices := [xvda volume props];
       init := elements |}.

(** Lines 195-239: the single-node branch. *)
Definition singleNodeBranch (self : Stack) (id : string) (props : infraProps)
  : Build unit :=
  elements ← lift (getCfnInitElement self (clusterLogGroup id) props None);
  singleNodeInstance ← new "single-node-instance"
    (AnInstance {| inst_instanceType := Some (singleNodeInstanceType props);
                   inst_machineImageCpuType := cpuType props;
                   inst_blockDevices := [xvda (dataNodeStorage props) props];
                   inst_init := elements |});
  addTag singleNodeInstance "role" "client";;
  addTargets (opensearchListener props) "single-node-target" 9200 [singleNodeInstance];;
  addTargets (opensearchListener19200 props) "single-node-target" 19200 [singleNodeInstance];;
  if negb (String.eqb (dashboardsUrl props) "undefined")
  then addTargets dashboardsListener "single-node-osd-target" 5601 [singleNodeInstance]
  else mret tt.

(** Lines 241-247. *)
Definition capacities (props : infraProps) : Z * Z :=
  if (managerNodeCount props >? 0)%Z
  then ((managerNodeCount props - 1)%Z, dataNodeCount props)
  else (managerNodeCount props, (dataNodeCount props - 1)%Z).

(** Lines 249-281: the manager group, and the configuration the seed gets. *)
Definition managerGroup (self : Stack) (id : string) (props : infraProps)
    (managerAsgCapacity : Z) : Build (option loc * string) :=
  if (managerAsgCapacity >? 0)%Z
  then
    elements ← lift (getCfnInitElement self (clusterLogGroup id) props (Some "manager"));
    managerNodeAsg ← new "managerNodeAsg"
      (asg props (Some (defaultInstanceType props)) managerAsgCapacity 50 elements);
    addTag managerNodeAsg "role" "manager";;
    mret (Some managerNodeAsg, "seed-manager")
  else mret (None, "seed-data").

(** Lines 283-310. *)
Definition seedGroup (self : Stack) (id : string) (props : infraProps)
    (seedConfig : string) : Build loc :=
  elements ← lift (getCfnInitElement self (clusterLogGroup id) props (Some seedConfig));
  seedNodeAsg ← new "seedNodeAsg"
    (asg props
       (if String.eqb seedConfig "seed-manager"
        then Some (defaultInstanceType props) else dataEc2InstanceType props)
       1
       (if String.eqb seedConfig "seed-manager" then 50 else dataNodeStorage props)
       elements);
  addTag seedNodeAsg "role" "manager";;
  mret seedNodeAsg.

(** Lines 312-338. *)
Definition dataGroup (self : Stack) (id : string) (props : infraProps)
    (dataAsgCapacity : Z) : Build loc :=
  elements ← lift (getCfnInitElement self (clusterLogGroup id) props (Some "data"));
  dataNodeAsg ← new "dataNodeAsg"
    (asg props (dataEc2InstanceType props) dataAsgCapacity (dataNodeStorage props) elements);
  addTag dataNodeAsg "role" "data";;
  mret dataNodeAsg.

(** Lines 340-372. *)
Definition clientGroup (scope self : Stack) (id : string) (props : infraProps)
    (dataNodeAsg : loc) : Build loc :=
  clientNodeAsg ←
    (if (clientNodeCount props =? 0)%Z
     then mret dataNodeAsg
     else
       elements ← lift (getCfnInitElement self (clusterLogGroup id) props (Some "client"));
       clientNodeAsg ← new "clientNodeAsg"
         (asg props (Some (defaultInstanceType props)) (clientNodeCount props) 50 elements);
       addTag clientNodeAsg "cluster" (stackName scope);;
       mret clientNodeAsg);
  addTag clientNodeAsg "role" "client";;
  mret clientNodeAsg.

(** Lines 374-403. *)
Definition mlGroup (self : Stack) (id : string) (props : infraProps)
  : Build (option loc) :=
  if (mlNodeCount props >? 0)%Z
  then
    elements ← lift (getCfnInitElement self (clusterLogGroup id) props (Some "ml"));
    mlNodeAsg ← new "mlNodeAsg"
      (asg props (mlEc2InstanceType props) (mlNodeCount props) (mlNodeStorage props) elements);
    addTag mlNodeAsg "role" "ml-node";;
    mret (Some mlNodeAsg)
  else mret None.

(** Lines 241-420: the distributed branch. *)
Definition distributedBranch (scope self : Stack) (id : string) (props : infraProps)
  : Build Plan :=
  let '(managerAsgCapacity, dataAsgCapacity) := capacities props in
  '(managerNodeAsg, seedConfig) ← managerGroup self id props managerAsgCapacity;
  seedNodeAsg ← seedGroup self id props seedConfig;
  dataNodeAsg ← dataGroup self id props dataAsgCapacity;
  clientNodeAsg ← clientGroup scope self id props dataNodeAsg;
  mlNodeAsg ← mlGroup self id props;
  addTargets (opensearchListener props) "elasticsearchTarget" 9200 [clientNodeAsg];;
  addTargets (opensearchListener19200 props) "elasticsearchTarget" 19200 [clientNodeAsg];;
  (if negb (String.eqb (dashboardsUrl props) "undefined")
   then addTargets dashboardsListener "dashboardsTarget" 5601 [clientNodeAsg]
   else mret tt);;
  mret {| managerAsgCapacity := managerAsgCapacity;
          dataAsgCapacity := dataAsgCapacity;
          seedConfig := seedConfig;
          managerNodeAsg := managerNodeAsg;
          seedNodeAsg := seedNodeAsg;
          dataNodeAsg := dataNodeAsg;
          clientNodeAsg := clientNodeAsg;
          mlNodeAsg := mlNodeAsg |}.

(** The constructor of [InfraStack] (lines 105-426): [scope] is the parent
    stack, [self] the stack under construction. The result is the tree of
    constructs, with the locals of the distributed branch when it ran. *)
Definition InfraStack_constructor (scope self : Stack) (id : string)
    (props : infraProps) : Outcome (option Plan * Tree) :=
  if singleNodeCluster props
  then (_ ← singleNodeBranch self id props; mret None) emptyTree
  else (plan ← distributedBranch scope self id props; mret (Some plan)) emptyTree.

(** The elements [getCfnInitElement] returns when it returns. *)
Definition elementsFor (self : Stack) (id : string) (props : infraProps)
    (nodeType : option string) : list InitElement :=
  match getCfnInitElement self (clusterLogGroup id) props nodeType with
  | Returned l => l
  | Thrown _ => []
  end.

(** The construct a location names. *)
Definition construct_at (t : Tree) (x : loc) : option Construct := heap t !! x.

Definition group_at (t : Tree) (x : loc) : option AutoScalingGroup :=
  match heap t !! x with
  | Some {| resource := AnAutoScalingGroup g |} => Some g
  | _ => None
  end.

End Constructor.

(** The groups of a tree: construct id, desired capacity and tags. *)
Definition groups (t : Tree) : list (string * Z * list (string * string)) :=
  omap (fun c => match resource c with
                 | AnAutoScalingGroup g => Some (constructId c, desiredCapacity g, tags c)
                 | AnInstance _ => None
                 end) (heap t).

End Planner.

(** ** The process supervisor: [startCaptureProxy.sh] *)

Module Supervisor.

(** What one run observes of the node. The script keeps no state of its own:
    every value below is read from the process table or the file system at
    the line given. Each element of [yml] is one line of
    [/home/ec2-user/elasticsearch/config/elasticsearch.yml]; the directories
    the script changes into exist. *)
Record Env := {
  KAFKA_ENDPOINTS_inherited : string;   (* the variable before the script sets it *)
  es_pgrep : string;                    (* line 38: pgrep -f bin/elasticsearch *)
  capture_pgrep : string;               (* line 45: pgrep -f trafficCaptureProxyServer *)
  yml : list string;                    (* line 58 *)
  kill_succeeds : string -> bool;       (* lines 78 and 86 *)
  capture_pgrep_verify : string;        (* line 92, after the sleep *)
  nohup_out : option (list string)      (* lines 95-97: nohup.out, if it exists *)
}.

(** What the script does to the node, in order. *)
Inductive Action :=
| Pgrep (pattern : string)
| ReadConfig
| AppendConfig (line : string)
| SedConfig
| Kill (pid : string)
| StartElasticsearch
| StartCaptureProxy (kafkaConnection : string)
| Sleep (seconds : Z)
| TestExists (file : string)
| Tail (lines : nat) (file : string).

(** The actions that change the node. *)
Definition mutation (a : Action) : bool :=
  match a with
  | AppendConfig _ | SedConfig | Kill _ | StartElasticsearch | StartCaptureProxy _ => true
  | Pgrep _ | ReadConfig | Sleep _ | TestExists _ | Tail _ _ => false
  end.

Record Node := {
  stdout : list string;
  actions : list Action;
  config : list string
}.

(** A script either goes on with a value or has left with an exit status. *)
Inductive Run (A : Type) : Type :=
| Continue (a : A) (n : Node)
| Exited (status : Z) (n : Node).
Arguments Continue {A} a n.
Arguments Exited {A} status n.

Definition Script (A : Type) : Type := Node -> Run A.

#[global] Instance script_ret : MRet Script := fun A a n => Continue a n.
#[global] Instance script_bind : MBind Script :=
  fun A B k m n =>
    match m n with
    | Continue a n' => k a n'
    | Exited c n' => Exited c n'
    end.

Definition echo (s : string) : Script unit :=
  fun n => Continue tt {| stdout := stdout n ++ [s]; actions := actions n;
                          config := config n |}.

Definition perform (a : Action) : Script unit :=
  fun n => Continue tt {| stdout := stdout n; actions := actions n ++ [a];
                          config := config n |}.

Definition write_config (c : list string) : Script unit :=
  fun n => Continue tt {| stdout := stdout n; actions := actions n; config := c |}.

Definition read_config : Script (list string) :=
  fun n => Continue (config n) n.

Definition exit {A} (status : Z) : Script A :=
  fun n => Exited status n.

(** [set -e]: a simple command that fails ends the script with its status. *)
Definition errexit (succeeded : bool) : Script unit :=
  if succeeded then mret tt else exit 1.

(** Lines 5-16. *)
Definition usage_text : list string :=
  [ EmptyString;
    "Restarts ES node with port 19200 and start capture proxy on port 9200";
    EmptyString;
    "Usage: ";
    "  ./startCaptureProxy.sh <--kafka-endpoints STRING>";
    EmptyString;
    "Options:";
    "  --kafka-endpoints                     Kafka broker endpoints that captured traffic will be sent to e.g. 'broker1:9092,broker2:9092'.";
    EmptyString ].

Fixpoint echo_all (l : list string) : Script unit :=
  match l with
  | [] => mret tt
  | s :: l' => echo s;; echo_all l'
  end.

Definition usage {A} : Script A := echo_all usage_text;; exit 1.

(** Lines 18-36: the loop over the positional parameters. When
    [--kafka-endpoints] is the last word, the second [shift] has no parameter
    left and fails, which under [set -e] ends the script with status 1. *)
Fixpoint parse_arguments (args : list string) (KAFKA_ENDPOINTS : string)
  : Script string :=
  match args with
  | [] => mret KAFKA_ENDPOINTS
  | arg1 :: rest =>
      if String.eqb arg1 "--kafka-endpoints" then
        match rest with
        | [] => exit 1
        | arg2 :: rest' => parse_arguments rest' arg2
        end
      else if String.eqb arg1 "-h" || String.eqb arg1 "--help" then
        usage
      else if String.prefix "-" arg1 then
        echo ("Unknown option " +:+ arg1);; usage
      else parse_arguments rest KAFKA_ENDPOINTS
  end.

(** [grep http.port]: the dot stands for any one character. *)
Definition any : option ascii := None.
Definition lit (s : string) : list (option ascii) := map Some (list_ascii_of_string s).

Fixpoint match_here (pattern : list (option ascii)) (s : string) : option string :=
  match pattern with
  | [] => Some s
  | p :: pattern' =>
      match s with
      | EmptyString => None
      | String c s' =>
          match p with
          | None => match_here pattern' s'
          | Some c' => if Ascii.eqb c c' then match_here pattern' s' else None
          end
      end
  end.

Fixpoint contains_match (pattern : list (option ascii)) (s : string) : bool :=
  match match_here pattern s with
  | Some _ => true
  | None =>
      match s with
      | EmptyString => false
      | String _ s' => contains_match pattern s'
      end
  end.

Definition http_port : list (option ascii) := lit "http" ++ [any] ++ lit "port".

Definition grep_http_port (lines : list string) : list string :=
  filter (fun l => contains_match http_port l = true) lines.

(** The text a command substitution yields for the lines printed. *)
Fixpoint join_lines (lines : list string) : string :=
  match lines with
  | [] => EmptyString
  | [l] => l
  | l :: lines' => l +:+ nl +:+ join_lines lines'
  end.

(** [sed 's/http.port: [0-9]\+/http.port: 19200/']: on each line the
    leftmost match, with all the digits that follow, is replaced. *)
Definition is_digit (c : ascii) : bool :=
  (48 <=? nat_of_ascii c)%nat && (nat_of_ascii c <=? 57)%nat.

Fixpoint skip_digits (s : string) : string :=
  match s with
  | String c s' => if is_digit c then skip_digits s' else s
  | EmptyString => EmptyString
  end.

Definition match_port_setting (s : string) : option string :=
  match match_here (http_port ++ lit ": ") s with
  | Some (String c rest) => if is_digit c then Some (skip_digits rest) else None
  | _ => None
  end.

Fixpoint sed_line (s : string) : string :=
  match match_port_setting s with
  | Some rest => "http.port: 19200" +:+ rest
  | None =>
      match s with
      | EmptyString => EmptyString
      | String c s' => String c (sed_line s')
      end
  end.

(** [tail -n 50]. *)
Definition tail_lines (n : nat) (lines : list string) : list string :=
  drop (length lines - n) lines.

(** Lines 38-50: the two processes as the process table shows them. *)
Definition observe (env : Env) : Script (string * string) :=
  perform (Pgrep "bin/elasticsearch");;
  let es_pid := es_pgrep env in
  (if String.eqb es_pid EmptyString
   then echo "No running Elasticsearch process detected"
   else echo ("Elasticsearch process PID: " +:+ es_pid));;
  perform (Pgrep "trafficCaptureProxyServer");;
  let capture_pid := capture_pgrep env in
  (if String.eqb capture_pid EmptyString
   then echo "No running Capture Proxy process detected"
   else echo ("Capture Proxy process PID: " +:+ capture_pid));;
  mret (es_pid, capture_pid).

(** Lines 57-70: the port setting. The assignment of line 58 is a simple
    command whose status is that of [grep]: with no matching line it fails,
    and [set -e] ends the script there. *)
Definition reconcile_port : Script bool :=
  perform ReadConfig;;
  lines ← read_config;
  let matched := grep_http_port lines in
  errexit (negb (bool_decide (matched = [])));;
  let es_http_port_entry := join_lines matched in
  if String.eqb es_http_port_entry EmptyString then
    echo "Appending 'http.port: 19200' to elasticsearch.yml";;
    perform (AppendConfig "http.port: 19200");;
    write_config (lines ++ ["http.port: 19200"]);;
    mret true
  else if String.eqb es_http_port_entry "http.port: 19200" then
    echo ("Correct http.port already exists: " +:+ es_http_port_entry);;
    mret false
  else
    echo ("Replacing existing " +:+ es_http_port_entry);;
    perform SedConfig;;
    write_config (map sed_line lines);;
    mret true.

(** Lines 72-80. *)
Definition start_elasticsearch (env : Env) (es_pid : string) (es_needs_restart : bool)
  : Script unit :=
  if String.eqb es_pid EmptyString then
    echo "Starting Elasticsearch process";;
    perform StartElasticsearch
  else if es_needs_restart then
    echo "Restarting Elasticsearch process";;
    perform (Kill es_pid);;
    errexit (kill_succeeds env es_pid);;
    perform StartElasticsearch
  else mret tt.

(** Lines 82-89. *)
Definition start_capture_proxy (env : Env) (capture_pid KAFKA_ENDPOINTS : string)
  : Script unit :=
  (if negb (String.eqb capture_pid EmptyString) then
     echo "Stopping running Capture Proxy process";;
     perform (Kill capture_pid);;
     errexit (kill_succeeds env capture_pid)
   else mret tt);;
  echo "Starting Capture Proxy process";;
  perform (StartCaptureProxy KAFKA_ENDPOINTS).

(** Lines 91-99. *)
Definition verify_capture_proxy (env : Env) : Script unit :=
  perform (Sleep 5);;
  perform (Pgrep "trafficCaptureProxyServer");;
  let capture_pid_verify := capture_pgrep_verify env in
  if String.eqb capture_pid_verify EmptyString then
    echo "Capture Proxy appears to have encountered issue on startup";;
    perform (TestExists "nohup.out");;
    match nohup_out env with
    | Some log =>
        echo "Capture Proxy final log statements: ";;
        perform (Tail 50 "nohup.out");;
        echo_all (tail_lines 50 log)
    | None => mret tt
    end
  else mret tt.

(** Lines 38-89: from the look at the process table to the launch of the
    capture proxy. *)
Definition converge (env : Env) (KAFKA_ENDPOINTS : string) : Script unit :=
  '(es_pid, capture_pid) ← observe env;
  (if negb (String.eqb es_pid EmptyString) && negb (String.eqb capture_pid EmptyString)
   then
     echo "Both Elasticsearch and Capture Proxy processes are running, no actions will be performed.";;
     exit 0
   else mret tt);;
  es_needs_restart ← reconcile_port;
  start_elasticsearch env es_pid es_needs_restart;;
  start_capture_proxy env capture_pid KAFKA_ENDPOINTS.

(** Lines 38-100. *)
Definition body (env : Env) (KAFKA_ENDPOINTS : string) : Script unit :=
  converge env KAFKA_ENDPOINTS;;
  verify_capture_proxy env;;
  echo "Completed startCaptureProxy.sh".

Definition script (args : list string) (env : Env) : Script unit :=
  KAFKA_ENDPOINTS ← parse_arguments args (KAFKA_ENDPOINTS_inherited env);
  body env KAFKA_ENDPOINTS.

Record Result := {
  status : Z;
  node : Node
}.

(** One invocation [./startCaptureProxy.sh args]. A script that runs to its
    last command leaves with the status of that command, an [echo]. *)
Definition startCaptureProxy (args : list string) (env : Env) : Result :=
  match script args env {| stdout := []; actions := []; config := yml env |} with
  | Continue _ n => {| status := 0; node := n |}
  | Exited c n => {| status := c; node := n |}
  end.

(** *** Words used to state what a run does *)

(** The argument lists the loop of lines 18-36 walks through to the end:
    every word is either [--kafka-endpoints] followed by its value or a word
    that does not begin with a dash. *)
Fixpoint accepted (args : list string) : bool :=
  match args with
  | [] => true
  | arg1 :: rest =>
      if String.eqb arg1 "--kafka-endpoints" then
        match rest with
        | [] => false
        | _ :: rest' => accepted rest'
        end
      else if String.prefix "-" arg1 then false
      else accepted rest
  end.

(** The value [KAFKA_ENDPOINTS] has after such a list. *)
Fixpoint endpoints (args : list string) (KAFKA_ENDPOINTS : string) : string :=
  match args with
  | [] => KAFKA_ENDPOINTS
  | arg1 :: rest =>
      if String.eqb arg1 "--kafka-endpoints" then
        match rest with
        | [] => EmptyString
        | arg2 :: rest' => endpoints rest' arg2
        end
      else endpoints rest KAFKA_ENDPOINTS
  end.

(** What the script prints of the log, and what it does for it, when the
    capture proxy is not there after the sleep. *)
Definition diagnosis (env : Env) : list string :=
  match nohup_out env with
  | Some log => "Capture Proxy final log statements: " :: tail_lines 50 log
  | None => []
  end.

Definition diagnosis_actions (env : Env) : list Action :=
  match nohup_out env with
  | Some _ => [Tail 50 "nohup.out"]
  | None => []
  end.

End Supervisor.

(** ** Concrete inputs used by the examples *)

Module Samples.

Definition scalar (v : JsValue) : string :=
  match v with
  | JString s => s
  | JBool true => "true"
  | JBool false => "false"
  | _ => EmptyString
  end.

(** A stand-in for js-yaml's [dump] on flat objects: one [key: value] line
    per key, in insertion order. *)
Definition dump (v : JsValue) : string :=
  match v with
  | JObject m =>
      fold_right (fun '(k, x) acc => k +:+ ": " +:+ scalar x +:+ nl +:+ acc)
        EmptyString m
  | _ => EmptyString
  end.

(** A stand-in for the table of [opensearch-config/node-config], which is
    not among the sources: the overlay of a node type names the node type. *)
Definition nodeConfig (nodeType : string) : JsValue :=
  JObject [("node.name", JString nodeType)].

Definition base_config : list (string * JsValue) :=
  [("cluster.name", JString "placeholder"); ("network.host", JString "0.0.0.0")].

Definition parent : Stack :=
  {| stackName := "app"; account := "111122223333"; region := "us-east-1" |}.

Definition self : Stack :=
  {| stackName := "infra"; account := "111122223333"; region := "us-east-1" |}.

(** A distributed cluster with [m] manager, [d] data, [c] client and [ml] ML
    nodes; every optional string carries the sentinel the callers pass. *)
Definition cluster (m d c ml : Z) : infraProps :=
  {| opensearchVersion := "7.10.2"; cpuArch := "x64"; cpuType := X86_64;
     securityDisabled := true; minDistribution := false;
     distributionUrl := "https://example.org/es.tar.gz";
     captureProxyEnabled := EmptyString; captureProxyTarUrl := EmptyString;
     dashboardsUrl := "undefined";
     singleNodeCluster := false;
     managerNodeCount := m; dataNodeCount := d; ingestNodeCount := 0;
     clientNodeCount := c; mlNodeCount := ml;
     dataNodeStorage := 100; mlNodeStorage := 100;
     jvmSysPropsString := Some "undefined";
     additionalConfig := Some "undefined";
     additionalOsdConfig := Some "undefined";
     dataEc2InstanceType := Some (InstanceType_of R5 XLARGE);
     mlEc2InstanceType := Some (InstanceType_of R5 XLARGE);
     use50PercentHeap := false; isInternal := true; enableRemoteStore := false;
     storageVolumeType := GP2; customRoleArn := "undefined" |}.

Definition logs : LogGroup := {| logGroupName := "infraLogGroup/elasticsearch.log" |}.

Definition user_text : string := "network.host: 10.0.0.1".

(** Three managers, two data nodes, remote store and heap sizing on, and a
    user text. *)
Definition cluster_with_text : infraProps :=
  {| opensearchVersion := "7.10.2"; cpuArch := "x64"; cpuType := X86_64;
     securityDisabled := true; minDistribution := false;
     distributionUrl := "https://example.org/es.tar.gz";
     captureProxyEnabled := "true";
     captureProxyTarUrl := "https://example.org/proxy.tar.gz";
     dashboardsUrl := "undefined";
     singleNodeCluster := false;
     managerNodeCount := 3; dataNodeCount := 2; ingestNodeCount := 0;
     clientNodeCount := 0; mlNodeCount := 0;
     dataNodeStorage := 100; mlNodeStorage := 100;
     jvmSysPropsString := Some "undefined";
     additionalConfig := Some user_text;
     additionalOsdConfig := Some "undefined";
     dataEc2InstanceType := Some (InstanceType_of R5 XLARGE);
     mlEc2InstanceType := Some (InstanceType_of R5 XLARGE);
     use50PercentHeap := true; isInternal := true; enableRemoteStore := true;
     storageVolumeType := GP2; customRoleArn := "undefined" |}.

(** The same cluster with the remote store off. *)
Definition cluster_without_remote_store : infraProps :=
  with_enableRemoteStore cluster_with_text false.

(** A user text that holds a quoted path. *)
Definition quoted_text : string := "path.repo: [" +:+ dq +:+ "/mnt/a" +:+ dq +:+ "]".

Definition cluster_with_quoted_text : infraProps :=
  with_additionalConfig cluster_without_remote_store quoted_text.

(** An instance before its init list has run: the home directory and
    nothing in it. *)
Definition new_instance : Shell.Files :=
  {| Shell.directories := ["/home/ec2-user"]; Shell.document := EmptyString |}.

Definition construct (props : infraProps) : Outcome (option Planner.Plan * Planner.Tree) :=
  Planner.InfraStack_constructor dump nodeConfig base_config base_config
    parent self "infra" props.

(** Nodes on which the supervisor is run. *)
Definition node_with (es capture : string) (lines : list string) (verify : string)
    (log : option (list string)) : Supervisor.Env :=
  {| Supervisor.KAFKA_ENDPOINTS_inherited := EmptyString;
     Supervisor.es_pgrep := es;
     Supervisor.capture_pgrep := capture;
     Supervisor.yml := lines;
     Supervisor.kill_succeeds := fun _ => true;
     Supervisor.capture_pgrep_verify := verify;
     Supervisor.nohup_out := log |}.

Definition broker_args : list string := ["--kafka-endpoints"; "broker1:9092"].

(** Both processes up, port set: the case of the first row of the table. *)
Definition converged_node : Supervisor.Env :=
  node_with "4242" "4300" ["cluster.name: c"; "http.port: 19200"] "4300" None.

(** Nothing runs, the port is set, and the capture proxy does not come up. *)
Definition failing_proxy_node : Supervisor.Env :=
  node_with EmptyString EmptyString ["cluster.name: c"; "http.port: 19200"]
    EmptyString (Some ["starting"; "java.net.BindException"]).

(** Nothing runs, the port is set, and the capture proxy comes up. *)
Definition fresh_node : Supervisor.Env :=
  node_with EmptyString EmptyString ["cluster.name: c"; "http.port: 19200"] "4300"
    None.

(** Elasticsearch runs alone on a file without the port setting. *)
Definition unset_port_node : Supervisor.Env :=
  node_with "4242" EmptyString ["cluster.name: c"; "network.host: 0.0.0.0"] "4300"
    None.

End Samples.


(** ** Further words used to state properties *)

(** [props] with other role counts. *)
Definition with_counts (props : infraProps) (manager data ingest client ml : Z)
  : infraProps :=
  {| opensearchVersion := opensearchVersion props;
     cpuArch := cpuArch props;
     cpuType := cpuType props;
     securityDisabled := securityDisabled props;
     minDistribution := minDistribution props;
     distributionUrl := distributionUrl props;
     captureProxyEnabled := captureProxyEnabled props;
     captureProxyTarUrl := captureProxyTarUrl props;
     dashboardsUrl := dashboardsUrl props;
     singleNodeCluster := singleNodeCluster props;
     managerNodeCount := manager;
     dataNodeCount := data;
     ingestNodeCount := ingest;
     clientNodeCount := client;
     mlNodeCount := ml;
     dataNodeStorage := dataNodeStorage props;
     mlNodeStorage := mlNodeStorage props;
     jvmSysPropsString := jvmSysPropsString props;
     additionalConfig := additionalConfig props;
     additionalOsdConfig := additionalOsdConfig props;
     dataEc2InstanceType := dataEc2InstanceType props;
     mlEc2InstanceType := mlEc2InstanceType props;
     use50PercentHeap := use50PercentHeap props;
     isInternal := isInternal props;
     enableRemoteStore := enableRemoteStore props;
     storageVolumeType := storageVolumeType props;
     customRoleArn := customRoleArn props |}.

(** [props] with another ingest count. *)
Definition with_ingestNodeCount (props : infraProps) (ingest : Z) : infraProps :=
  with_counts props (managerNodeCount props) (dataNodeCount props) ingest
    (clientNodeCount props) (mlNodeCount props).

(** The desired capacities of the groups of a tree that carry the id [id],
    added up. *)
Definition group_capacity (t : Planner.Tree) (id : string) : Z :=
  fold_right Z.add 0%Z
    (omap (fun c =>
             match Planner.resource c with
             | Planner.AnAutoScalingGroup g =>
                 if String.eqb (Planner.constructId c) id
                 then Some (Planner.desiredCapacity g) else None
             | Planner.AnInstance _ => None
             end) (Planner.heap t)).

(** A group is of fixed size: minimum and maximum are the desired capacity. *)
Definition fixed_size (c : Planner.Construct) : Prop :=
  match Planner.resource c with
  | Planner.AnAutoScalingGroup g =>
      Planner.minCapacity g = Planner.desiredCapacity g
      /\ Planner.maxCapacity g = Planner.desiredCapacity g
  | Planner.AnInstance _ => True
  end.

(** [obj[k]] on an object. *)
Fixpoint obj_get (k : string) (m : list (string * JsValue)) : JsValue :=
  match m with
  | [] => JUndefined
  | (k', v) :: m' => if String.eqb k k' then v else obj_get k m'
  end.

(** The object line 525 hands to [dump] (lines 513-518). *)
Definition baseConfig (multi_node_base_config : list (string * JsValue))
    (scope : Stack) : list (string * JsValue) :=
  obj_set "discovery.ec2.tag.Name"
    (JString (stackName scope +:+ "/seedNodeAsg," +:+ stackName scope +:+ "/managerNodeAsg"))
    (obj_set "cluster.name" (JString (Assembler.clusterName scope))
       multi_node_base_config).

(** The object line 507 hands to [dump] (lines 503-505). *)
Definition fileContent (single_node_base_config : list (string * JsValue))
    (scope : Stack) : list (string * JsValue) :=
  obj_set "cluster.name" (JString (Assembler.clusterName scope))
    single_node_base_config.

(** The user's text as the list carries it: nothing for the text
    [undefined]. *)
Definition userElements (extra : string) : list InitElement :=
  if negb (String.eqb extra "undefined")
  then [Assembler.additionalConfigCommand extra] else [].

Definition opensearch_yml : string :=
  "/home/ec2-user/opensearch/config/opensearch.yml".

Definition startCaptureProxy_file : InitElement :=
  InitFile_fromFileInline "/home/ec2-user/capture-proxy/startCaptureProxy.sh"
    "./startCaptureProxy.sh" "000744".

(** Is the element a command run in the capture proxy's directory, or a
    file put there? *)
Definition in_capture_proxy (e : InitElement) : bool :=
  match e with
  | InitCommand_shellCommand _ {| cwd := Some dir |} =>
      String.prefix "/home/ec2-user/capture-proxy" dir
  | InitFile_fromFileInline target _ _ =>
      String.prefix "/home/ec2-user/capture-proxy" target
  | _ => false
  end.

(** *** The supervisor's run, row by row *)

(** What lines 91-99 do: the sleep and the second look, and the look for the
    log when no capture proxy is found. *)
Definition verify_actions (env : Supervisor.Env) : list Supervisor.Action :=
  [Supervisor.Sleep 5; Supervisor.Pgrep "trafficCaptureProxyServer"]
  ++ (if String.eqb (Supervisor.capture_pgrep_verify env) EmptyString
      then Supervisor.TestExists "nohup.out" :: Supervisor.diagnosis_actions env
      else []).

(** Does the file need the port rewritten: [grep] printed something other
    than the setting at 19200. *)
Definition rewrite_needed (lines : list string) : bool :=
  negb (String.eqb (Supervisor.join_lines (Supervisor.grep_http_port lines))
          "http.port: 19200").

(** The rows of a run: exit status, actions and configuration afterwards. *)
Definition rows (args : list string) (env : Supervisor.Env)
  : Z * list Supervisor.Action * list string :=
  let es_pid := Supervisor.es_pgrep env in
  let capture_pid := Supervisor.capture_pgrep env in
  let kafka := Supervisor.endpoints args (Supervisor.KAFKA_ENDPOINTS_inherited env) in
  let looks := [Supervisor.Pgrep "bin/elasticsearch";
                Supervisor.Pgrep "trafficCaptureProxyServer"] in
  let launch := Supervisor.StartCaptureProxy kafka :: verify_actions env in
  if negb (Supervisor.accepted args) then (1%Z, [], Supervisor.yml env)
  else if negb (String.eqb es_pid EmptyString)
          && negb (String.eqb capture_pid EmptyString)
  then (0%Z, looks, Supervisor.yml env)
  else if bool_decide (Supervisor.grep_http_port (Supervisor.yml env) = [])
  then (1%Z, looks ++ [Supervisor.ReadConfig], Supervisor.yml env)
  else
    let rewrite := rewrite_needed (Supervisor.yml env) in
    let read := looks ++ Supervisor.ReadConfig
                      :: (if rewrite then [Supervisor.SedConfig] else []) in
    let file := if rewrite then map Supervisor.sed_line (Supervisor.yml env)
                else Supervisor.yml env in
    if String.eqb es_pid EmptyString then
      if String.eqb capture_pid EmptyString then
        (0%Z, read ++ Supervisor.StartElasticsearch :: launch, file)
      else if Supervisor.kill_succeeds env capture_pid then
        (0%Z, read ++ Supervisor.StartElasticsearch :: Supervisor.Kill capture_pid
                   :: launch, file)
      else
        (1%Z, read ++ [Supervisor.StartElasticsearch; Supervisor.Kill capture_pid],
         file)
    else if rewrite then
      if Supervisor.kill_succeeds env es_pid then
        (0%Z, read ++ Supervisor.Kill es_pid :: Supervisor.StartElasticsearch
                   :: launch, file)
      else (1%Z, read ++ [Supervisor.Kill es_pid], file)
    else (0%Z, read ++ launch, file).

(** A text of digits. *)
Definition digits (s : string) : bool :=
  negb (String.eqb s EmptyString) && Shell.all_chars Supervisor.is_digit s.

(** A line [grep http.port] does not print. *)
Definition silent (line : string) : bool :=
  negb (Supervisor.contains_match Supervisor.http_port line).

(** *** Further inputs used by the examples *)

Module MoreSamples.

(** A single node, with counts that are not read. *)
Definition single_node : infraProps :=
  {| opensearchVersion := "7.10.2"; cpuArch := "x64"; cpuType := X86_64;
     securityDisabled := false; minDistribution := false;
     distributionUrl := "https://example.org/es.tar.gz";
     captureProxyEnabled := EmptyString; captureProxyTarUrl := EmptyString;
     dashboardsUrl := "https://example.org/osd.tar.gz";
     singleNodeCluster := true;
     managerNodeCount := 3; dataNodeCount := 2; ingestNodeCount := 0;
     clientNodeCount := 0; mlNodeCount := 0;
     dataNodeStorage := 100; mlNodeStorage := 100;
     jvmSysPropsString := Some "undefined";
     additionalConfig := Some "undefined";
     additionalOsdConfig := Some "undefined";
     dataEc2InstanceType := None;
     mlEc2InstanceType := None;
     use50PercentHeap := false; isInternal := true; enableRemoteStore := false;
     storageVolumeType := GP3; customRoleArn := "undefined" |}.

(** The single node without the text of the system properties. *)
Definition single_node_without_jvm_text : infraProps :=
  {| opensearchVersion := "7.10.2"; cpuArch := "x64"; cpuType := X86_64;
     securityDisabled := false; minDistribution := false;
     distributionUrl := "https://example.org/es.tar.gz";
     captureProxyEnabled := EmptyString; captureProxyTarUrl := EmptyString;
     dashboardsUrl := "https://example.org/osd.tar.gz";
     singleNodeCluster := true;
     managerNodeCount := 3; dataNodeCount := 2; ingestNodeCount := 0;
     clientNodeCount := 0; mlNodeCount := 0;
     dataNodeStorage := 100; mlNodeStorage := 100;
     jvmSysPropsString := None;
     additionalConfig := Some "undefined";
     additionalOsdConfig := Some "undefined";
     dataEc2InstanceType := None;
     mlEc2InstanceType := None;
     use50PercentHeap := false; isInternal := true; enableRemoteStore := false;
     storageVolumeType := GP3; customRoleArn := "undefined" |}.

(** Three managers, two data nodes, two client nodes and one ML node. *)
Definition full_cluster : infraProps := Samples.cluster 3 2 2 1.

(** Elasticsearch runs alone on a file that sets another port. *)
Definition stale_port_node : Supervisor.Env :=
  Samples.node_with "4242" EmptyString ["cluster.name: c"; "http.port: 9200"] "4300"
    None.

End MoreSamples.

(** * Properties *)

(** ** The planner *)

Module PlannerFacts.
Import Planner.

Section Facts.

Variable dump : JsValue -> string.
Variable nodeConfig : string -> JsValue.
Variable single_node_base_config : list (string * JsValue).
Variable multi_node_base_config : list (string * JsValue).

#[local] Abbreviation getCfnInitElement :=
  (getCfnInitElement dump nodeConfig single_node_base_config multi_node_base_config).
#[local] Abbreviation elementsFor :=
  (elementsFor dump nodeConfig single_node_base_config multi_node_base_config).
#[local] Abbreviation InfraStack_constructor :=
  (InfraStack_constructor dump nodeConfig single_node_base_config multi_node_base_config).

Lemma dashboardsElements_returns props :
  is_Some (additionalOsdConfig props) ->
  exists l, Assembler.dashboardsElements props = Returned l.
Proof.
  intros [osd Hosd]. unfold Assembler.dashboardsElements.
  rewrite Hosd. simpl. eauto.
Qed.

Lemma getCfnInitElement_returns self id props nodeType :
  strings_supplied props ->
  getCfnInitElement self (clusterLogGroup id) props nodeType
  = Returned (elementsFor self id props nodeType).
Proof.
  intros ([jvm Hjvm] & [extra Hextra] & Hosd).
  unfold Planner.elementsFor.
  enough (exists l, getCfnInitElement self (clusterLogGroup id) props nodeType
                    = Returned l) as [l ->] by reflexivity.
  unfold Planner.getCfnInitElement, Assembler.getCfnInitElement.
  rewrite Hjvm, Hextra. simpl.
  destruct (String.eqb (dashboardsUrl props) "undefined") eqn:Hurl; simpl.
  - eauto.
  - destruct (dashboardsElements_returns props) as [l ->].
    + apply Hosd. intros E. rewrite E in Hurl. discriminate.
    + simpl. eauto.
Qed.

(** Runs the constructor symbolically: the init elements stay folded, the
    branches on the counts are split. *)
Ltac unfold_constructor :=
  unfold Planner.InfraStack_constructor, distributedBranch, capacities,
    managerGroup, seedGroup, dataGroup, clientGroup, mlGroup,
    mbind, build_bind, mret, build_ret, bind, ret, lift, new, addTag, addTargets.

Ltac run_constructor Hs :=
  unfold_constructor;
  repeat (first
    [ rewrite (getCfnInitElement_returns _ _ _ _ Hs)
    | progress cbn
    | match goal with
      | |- context [if ?b then _ else _] => destruct b eqn:?
      end ]).

Ltac all_of_list :=
  repeat (first [apply Forall_nil_2 | apply Forall_cons_2]);
  first [reflexivity | discriminate].

(** C8. In distributed mode with [clientNodeCount = 0] the variable
    [clientNodeAsg] holds the location of the data group itself: no client
    group is allocated, every listener targets that one location, and the
    [role: client] tag added through [clientNodeAsg] lands on the data group. *)
Theorem client_target_is_the_data_group scope self id props :
  strings_supplied props ->
  singleNodeCluster props = false ->
  clientNodeCount props = 0%Z ->
  exists plan tree,
    InfraStack_constructor scope self id props = Returned (Some plan, tree)
    /\ clientNodeAsg plan = dataNodeAsg plan
    /\ (exists c, construct_at tree (dataNodeAsg plan) = Some c
                  /\ constructId c = "dataNodeAsg"
                  /\ tags c = [("role", "data"); ("role", "client")])
    /\ targetGroups tree <> []
    /\ Forall (fun tg => targets tg = [dataNodeAsg plan]) (targetGroups tree)
    /\ Forall (fun c => constructId c <> "clientNodeAsg") (heap tree).
Proof.
  intros Hs Hd Hc.
  unfold Planner.InfraStack_constructor. rewrite Hd.
  unfold distributedBranch, clientGroup. rewrite Hc.
  run_constructor Hs;
    (eexists; eexists; split; [reflexivity|]; cbn;
     split; [reflexivity|];
     split; [eexists; split; [reflexivity|]; split; reflexivity|];
     split; [discriminate|];
     split; all_of_list).
Qed.

(** What the distributed branch plans, for every input on which the
    constructor returns: the two capacities of lines 241-247, the seed
    configuration of lines 249-281, a data group that is always created with
    [dataAsgCapacity], and a manager group only for a positive capacity. *)
Lemma planned_capacities scope self id props :
  strings_supplied props ->
  singleNodeCluster props = false ->
  exists plan tree,
    InfraStack_constructor scope self id props = Returned (Some plan, tree)
    /\ (managerAsgCapacity plan, dataAsgCapacity plan) = capacities props
    /\ seedConfig plan
       = (if (managerAsgCapacity plan >? 0)%Z then "seed-manager" else "seed-data")
    /\ (exists g, group_at tree (dataNodeAsg plan) = Some g
                  /\ desiredCapacity g = dataAsgCapacity plan
                  /\ minCapacity g = dataAsgCapacity plan
                  /\ maxCapacity g = dataAsgCapacity plan)
    /\ match managerNodeAsg plan with
       | Some x =>
           (0 < managerAsgCapacity plan)%Z
           /\ exists g, group_at tree x = Some g
                        /\ desiredCapacity g = managerAsgCapacity plan
       | None => (managerAsgCapacity plan <= 0)%Z
       end.
Proof.
  intros Hs Hd.
  unfold Planner.InfraStack_constructor. rewrite Hd.
  run_constructor Hs;
    (eexists; eexists; split; [reflexivity|]; cbn;
     split; [reflexivity|];
     split; [try reflexivity|];
     [ | split; [eexists; split; [reflexivity|]; cbn; repeat split|] ]);
    repeat match goal with
           | H : (_ >? _)%Z = _ |- _ => rewrite ?H; apply Z.gtb_gt in H
           | H : (_ >? _)%Z = _ |- _ =>
               rewrite ?H; rewrite Z.gtb_ltb in H; apply Z.ltb_ge in H
           end;
    try reflexivity; try lia;
    try (split; [lia | eexists; split; reflexivity]).
Qed.

(** With two managers or more the seed has the manager configuration, the
    manager group has one node less than asked for and the data group has
    the data count. *)
Lemma several_managers_elect_a_manager_seed scope self id props :
  strings_supplied props ->
  singleNodeCluster props = false ->
  (1 < managerNodeCount props)%Z ->
  exists plan tree x g d,
    InfraStack_constructor scope self id props = Returned (Some plan, tree)
    /\ seedConfig plan = "seed-manager"
    /\ managerNodeAsg plan = Some x
    /\ group_at tree x = Some g
    /\ desiredCapacity g = (managerNodeCount props - 1)%Z
    /\ group_at tree (dataNodeAsg plan) = Some d
    /\ desiredCapacity d = dataNodeCount props.
Proof.
  intros Hs Hd Hm.
  destruct (planned_capacities scope self id props Hs Hd)
    as (plan & tree & Hrun & Hcap & Hseed & (d & Hd1 & Hd2 & _) & Hmanager).
  unfold capacities in Hcap.
  destruct (managerNodeCount props >? 0)%Z eqn:Hpos;
    [|rewrite Z.gtb_ltb in Hpos; apply Z.ltb_ge in Hpos; lia].
  injection Hcap as Hmcap Hdcap.
  destruct (managerNodeAsg plan) as [x|] eqn:Hx; [|lia].
  destruct Hmanager as (_ & g & Hg1 & Hg2).
  exists plan, tree, x, g, d.
  rewrite Hseed, Hg2, Hd2, Hmcap, Hdcap.
  replace (managerNodeCount props - 1 >? 0)%Z with true
    by (symmetry; apply Z.gtb_gt; lia).
  repeat split; assumption.
Qed.

(** With exactly one manager the seed has the data configuration although
    the data group keeps the whole data count. *)
Lemma one_manager_elects_a_data_seed scope self id props :
  strings_supplied props ->
  singleNodeCluster props = false ->
  managerNodeCount props = 1%Z ->
  exists plan tree d,
    InfraStack_constructor scope self id props = Returned (Some plan, tree)
    /\ seedConfig plan = "seed-data"
    /\ managerNodeAsg plan = None
    /\ group_at tree (dataNodeAsg plan) = Some d
    /\ desiredCapacity d = dataNodeCount props.
Proof.
  intros Hs Hd Hm.
  destruct (planned_capacities scope self id props Hs Hd)
    as (plan & tree & Hrun & Hcap & Hseed & (d & Hd1 & Hd2 & _) & Hmanager).
  unfold capacities in Hcap. rewrite Hm in Hcap. cbn in Hcap.
  injection Hcap as Hmcap Hdcap.
  exists plan, tree, d.
  rewrite Hseed, Hd2, Hmcap, Hdcap. cbn.
  repeat split; try assumption.
  destruct (managerNodeAsg plan); [lia | reflexivity].
Qed.

(** C10, as the code has it. In distributed mode the seed group carries
    exactly one tag, [role: manager], whichever configuration the seed was
    given. With the data configuration (no manager group exists) its instance
    type and its volume are the data ones; with the manager configuration they
    are the default type and 50 GiB. The init elements follow the
    configuration as well (line 303): they are built for the node type
    [seed-data] or [seed-manager]. *)
Theorem seed_group_is_tagged_manager scope self id props :
  strings_supplied props ->
  singleNodeCluster props = false ->
  exists plan tree c g,
    InfraStack_constructor scope self id props = Returned (Some plan, tree)
    /\ construct_at tree (seedNodeAsg plan) = Some c
    /\ constructId c = "seedNodeAsg"
    /\ tags c = [("role", "manager")]
    /\ resource c = AnAutoScalingGroup g
    /\ desiredCapacity g = 1%Z
    /\ init g = elementsFor self id props (Some (seedConfig plan))
    /\ (seedConfig plan = "seed-data" \/ seedConfig plan = "seed-manager")
    /\ (seedConfig plan = "seed-data" <-> managerNodeAsg plan = None)
    /\ (seedConfig plan = "seed-data" ->
        instanceType g = dataEc2InstanceType props
        /\ blockDevices g
           = [{| deviceName := "/dev/xvda"; volumeSize := dataNodeStorage props;
                 deleteOnTermination := true;
                 volumeType := storageVolumeType props |}])
    /\ (seedConfig plan = "seed-manager" ->
        instanceType g = Some (defaultInstanceType props)
        /\ blockDevices g
           = [{| deviceName := "/dev/xvda"; volumeSize := 50;
                 deleteOnTermination := true;
                 volumeType := storageVolumeType props |}]).
Proof.
  intros Hs Hd.
  unfold Planner.InfraStack_constructor. rewrite Hd.
  run_constructor Hs;
    (do 4 eexists; split; [reflexivity|]; cbn;
     split; [reflexivity|]; cbn;
     repeat split; auto; discriminate).
Qed.

End Facts.

End PlannerFacts.

(** ** The planner on concrete inputs *)

Module PlannerExamples.
Import Planner.

Lemma sample_strings_supplied m d c ml : strings_supplied (Samples.cluster m d c ml).
Proof.
  repeat split; simpl; eauto.
Defined.

Lemma client_target_is_the_data_group_witness :
  exists plan tree,
    Samples.construct (Samples.cluster 3 4 0 0) = Returned (Some plan, tree)
    /\ clientNodeAsg plan = dataNodeAsg plan
    /\ (exists c, construct_at tree (dataNodeAsg plan) = Some c
                  /\ constructId c = "dataNodeAsg"
                  /\ tags c = [("role", "data"); ("role", "client")])
    /\ targetGroups tree <> []
    /\ Forall (fun tg => targets tg = [dataNodeAsg plan]) (targetGroups tree)
    /\ Forall (fun c => constructId c <> "clientNodeAsg") (heap tree).
Proof.
  apply (PlannerFacts.client_target_is_the_data_group
           Samples.dump Samples.nodeConfig Samples.base_config Samples.base_config
           Samples.parent Samples.self "infra" (Samples.cluster 3 4 0 0)).
  - apply sample_strings_supplied.
  - reflexivity.
  - reflexivity.
Defined.

Lemma seed_group_is_tagged_manager_witness :
  exists plan tree c g,
    Samples.construct (Samples.cluster 0 2 0 0) = Returned (Some plan, tree)
    /\ construct_at tree (seedNodeAsg plan) = Some c
    /\ constructId c = "seedNodeAsg"
    /\ tags c = [("role", "manager")]
    /\ resource c = AnAutoScalingGroup g
    /\ desiredCapacity g = 1%Z
    /\ init g = elementsFor Samples.dump Samples.nodeConfig Samples.base_config
                  Samples.base_config Samples.self "infra" (Samples.cluster 0 2 0 0)
                  (Some (seedConfig plan))
    /\ (seedConfig plan = "seed-data" \/ seedConfig plan = "seed-manager")
    /\ (seedConfig plan = "seed-data" <-> managerNodeAsg plan = None)
    /\ (seedConfig plan = "seed-data" ->
        instanceType g = dataEc2InstanceType (Samples.cluster 0 2 0 0)
        /\ blockDevices g
           = [{| deviceName := "/dev/xvda";
                 volumeSize := dataNodeStorage (Samples.cluster 0 2 0 0);
                 deleteOnTermination := true;
                 volumeType := storageVolumeType (Samples.cluster 0 2 0 0) |}])
    /\ (seedConfig plan = "seed-manager" ->
        instanceType g = Some (defaultInstanceType (Samples.cluster 0 2 0 0))
        /\ blockDevices g
           = [{| deviceName := "/dev/xvda"; volumeSize := 50;
                 deleteOnTermination := true;
                 volumeType := storageVolumeType (Samples.cluster 0 2 0 0) |}]).
Proof.
  apply (PlannerFacts.seed_group_is_tagged_manager
           Samples.dump Samples.nodeConfig Samples.base_config Samples.base_config
           Samples.parent Samples.self "infra" (Samples.cluster 0 2 0 0)).
  - apply sample_strings_supplied.
  - reflexivity.
Defined.

(** C1, at one manager node and two data nodes: the capacities are taken as
    if the seed came out of the manager allotment (manager capacity 0, data
    capacity 2), yet the seed is given the data configuration, the data
    instance type and the data volume. *)
Theorem one_manager_gets_a_data_seed :
  exists plan tree g,
    Samples.construct (Samples.cluster 1 2 0 0) = Returned (Some plan, tree)
    /\ managerAsgCapacity plan = 0%Z
    /\ dataAsgCapacity plan = 2%Z
    /\ managerNodeAsg plan = None
    /\ seedConfig plan = "seed-data"
    /\ group_at tree (seedNodeAsg plan) = Some g
    /\ instanceType g = dataEc2InstanceType (Samples.cluster 1 2 0 0)
    /\ blockDevices g = [xvda 100 (Samples.cluster 1 2 0 0)]
    /\ groups tree
       = [("seedNodeAsg", 1%Z, [("role", "manager")]);
          ("dataNodeAsg", 2%Z, [("role", "data"); ("role", "client")])].
Proof.
  do 3 eexists. split; [vm_compute; reflexivity|].
  repeat split.
Qed.

(** C2, at no manager node and no data node: the constructor returns, no
    error is raised, and the data group it creates has capacity -1. *)
Theorem zero_zero_builds_a_negative_group :
  exists plan tree g,
    Samples.construct (Samples.cluster 0 0 0 0) = Returned (Some plan, tree)
    /\ group_at tree (dataNodeAsg plan) = Some g
    /\ desiredCapacity g = (-1)%Z
    /\ minCapacity g = (-1)%Z
    /\ maxCapacity g = (-1)%Z
    /\ groups tree
       = [("seedNodeAsg", 1%Z, [("role", "manager")]);
          ("dataNodeAsg", (-1)%Z, [("role", "data"); ("role", "client")])].
Proof.
  do 3 eexists. split; [vm_compute; reflexivity|].
  repeat split.
Qed.

(** C5, at no manager node and one data node: next to the seed of size 1
    the constructor creates the data group, with desired capacity 0. *)
Theorem zero_one_builds_an_empty_data_group :
  exists plan tree g,
    Samples.construct (Samples.cluster 0 1 0 0) = Returned (Some plan, tree)
    /\ seedConfig plan = "seed-data"
    /\ group_at tree (dataNodeAsg plan) = Some g
    /\ desiredCapacity g = 0%Z
    /\ groups tree
       = [("seedNodeAsg", 1%Z, [("role", "manager")]);
          ("dataNodeAsg", 0%Z, [("role", "data"); ("role", "client")])].
Proof.
  do 3 eexists. split; [vm_compute; reflexivity|].
  repeat split.
Qed.

(** C10, at one manager node and two data nodes: more than the instance
    type and the volume follows the data family. No manager group exists, the
    seed is tagged [role: manager], and its init elements are those of the
    node type [seed-data]: they write the overlay of [seed-data] into
    elasticsearch.yml and not the overlay of [seed-manager]. *)
Lemma data_seed_is_initialised_as_data :
  exists plan tree c g,
    Samples.construct (Samples.cluster 1 2 0 0) = Returned (Some plan, tree)
    /\ managerNodeAsg plan = None
    /\ construct_at tree (seedNodeAsg plan) = Some c
    /\ tags c = [("role", "manager")]
    /\ resource c = AnAutoScalingGroup g
    /\ init g = elementsFor Samples.dump Samples.nodeConfig Samples.base_config
                  Samples.base_config Samples.self "infra" (Samples.cluster 1 2 0 0)
                  (Some "seed-data")
    /\ init g <> elementsFor Samples.dump Samples.nodeConfig Samples.base_config
                   Samples.base_config Samples.self "infra" (Samples.cluster 1 2 0 0)
                   (Some "seed-manager")
    /\ In (Assembler.nodeConfigCommand Samples.dump Samples.nodeConfig "seed-data")
         (init g)
    /\ ~ In (Assembler.nodeConfigCommand Samples.dump Samples.nodeConfig "seed-manager")
           (init g).
Proof.
  do 4 eexists. split; [vm_compute; reflexivity|].
  split; [reflexivity|]. split; [reflexivity|]. split; [reflexivity|].
  split; [reflexivity|]. split; [reflexivity|].
  split; [vm_compute; discriminate|].
  split; [vm_compute; tauto|].
  vm_compute. intuition discriminate.
Qed.

End PlannerExamples.

(** ** The supervisor *)

Module SupervisorFacts.
Import Supervisor.

(** Induction over an argument list two words at a time. *)
Lemma args_ind2 (P : list string -> Prop) :
  P [] ->
  (forall a, P [a]) ->
  (forall a b rest, P rest -> P (b :: rest) -> P (a :: b :: rest)) ->
  forall args, P args.
Proof.
  intros Hnil Hone Hstep args.
  enough (P args /\ forall a, P (a :: args)) as [H _] by exact H.
  induction args as [|b rest [IH1 IH2]].
  - split; [exact Hnil | exact Hone].
  - split; [apply IH2 | intros a; apply Hstep; [exact IH1 | apply IH2]].
Qed.

Lemma help_is_a_dash_word a :
  String.eqb a "-h" || String.eqb a "--help" = true -> String.prefix "-" a = true.
Proof.
  intros H. apply orb_true_iff in H as [H|H]; apply String.eqb_eq in H; subst; reflexivity.
Qed.

Ltac unfold_script :=
  unfold mbind, script_bind, mret, script_ret, echo, perform, exit, errexit,
    read_config, write_config.

Lemma echo_all_run l n :
  echo_all l n
  = Continue tt {| stdout := stdout n ++ l; actions := actions n; config := config n |}.
Proof.
  revert n. induction l as [|s l IH]; intros n; simpl.
  - unfold_script. rewrite app_nil_r. destruct n; reflexivity.
  - unfold_script. rewrite IH. simpl. rewrite <- app_assoc. reflexivity.
Qed.

Lemma usage_run A n :
  @usage A n
  = Exited 1 {| stdout := stdout n ++ usage_text; actions := actions n;
                config := config n |}.
Proof.
  unfold usage. unfold mbind, script_bind. rewrite echo_all_run. reflexivity.
Qed.

(** An accepted prefix is walked through without output or action. *)
Lemma parse_arguments_accepted pre rest k n :
  accepted pre = true ->
  parse_arguments (pre ++ rest) k n = parse_arguments rest (endpoints pre k) n.
Proof.
  revert k. induction pre as [| a | a b pre IH1 IH2] using args_ind2; intros k Hacc.
  - reflexivity.
  - simpl in *. destruct (String.eqb a "--kafka-endpoints"); [discriminate|].
    destruct (String.eqb a "-h" || String.eqb a "--help") eqn:Hh.
    + apply help_is_a_dash_word in Hh. rewrite Hh in Hacc. discriminate.
    + destruct (String.prefix "-" a); [discriminate | reflexivity].
  - change ((a :: b :: pre) ++ rest) with (a :: b :: (pre ++ rest)).
    cbn [parse_arguments accepted endpoints] in *.
    destruct (String.eqb a "--kafka-endpoints").
    + apply IH1. exact Hacc.
    + destruct (String.eqb a "-h" || String.eqb a "--help") eqn:Hh.
      * apply help_is_a_dash_word in Hh. rewrite Hh in Hacc. discriminate.
      * destruct (String.prefix "-" a); [discriminate|].
        apply (IH2 k Hacc).
Qed.

Lemma parse_arguments_all_accepted args k n :
  accepted args = true ->
  parse_arguments args k n = Continue (endpoints args k) n.
Proof.
  intros H. rewrite <- (app_nil_r args) at 1.
  rewrite parse_arguments_accepted by exact H. reflexivity.
Qed.

(** The loop never acts on the node: it goes on with the node as it was, or
    leaves with status 1 having only printed. *)
Lemma parse_arguments_inert args k n :
  match parse_arguments args k n with
  | Continue _ n' => n' = n
  | Exited c n' => c = 1%Z /\ actions n' = actions n /\ config n' = config n
  end.
Proof.
  revert k. induction args as [| a | a b args IH1 IH2] using args_ind2; intros k.
  - reflexivity.
  - simpl. destruct (String.eqb a "--kafka-endpoints"); [simpl; auto|].
    destruct (String.eqb a "-h" || String.eqb a "--help").
    + rewrite usage_run. simpl. auto.
    + destruct (String.prefix "-" a); [|reflexivity].
      unfold mbind, script_bind, echo. rewrite usage_run. simpl. auto.
  - cbn [parse_arguments].
    destruct (String.eqb a "--kafka-endpoints"); [apply IH1|].
    destruct (String.eqb a "-h" || String.eqb a "--help").
    + rewrite usage_run. simpl. auto.
    + destruct (String.prefix "-" a); [|apply IH2].
      unfold mbind, script_bind, echo. rewrite usage_run. simpl. auto.
Qed.

Ltac unfold_converge :=
  unfold converge, observe, reconcile_port, start_elasticsearch, start_capture_proxy.

Lemma not_empty_eqb s : s <> EmptyString -> String.eqb s EmptyString = false.
Proof. intros H. apply String.eqb_neq. exact H. Qed.

(** C4, as the script has it. When the loop of lines 18-36, having walked
    through accepted words, meets a word that begins with a dash and is not
    [--kafka-endpoints] ([-h] and [--help] among them), the script prints the
    usage text, after [Unknown option] for any word but [-h] and [--help],
    and exits with status 1 without having looked at the process table or
    touched the node. *)
Theorem dash_word_prints_usage_and_exits_1 pre word rest env :
  accepted pre = true ->
  String.prefix "-" word = true ->
  word <> "--kafka-endpoints" ->
  let r := startCaptureProxy (pre ++ word :: rest) env in
  status r = 1%Z
  /\ actions (node r) = []
  /\ config (node r) = yml env
  /\ stdout (node r)
     = (if String.eqb word "-h" || String.eqb word "--help"
        then [] else ["Unknown option " +:+ word]) ++ usage_text.
Proof.
  intros Hpre Hdash Hword r. subst r.
  unfold startCaptureProxy, script, mbind, script_bind.
  rewrite parse_arguments_accepted by exact Hpre.
  cbn [parse_arguments].
  apply String.eqb_neq in Hword. rewrite Hword.
  destruct (String.eqb word "-h" || String.eqb word "--help").
  - rewrite usage_run. simpl. auto.
  - rewrite Hdash. unfold mbind, script_bind, echo. rewrite usage_run. simpl. auto.
Qed.

(** C6. When the arguments are accepted and both [pgrep] calls report a
    process, with the port setting already at 19200, the run looks at the
    process table twice and does nothing else: no action that changes the
    node, the configuration as it was, exit status 0. *)
Theorem both_alive_is_a_no_op args env :
  accepted args = true ->
  es_pgrep env <> EmptyString ->
  capture_pgrep env <> EmptyString ->
  join_lines (grep_http_port (yml env)) = "http.port: 19200" ->
  let r := startCaptureProxy args env in
  status r = 0%Z
  /\ actions (node r) = [Pgrep "bin/elasticsearch"; Pgrep "trafficCaptureProxyServer"]
  /\ Forall (fun a => mutation a = false) (actions (node r))
  /\ config (node r) = yml env
  /\ stdout (node r)
     = [ "Elasticsearch process PID: " +:+ es_pgrep env;
         "Capture Proxy process PID: " +:+ capture_pgrep env;
         "Both Elasticsearch and Capture Proxy processes are running, no actions will be performed." ].
Proof.
  intros Hargs Hes Hcap _ r. subst r.
  unfold startCaptureProxy, script, mbind, script_bind.
  rewrite parse_arguments_all_accepted by exact Hargs.
  unfold body, converge, observe. unfold_script.
  rewrite (not_empty_eqb _ Hes), (not_empty_eqb _ Hcap). simpl.
  rewrite (not_empty_eqb _ Hes), (not_empty_eqb _ Hcap). simpl.
  repeat split. repeat constructor.
Qed.

(** *** The port setting *)

Lemma matched_line_not_empty l : contains_match http_port l = true -> l <> EmptyString.
Proof. intros H ->. discriminate. Qed.

Lemma join_lines_empty lines :
  join_lines lines = EmptyString -> lines = [] \/ lines = [EmptyString].
Proof.
  destruct lines as [|l [|l' lines]]; simpl.
  - auto.
  - intros ->. auto.
  - destruct l; discriminate.
Qed.

(** What [grep] prints is never the empty text once a line has matched. *)
Lemma entry_not_empty lines :
  grep_http_port lines <> [] ->
  String.eqb (join_lines (grep_http_port lines)) EmptyString = false.
Proof.
  intros Hne. apply String.eqb_neq. intros Hjoin.
  apply join_lines_empty in Hjoin as [H|H]; [contradiction|].
  assert (EmptyString ∈ grep_http_port lines) as Hin by (rewrite H; left).
  apply list_elem_of_filter in Hin as [Hm _].
  exact (matched_line_not_empty _ Hm eq_refl).
Qed.

(** No line matches: the assignment of line 58 fails and the script ends
    there with status 1, the file as it was. *)
Lemma reconcile_port_absent n :
  grep_http_port (config n) = [] ->
  reconcile_port n
  = Exited 1 {| stdout := stdout n; actions := actions n ++ [ReadConfig];
                config := config n |}.
Proof.
  intros H. unfold reconcile_port. unfold_script. simpl. rewrite H. reflexivity.
Qed.

(** The setting is there with the value 19200: nothing is written. *)
Lemma reconcile_port_correct n :
  join_lines (grep_http_port (config n)) = "http.port: 19200" ->
  reconcile_port n
  = Continue false
      {| stdout := stdout n ++ ["Correct http.port already exists: http.port: 19200"];
         actions := actions n ++ [ReadConfig];
         config := config n |}.
Proof.
  intros H.
  assert (grep_http_port (config n) <> []) as Hg
    by (intros E; rewrite E in H; discriminate).
  unfold reconcile_port. unfold_script. simpl.
  rewrite bool_decide_eq_false_2 by exact Hg. simpl.
  rewrite H. reflexivity.
Qed.

(** Lines match and [grep] printed something else: [sed] rewrites the file
    and a restart is asked for. *)
Lemma reconcile_port_different n :
  grep_http_port (config n) <> [] ->
  join_lines (grep_http_port (config n)) <> "http.port: 19200" ->
  reconcile_port n
  = Continue true
      {| stdout := stdout n
           ++ ["Replacing existing " +:+ join_lines (grep_http_port (config n))];
         actions := actions n ++ [ReadConfig; SedConfig];
         config := map sed_line (config n) |}.
Proof.
  intros Hg H. unfold reconcile_port. unfold_script. simpl.
  rewrite bool_decide_eq_false_2 by exact Hg. simpl.
  rewrite (entry_not_empty _ Hg).
  apply String.eqb_neq in H. rewrite H. simpl.
  rewrite <- app_assoc. reflexivity.
Qed.

(** The branch of lines 60-63 is never taken: no run appends to the file. *)
Lemma reconcile_port_never_appends n :
  match reconcile_port n with
  | Continue _ n' | Exited _ n' =>
      exists acts, actions n' = actions n ++ acts
                   /\ forall line, ~ In (AppendConfig line) acts
  end.
Proof.
  destruct (decide (grep_http_port (config n) = [])) as [Hg|Hg].
  - rewrite (reconcile_port_absent _ Hg). simpl.
    eexists. split; [reflexivity|]. simpl. intuition discriminate.
  - destruct (decide (join_lines (grep_http_port (config n)) = "http.port: 19200"))
      as [H|H].
    + rewrite (reconcile_port_correct _ H). simpl.
      eexists. split; [reflexivity|]. simpl. intuition discriminate.
    + rewrite (reconcile_port_different _ Hg H). simpl.
      eexists. split; [reflexivity|]. simpl. intuition discriminate.
Qed.

(** A replaced setting, on a line that holds nothing else. *)
Example sed_line_replaces : sed_line "http.port: 9200" = "http.port: 19200".
Proof. reflexivity. Qed.

(** [sed] leaves a line alone when the value is not written as one space
    and digits. *)
Example sed_line_two_spaces : sed_line "http.port:  9200" = "http.port:  9200".
Proof. reflexivity. Qed.

(** *** The check after the grace period *)

Lemma verify_capture_proxy_dead env n :
  capture_pgrep_verify env = EmptyString ->
  verify_capture_proxy env n
  = Continue tt
      {| stdout := stdout n
           ++ ["Capture Proxy appears to have encountered issue on startup"]
           ++ diagnosis env;
         actions := actions n
           ++ [Sleep 5; Pgrep "trafficCaptureProxyServer"; TestExists "nohup.out"]
           ++ diagnosis_actions env;
         config := config n |}.
Proof.
  intros H. unfold verify_capture_proxy, diagnosis, diagnosis_actions.
  unfold_script. rewrite H. simpl.
  destruct (nohup_out env) as [log|]; simpl.
  - rewrite echo_all_run. simpl.
    rewrite <- !app_assoc. reflexivity.
  - rewrite <- !app_assoc. reflexivity.
Qed.

Ltac no_sleep :=
  simpl; rewrite ?in_app_iff; simpl; intuition discriminate.

Lemma observe_run env n :
  exists out,
    observe env n
    = Continue (es_pgrep env, capture_pgrep env)
        {| stdout := stdout n ++ out;
           actions := actions n
             ++ [Pgrep "bin/elasticsearch"; Pgrep "trafficCaptureProxyServer"];
           config := config n |}.
Proof.
  unfold observe. unfold_script.
  destruct (String.eqb (es_pgrep env) EmptyString),
           (String.eqb (capture_pgrep env) EmptyString);
    simpl; eexists; rewrite <- !app_assoc; reflexivity.
Qed.

(** Lines 38-89 never sleep. *)
Lemma converge_does_not_sleep env k n :
  ~ In (Sleep 5) (actions n) ->
  match converge env k n with
  | Continue _ n' | Exited _ n' => ~ In (Sleep 5) (actions n')
  end.
Proof.
  intros Hn. unfold converge. unfold mbind at 1. unfold script_bind at 1.
  destruct (observe_run env n) as [out ->].
  set (n1 := {| stdout := stdout n ++ out; actions := _; config := config n |}).
  assert (~ In (Sleep 5) (actions n1)) as Hn1 by (subst n1; no_sleep).
  clearbody n1. unfold_script.
  destruct (negb (String.eqb (es_pgrep env) EmptyString)
            && negb (String.eqb (capture_pgrep env) EmptyString)); simpl.
  - exact Hn1.
  - destruct (decide (grep_http_port (config n1) = [])) as [Hg|Hg].
    + rewrite (reconcile_port_absent _ Hg). no_sleep.
    + destruct (decide (join_lines (grep_http_port (config n1)) = "http.port: 19200"))
        as [H|H].
      * rewrite (reconcile_port_correct _ H).
        unfold start_elasticsearch, start_capture_proxy. unfold_script.
        destruct (String.eqb (es_pgrep env) EmptyString),
                 (String.eqb (capture_pgrep env) EmptyString);
          simpl; try destruct (kill_succeeds env (capture_pgrep env)); no_sleep.
      * rewrite (reconcile_port_different _ Hg H).
        unfold start_elasticsearch, start_capture_proxy. unfold_script.
        destruct (String.eqb (es_pgrep env) EmptyString),
                 (String.eqb (capture_pgrep env) EmptyString);
          simpl; try destruct (kill_succeeds env (es_pgrep env));
          simpl; try destruct (kill_succeeds env (capture_pgrep env)); no_sleep.
Qed.

(** C3, as the script has it. In every run that reaches the sleep of line
    91 and then finds no capture proxy, the script reports the failed start,
    prints the last 50 lines of [nohup.out] when that file exists, prints its
    closing line and ends with status 0. From the sleep on it only looks:
    nothing is killed, started or written, and the configuration stays as
    the earlier steps left it. *)
Theorem dead_capture_proxy_is_reported_with_status_0 args env :
  In (Sleep 5) (actions (node (startCaptureProxy args env))) ->
  capture_pgrep_verify env = EmptyString ->
  let r := startCaptureProxy args env in
  status r = 0%Z
  /\ exists before : Node,
      ~ In (Sleep 5) (actions before)
      /\ stdout (node r)
         = stdout before
           ++ ["Capture Proxy appears to have encountered issue on startup"]
           ++ diagnosis env
           ++ ["Completed startCaptureProxy.sh"]
      /\ actions (node r)
         = actions before
           ++ [Sleep 5; Pgrep "trafficCaptureProxyServer"; TestExists "nohup.out"]
           ++ diagnosis_actions env
      /\ Forall (fun a => mutation a = false)
           ([Sleep 5; Pgrep "trafficCaptureProxyServer"; TestExists "nohup.out"]
            ++ diagnosis_actions env)
      /\ config (node r) = config before.
Proof.
  intros Hsleep Hdead r. subst r. revert Hsleep.
  unfold startCaptureProxy, script, mbind, script_bind.
  pose proof (parse_arguments_inert args (KAFKA_ENDPOINTS_inherited env)
                {| stdout := []; actions := []; config := yml env |}) as Hparse.
  destruct (parse_arguments args (KAFKA_ENDPOINTS_inherited env) _) as [k n|c n].
  - subst n. unfold body, mbind, script_bind.
    pose proof (converge_does_not_sleep env k
                  {| stdout := []; actions := []; config := yml env |}) as Hconv.
    destruct (converge env k _) as [[] before|c before].
    + intros _. rewrite (verify_capture_proxy_dead _ _ Hdead).
      unfold echo. simpl. split; [reflexivity|].
      exists before. split; [apply Hconv; simpl; tauto|].
      split; [rewrite <- !app_assoc; reflexivity|].
      split; [reflexivity|].
      split; [|reflexivity].
      unfold diagnosis_actions. destruct (nohup_out env); repeat constructor.
    + simpl. intros Hsleep. exfalso. apply Hconv; [simpl; tauto | exact Hsleep].
  - simpl. destruct Hparse as (_ & Hacts & _). rewrite Hacts. simpl. tauto.
Qed.

(** *** The whole run around the port setting *)

(** The setting is absent, and not both processes are there: the run ends at
    line 58 with status 1 after three looks at the node. *)
Lemma absent_port_setting_ends_the_run args env :
  accepted args = true ->
  negb (String.eqb (es_pgrep env) EmptyString)
  && negb (String.eqb (capture_pgrep env) EmptyString) = false ->
  grep_http_port (yml env) = [] ->
  let r := startCaptureProxy args env in
  status r = 1%Z
  /\ config (node r) = yml env
  /\ actions (node r)
     = [Pgrep "bin/elasticsearch"; Pgrep "trafficCaptureProxyServer"; ReadConfig].
Proof.
  intros Hargs Hnot Hg r. subst r.
  unfold startCaptureProxy, script, mbind, script_bind.
  rewrite parse_arguments_all_accepted by exact Hargs.
  unfold body, converge, mbind, script_bind.
  destruct (observe_run env {| stdout := []; actions := []; config := yml env |})
    as [out ->].
  rewrite Hnot. unfold_script.
  rewrite reconcile_port_absent by exact Hg. simpl. auto.
Qed.

(** The setting is there with another value and Elasticsearch is running
    alone: the file is rewritten by [sed], Elasticsearch is killed and
    started again, then the capture proxy is started. *)
Lemma converge_replaces_and_restarts env k n :
  es_pgrep env <> EmptyString ->
  capture_pgrep env = EmptyString ->
  grep_http_port (config n) <> [] ->
  join_lines (grep_http_port (config n)) <> "http.port: 19200" ->
  kill_succeeds env (es_pgrep env) = true ->
  exists out,
    converge env k n
    = Continue tt
        {| stdout := stdout n ++ out;
           actions := actions n
             ++ [Pgrep "bin/elasticsearch"; Pgrep "trafficCaptureProxyServer";
                 ReadConfig; SedConfig; Kill (es_pgrep env); StartElasticsearch;
                 StartCaptureProxy k];
           config := map sed_line (config n) |}.
Proof.
  intros Hes Hcap Hg Hentry Hkill.
  unfold converge. unfold mbind at 1. unfold script_bind at 1.
  destruct (observe_run env n) as [out ->].
  rewrite Hcap, (not_empty_eqb _ Hes). unfold_script. simpl.
  rewrite reconcile_port_different by assumption.
  unfold start_elasticsearch, start_capture_proxy. unfold_script.
  rewrite (not_empty_eqb _ Hes), Hkill. simpl.
  eexists. rewrite <- !app_assoc. simpl. reflexivity.
Qed.

End SupervisorFacts.

(** ** The supervisor on concrete inputs *)

Module SupervisorExamples.
Import Supervisor SupervisorFacts Samples.

Lemma both_alive_is_a_no_op_witness :
  let r := startCaptureProxy broker_args converged_node in
  status r = 0%Z
  /\ actions (node r) = [Pgrep "bin/elasticsearch"; Pgrep "trafficCaptureProxyServer"]
  /\ Forall (fun a => mutation a = false) (actions (node r))
  /\ config (node r) = yml converged_node
  /\ stdout (node r)
     = [ "Elasticsearch process PID: " +:+ es_pgrep converged_node;
         "Capture Proxy process PID: " +:+ capture_pgrep converged_node;
         "Both Elasticsearch and Capture Proxy processes are running, no actions will be performed." ].
Proof.
  apply (both_alive_is_a_no_op broker_args converged_node).
  - reflexivity.
  - discriminate.
  - discriminate.
  - reflexivity.
Defined.

Lemma dash_word_prints_usage_and_exits_1_witness :
  let r := startCaptureProxy (broker_args ++ "--help" :: []) converged_node in
  status r = 1%Z
  /\ actions (node r) = []
  /\ config (node r) = yml converged_node
  /\ stdout (node r)
     = (if String.eqb "--help" "-h" || String.eqb "--help" "--help"
        then [] else ["Unknown option " +:+ "--help"]) ++ usage_text.
Proof.
  apply (dash_word_prints_usage_and_exits_1 broker_args "--help" [] converged_node).
  - reflexivity.
  - reflexivity.
  - discriminate.
Defined.

(** C4, without [--kafka-endpoints]: the run is no usage error. It looks at
    the process table, starts Elasticsearch and the capture proxy with an
    empty connection string, prints no usage text and ends with status 0. *)
Lemma missing_endpoints_is_not_a_usage_error :
  let r := startCaptureProxy [] fresh_node in
  status r = 0%Z
  /\ actions (node r)
     = [Pgrep "bin/elasticsearch"; Pgrep "trafficCaptureProxyServer"; ReadConfig;
        StartElasticsearch; StartCaptureProxy EmptyString; Sleep 5;
        Pgrep "trafficCaptureProxyServer"]
  /\ ~ In "Usage: " (stdout (node r)).
Proof.
  vm_compute. repeat split. intuition discriminate.
Qed.

(** C3, with a capture proxy that does not come up: the log is printed and
    the run still ends with status 0. *)
Lemma dead_capture_proxy_still_exits_0 :
  let r := startCaptureProxy broker_args failing_proxy_node in
  capture_pgrep_verify failing_proxy_node = EmptyString
  /\ In (Sleep 5) (actions (node r))
  /\ In "java.net.BindException" (stdout (node r))
  /\ ~ status r <> 0%Z.
Proof.
  vm_compute. repeat split; try tauto; try (intros H; apply H; reflexivity).
Qed.

Lemma dead_capture_proxy_is_reported_with_status_0_witness :
  let r := startCaptureProxy broker_args failing_proxy_node in
  status r = 0%Z
  /\ exists before : Node,
      ~ In (Sleep 5) (actions before)
      /\ stdout (node r)
         = stdout before
           ++ ["Capture Proxy appears to have encountered issue on startup"]
           ++ diagnosis failing_proxy_node
           ++ ["Completed startCaptureProxy.sh"]
      /\ actions (node r)
         = actions before
           ++ [Sleep 5; Pgrep "trafficCaptureProxyServer"; TestExists "nohup.out"]
           ++ diagnosis_actions failing_proxy_node
      /\ Forall (fun a => mutation a = false)
           ([Sleep 5; Pgrep "trafficCaptureProxyServer"; TestExists "nohup.out"]
            ++ diagnosis_actions failing_proxy_node)
      /\ config (node r) = config before.
Proof.
  apply (dead_capture_proxy_is_reported_with_status_0 broker_args failing_proxy_node).
  - vm_compute. tauto.
  - reflexivity.
Defined.

(** C7, on a file without the port setting: nothing is appended. The run
    ends at line 58 with status 1, the file unchanged and Elasticsearch
    neither killed nor started. *)
Theorem absent_port_setting_is_not_appended :
  let r := startCaptureProxy broker_args unset_port_node in
  grep_http_port (yml unset_port_node) = []
  /\ status r = 1%Z
  /\ config (node r) = ["cluster.name: c"; "network.host: 0.0.0.0"]
  /\ actions (node r)
     = [Pgrep "bin/elasticsearch"; Pgrep "trafficCaptureProxyServer"; ReadConfig]
  /\ stdout (node r)
     = ["Elasticsearch process PID: 4242"; "No running Capture Proxy process detected"].
Proof.
  vm_compute. repeat split.
Qed.

End SupervisorExamples.

(** ** The assembler *)

Module ShellFacts.
Import Shell.

Lemma append_assoc (a b c : string) : (a +:+ b) +:+ c = a +:+ b +:+ c.
Proof.
  induction a as [|x a IH]; [reflexivity|].
  change (String x (a +:+ b) +:+ c = String x (a +:+ b +:+ c)).
  change (String x ((a +:+ b) +:+ c) = String x (a +:+ b +:+ c)).
  f_equal. exact IH.
Qed.

Lemma split_at_last_none s : no_quote s = true -> split_at_last quote s = None.
Proof.
  induction s as [|a s IH]; [reflexivity|].
  unfold no_quote. cbn [all_chars split_at_last]. fold (no_quote s).
  intros H. apply andb_true_iff in H as [Ha Hs].
  rewrite (IH Hs). apply negb_true_iff in Ha. rewrite Ha. reflexivity.
Qed.

(** The closing quote of an [echo] is the last quote of the command when
    nothing after it holds a quote, whatever the text. *)
Lemma split_at_last_text t s :
  no_quote s = true ->
  split_at_last quote (t +:+ dq +:+ s) = Some (t, s).
Proof.
  intros Hs. induction t as [|a t IH].
  - change (EmptyString +:+ dq +:+ s) with (String quote s).
    cbn [split_at_last]. rewrite (split_at_last_none _ Hs).
    rewrite Ascii.eqb_refl. reflexivity.
  - change (String a t +:+ dq +:+ s) with (String a (t +:+ dq +:+ s)).
    cbn [split_at_last]. rewrite IH. reflexivity.
Qed.

(** A command made of a head that [parse_head] reads, a text, and a tail
    that [parse_redirect] reads. *)
Lemma parse_echo_text head dir t tail r f :
  (forall rest, parse_head (head +:+ dq +:+ rest) = Some (dir, rest)) ->
  no_quote tail = true ->
  parse_redirect tail = Some (r, f) ->
  parse_echo (head +:+ dq +:+ t +:+ dq +:+ tail)
  = Some {| directory := dir; text := t; redirect := r; file := f |}.
Proof.
  intros Hhead Hq Htail. unfold parse_echo.
  rewrite Hhead, (split_at_last_text _ _ Hq), Htail. reflexivity.
Qed.

(** A text without quote, dollar, backquote or backslash is printed as it
    is. *)
Lemma read_word_plain t :
  all_chars (fun a => negb (Ascii.eqb a quote) && negb (Ascii.eqb a "$")
                      && negb (Ascii.eqb a (ascii_of_nat 96))
                      && negb (Ascii.eqb a (ascii_of_nat 92))) t = true ->
  read_word true t = Some t.
Proof.
  induction t as [|a t IH]; [reflexivity|].
  cbn [all_chars read_word]. intros H.
  apply andb_true_iff in H as [Ha Ht].
  apply andb_true_iff in Ha as [Ha H92].
  apply andb_true_iff in Ha as [Ha H96].
  apply andb_true_iff in Ha as [Hq Hd].
  apply negb_true_iff in Hq. rewrite Hq, Hd, H96, H92. cbn [andb].
  rewrite (IH Ht). reflexivity.
Qed.

Lemma plain_shell_reads t : plain t = true -> shell_reads t = Some t.
Proof.
  unfold plain, shell_reads. intros H.
  apply andb_true_iff in H as [Hdash Hchars].
  rewrite (read_word_plain _ Hchars).
  apply negb_true_iff in Hdash. rewrite Hdash. reflexivity.
Qed.

Lemma run_elements_app other path l1 l2 files :
  run_elements other path (l1 ++ l2) files
  = match run_elements other path l1 files with
    | Ran files' => run_elements other path l2 files'
    | Stopped files' => Stopped files'
    | Unread => Unread
    end.
Proof.
  revert files. induction l1 as [|e l1 IH]; intros files; simpl; [reflexivity|].
  destruct (run_element other path e files); [apply IH | reflexivity..].
Qed.

(** *** Lines and the last occurrence of a key *)

Lemma lines_not_nil s : lines s <> [].
Proof.
  destruct s as [|a s]; simpl; [discriminate|].
  destruct (Ascii.eqb a (ascii_of_nat 10)); [discriminate|].
  destruct (lines s); discriminate.
Qed.

Lemma lines_app a b : lines (a +:+ nl +:+ b) = lines a ++ lines b.
Proof.
  induction a as [|x a IH].
  - reflexivity.
  - change (String x a +:+ nl +:+ b) with (String x (a +:+ nl +:+ b)).
    cbn [lines]. rewrite IH.
    destruct (Ascii.eqb x (ascii_of_nat 10)); [reflexivity|].
    destruct (lines a) as [|l ls] eqn:Hl; [exfalso; exact (lines_not_nil _ Hl)|].
    reflexivity.
Qed.

Lemma lookup_last_app key l1 l2 :
  lookup_last key (l1 ++ l2)
  = match lookup_last key l2 with
    | Some v => Some v
    | None => lookup_last key l1
    end.
Proof.
  induction l1 as [|l l1 IH]; simpl.
  - destruct (lookup_last key l2); reflexivity.
  - rewrite IH. destruct (lookup_last key l2); reflexivity.
Qed.

(** A text appended as the last lines of a document decides every key it
    sets. *)
Lemma resolve_appended key value earlier extra :
  lookup_last key (lines extra) = Some value ->
  resolve key (earlier +:+ nl +:+ extra +:+ nl) = Some value.
Proof.
  intros H. unfold resolve.
  rewrite lines_app.
  replace (extra +:+ nl) with (extra +:+ nl +:+ EmptyString).
  - rewrite lines_app, !lookup_last_app. simpl. rewrite H. reflexivity.
  - reflexivity.
Qed.

End ShellFacts.

Module AssemblerFacts.
Import Shell ShellFacts Assembler.

Section Facts.

Variable dump : JsValue -> string.
Variable nodeConfig : string -> JsValue.
Variable single_node_base_config : list (string * JsValue).
Variable multi_node_base_config : list (string * JsValue).

#[local] Abbreviation getCfnInitElement :=
  (getCfnInitElement dump nodeConfig single_node_base_config multi_node_base_config).
#[local] Abbreviation commonConfig := (commonConfig dump multi_node_base_config).
#[local] Abbreviation commonConfigCommand :=
  (commonConfigCommand dump multi_node_base_config).
#[local] Abbreviation nodeConfigData := (nodeConfigData dump nodeConfig).
#[local] Abbreviation nodeConfigCommand := (nodeConfigCommand dump nodeConfig).
#[local] Abbreviation opensearchConfig := (opensearchConfig dump single_node_base_config).
#[local] Abbreviation singleNodeCommand :=
  (singleNodeCommand dump single_node_base_config).
#[local] Abbreviation multiNodeElements :=
  (multiNodeElements dump nodeConfig multi_node_base_config).
#[local] Abbreviation structural :=
  (structural dump nodeConfig single_node_base_config multi_node_base_config).
#[local] Abbreviation structural_texts_plain :=
  (structural_texts_plain dump nodeConfig single_node_base_config
     multi_node_base_config).

Lemma getCfnInitElement_with_text scope logGroup props nodeType jvm extra :
  jvmSysPropsString props = Some jvm ->
  additionalConfig props = Some extra ->
  extra <> "undefined" ->
  (dashboardsUrl props <> "undefined" -> is_Some (additionalOsdConfig props)) ->
  getCfnInitElement scope logGroup props nodeType
  = Returned (structural scope logGroup props nodeType jvm
              ++ additionalConfigCommand extra
              :: trailing props (dashboards props)).
Proof.
  intros Hjvm Hextra Hne Hosd.
  unfold Assembler.getCfnInitElement, structural, trailing, dashboards,
    singleNodeElements.
  rewrite Hjvm, Hextra. cbn [toString obind].
  apply String.eqb_neq in Hne. rewrite Hne. cbn [negb].
  destruct (negb (String.eqb (dashboardsUrl props) "undefined")) eqn:Hurl.
  - destruct Hosd as [osd Hosd].
    { intros E. rewrite E in Hurl. discriminate. }
    unfold dashboardsElements. rewrite Hosd. cbn [toString obind].
    f_equal.
    destruct (singleNodeCluster props), (negb (String.eqb jvm "undefined")),
      (use50PercentHeap props), (truthy (captureProxyEnabled props));
      rewrite <- ?app_assoc, ?app_nil_r; reflexivity.
  - f_equal.
    destruct (singleNodeCluster props), (negb (String.eqb jvm "undefined")),
      (use50PercentHeap props), (truthy (captureProxyEnabled props));
      rewrite <- ?app_assoc, ?app_nil_r; reflexivity.
Qed.

(** *** What each command does to elasticsearch.yml *)

Ltac none_writes :=
  repeat (first [apply Forall_nil_2 | apply Forall_cons_2]); reflexivity.

Lemma initialElements_do_not_write scope logGroup props :
  Forall (fun e => writes elasticsearch_yml e = false)
    (initialElements scope logGroup props).
Proof. unfold initialElements. none_writes. Qed.

Lemma parse_truncate t :
  parse_echo ("set -ex;cd elasticsearch; echo " +:+ dq +:+ t +:+ dq
              +:+ " > config/elasticsearch.yml")
  = Some {| directory := "elasticsearch"; text := t; redirect := Truncate;
            file := "config/elasticsearch.yml" |}.
Proof. apply parse_echo_text; [intros rest|..]; reflexivity. Qed.

Lemma parse_append t :
  parse_echo ("set -ex;cd elasticsearch; echo " +:+ dq +:+ t +:+ dq
              +:+ " >> config/elasticsearch.yml")
  = Some {| directory := "elasticsearch"; text := t; redirect := Append;
            file := "config/elasticsearch.yml" |}.
Proof. apply parse_echo_text; [intros rest|..]; reflexivity. Qed.

Lemma parse_additionalConfig t :
  parse_echo ("set -ex; cd elasticsearch; echo " +:+ dq +:+ t +:+ dq
              +:+ ">>config/elasticsearch.yml")
  = Some {| directory := "elasticsearch"; text := t; redirect := Append;
            file := "config/elasticsearch.yml" |}.
Proof. apply parse_echo_text; [intros rest|..]; reflexivity. Qed.

Lemma parse_remote_store t :
  parse_echo ("set -ex;cd opensearch; echo " +:+ dq +:+ t +:+ dq
              +:+ " >> config/opensearch.yml")
  = Some {| directory := "opensearch"; text := t; redirect := Append;
            file := "config/opensearch.yml" |}.
Proof. apply parse_echo_text; [intros rest|..]; reflexivity. Qed.

Lemma parse_additionalOsdConfig t :
  parse_echo ("set -ex;cd opensearch-dashboards; echo " +:+ dq +:+ t +:+ dq
              +:+ ">>config/opensearch_dashboards.yml")
  = Some {| directory := "opensearch-dashboards"; text := t; redirect := Append;
            file := "config/opensearch_dashboards.yml" |}.
Proof. apply parse_echo_text; [intros rest|..]; reflexivity. Qed.

Lemma remoteStoreElements_do_not_write scope :
  Forall (fun e => writes elasticsearch_yml e = false) (remoteStoreElements scope).
Proof.
  unfold remoteStoreElements.
  repeat (first [apply Forall_nil_2 | apply Forall_cons_2]);
    unfold writes, shellCommandIn; rewrite parse_remote_store; reflexivity.
Qed.

Lemma trailing_does_not_write props :
  Forall (fun e => writes elasticsearch_yml e = false)
    (trailing props (dashboards props)).
Proof.
  unfold trailing. apply Forall_app. split; [none_writes|].
  apply Forall_app. split.
  - destruct (truthy (captureProxyEnabled props)); [|apply Forall_nil_2].
    unfold captureProxyElements. none_writes.
  - unfold dashboards, dashboardsElements.
    destruct (negb (String.eqb (dashboardsUrl props) "undefined")); [|apply Forall_nil_2].
    destruct (additionalOsdConfig props) as [osd|]; cbn [toString obind];
      [|apply Forall_nil_2].
    destruct (securityDisabled props && negb (minDistribution props)),
             (negb (String.eqb osd "undefined"));
      cbn [app];
      repeat (first [apply Forall_nil_2 | apply Forall_cons_2]);
      first [reflexivity
            | unfold writes, shellCommandIn; rewrite parse_additionalOsdConfig;
              reflexivity].
Qed.

(** The command that carries the user's text stands in the list after
    every structural command, no command after it writes elasticsearch.yml,
    and the list around it is the same whatever the text. *)
Lemma user_text_command_stands_last scope logGroup props nodeType extra :
  strings_supplied props ->
  additionalConfig props = Some extra ->
  extra <> "undefined" ->
  exists before after,
    getCfnInitElement scope logGroup props nodeType
    = Returned (before ++ additionalConfigCommand extra :: after)
    /\ (if singleNodeCluster props
        then In (singleNodeCommand scope) before
        else In (commonConfigCommand scope) before
             /\ (forall t, nodeType = Some t -> In (nodeConfigCommand t) before)
             /\ (enableRemoteStore props = true ->
                 incl (remoteStoreElements scope) before))
    /\ (use50PercentHeap props = true -> In heapCommand before)
    /\ Forall (fun e => writes elasticsearch_yml e = false) after
    /\ (forall other,
          other <> "undefined" ->
          getCfnInitElement scope logGroup (with_additionalConfig props other) nodeType
          = Returned (before ++ additionalConfigCommand other :: after)).
Proof.
  intros ([jvm Hjvm] & _ & Hosd) Hextra Hne.
  exists (structural scope logGroup props nodeType jvm),
         (trailing props (dashboards props)).
  split; [apply getCfnInitElement_with_text; assumption|].
  split.
  { unfold structural. destruct (singleNodeCluster props).
    - apply in_or_app. right. apply in_or_app. left. left. reflexivity.
    - unfold Assembler.multiNodeElements. split; [|split].
      + apply in_or_app. right. apply in_or_app. left.
        apply in_or_app. left. left. reflexivity.
      + intros t ->. apply in_or_app. right. apply in_or_app. left.
        apply in_or_app. right. apply in_or_app. left. left. reflexivity.
      + intros -> e He. apply in_or_app. right. apply in_or_app. left.
        apply in_or_app. right. apply in_or_app. right.
        apply in_or_app. right. exact He. }
  split.
  { intros Hheap. unfold structural. rewrite Hheap.
    apply in_or_app. right. apply in_or_app. right.
    apply in_or_app. right. left. reflexivity. }
  split; [apply trailing_does_not_write|].
  intros other Hother.
  apply (getCfnInitElement_with_text scope logGroup
           (with_additionalConfig props other) nodeType jvm other);
    [exact Hjvm | reflexivity | exact Hother | exact Hosd].
Qed.

End Facts.

End AssemblerFacts.

(** ** The assembler on concrete inputs *)

Module AssemblerExamples.
Import Shell Assembler.

#[local] Abbreviation getCfnInitElement :=
  (getCfnInitElement Samples.dump Samples.nodeConfig Samples.base_config
     Samples.base_config Samples.self Samples.logs).
#[local] Abbreviation structural_document :=
  (commonConfig Samples.dump Samples.base_config Samples.self +:+ nl
   +:+ nodeConfigData Samples.dump Samples.nodeConfig "data" +:+ nl).

(** C9, on the data nodes of a cluster of three managers and two data
    nodes, run on a new instance on which every download, archive and plugin
    command ends well.
    - With the remote store on and the user text [network.host: 10.0.0.1],
      the text's command is in the list, but the run stops at the first
      remote-store command: it enters [opensearch], a directory the list
      never makes (it makes [elasticsearch]). The document is left with the
      base and node-type texts, and [network.host] resolves to the value of
      the base document.
    - With the remote store off the run reaches its end and the user's value
      wins.
    - With the remote store off and a user text that holds a quoted path,
      the shell drops the quotes: the document does not hold the text as it
      was given, and the key resolves to another value than the text's. *)
Theorem user_text_is_lost_or_altered :
  (exists l files,
     getCfnInitElement Samples.cluster_with_text (Some "data") = Returned l
     /\ In (additionalConfigCommand Samples.user_text) l
     /\ run_elements quiet elasticsearch_yml l Samples.new_instance = Stopped files
     /\ document files = structural_document
     /\ lookup_last "network.host" (lines Samples.user_text) = Some "10.0.0.1"
     /\ resolve "network.host" (document files) = Some "0.0.0.0")
  /\ (exists l files,
        getCfnInitElement Samples.cluster_without_remote_store (Some "data")
        = Returned l
        /\ run_elements quiet elasticsearch_yml l Samples.new_instance = Ran files
        /\ document files = structural_document +:+ Samples.user_text +:+ nl
        /\ resolve "network.host" (document files) = Some "10.0.0.1")
  /\ (exists l files,
        getCfnInitElement Samples.cluster_with_quoted_text (Some "data") = Returned l
        /\ In (additionalConfigCommand Samples.quoted_text) l
        /\ run_elements quiet elasticsearch_yml l Samples.new_instance = Ran files
        /\ document files = structural_document +:+ "path.repo: [/mnt/a]" +:+ nl
        /\ document files <> structural_document +:+ Samples.quoted_text +:+ nl
        /\ lookup_last "path.repo" (lines Samples.quoted_text)
           = Some ("[" +:+ dq +:+ "/mnt/a" +:+ dq +:+ "]")
        /\ resolve "path.repo" (document files) = Some "[/mnt/a]").
Proof.
  split; [|split].
  - do 2 eexists. split; [vm_compute; reflexivity|].
    split; [vm_compute; tauto|].
    split; [vm_compute; reflexivity|].
    repeat split.
  - do 2 eexists. split; [vm_compute; reflexivity|].
    split; [vm_compute; reflexivity|].
    repeat split.
  - do 2 eexists. split; [vm_compute; reflexivity|].
    split; [vm_compute; tauto|].
    split; [vm_compute; reflexivity|].
    split; [reflexivity|].
    split; [vm_compute; discriminate|].
    split; reflexivity.
Qed.

End AssemblerExamples.

(** * Further properties *)

(** ** The planner *)

Module PlannerMore.
Import Planner PlannerFacts.

Section Facts.

Variable dump : JsValue -> string.
Variable nodeConfig : string -> JsValue.
Variable single_node_base_config : list (string * JsValue).
Variable multi_node_base_config : list (string * JsValue).

#[local] Abbreviation getCfnInitElement :=
  (getCfnInitElement dump nodeConfig single_node_base_config multi_node_base_config).
#[local] Abbreviation elementsFor :=
  (elementsFor dump nodeConfig single_node_base_config multi_node_base_config).
#[local] Abbreviation InfraStack_constructor :=
  (InfraStack_constructor dump nodeConfig single_node_base_config multi_node_base_config).

Ltac unfold_build :=
  unfold Planner.InfraStack_constructor, singleNodeBranch, distributedBranch,
    capacities, managerGroup, seedGroup, dataGroup, clientGroup, mlGroup,
    mbind, build_bind, mret, build_ret, bind, ret, lift, new, addTag, addTargets.

Ltac run_build Hs :=
  unfold_build;
  repeat (first
    [ rewrite (getCfnInitElement_returns dump nodeConfig single_node_base_config
                 multi_node_base_config _ _ _ _ Hs)
    | progress cbn
    | match goal with
      | |- context [if ?b then _ else _] => destruct b eqn:?
      end ]).

Ltac each_construct :=
  repeat (first [apply Forall_nil_2 | apply Forall_cons_2]).

Ltac not_among :=
  repeat (apply not_elem_of_cons; split; [discriminate|]); apply not_elem_of_nil.

Ltac order_facts :=
  repeat match goal with
         | H : (_ >? _)%Z = true |- _ => apply Z.gtb_gt in H
         | H : (_ >? _)%Z = false |- _ =>
             rewrite Z.gtb_ltb in H; apply Z.ltb_ge in H
         | H : (_ =? _)%Z = true |- _ => apply Z.eqb_eq in H
         | H : (_ =? _)%Z = false |- _ => apply Z.eqb_neq in H
         end.

(** *** When the constructor throws *)

Lemma getCfnInitElement_throws scope logGroup props nodeType :
  ~ strings_supplied props ->
  getCfnInitElement scope logGroup props nodeType = Thrown TypeError.
Proof.
  intros Hnot. unfold Planner.getCfnInitElement, Assembler.getCfnInitElement.
  destruct (jvmSysPropsString props) as [jvm|] eqn:Hjvm; [|reflexivity].
  destruct (additionalConfig props) as [extra|] eqn:Hextra; [|reflexivity].
  cbn [toString obind].
  destruct (negb (String.eqb (dashboardsUrl props) "undefined")) eqn:Hurl.
  - unfold Assembler.dashboardsElements.
    destruct (additionalOsdConfig props) as [osd|] eqn:Hosd; [|reflexivity].
    exfalso. apply Hnot. unfold strings_supplied.
    rewrite Hjvm, Hextra, Hosd. eauto.
  - exfalso. apply Hnot. unfold strings_supplied. rewrite Hjvm, Hextra.
    repeat split; eauto. intros Hne.
    apply negb_false_iff, String.eqb_eq in Hurl. contradiction.
Qed.

(** X1. When one of the optional strings on which [.toString()] is called
    is absent, the constructor throws a [TypeError], in single-node and in
    distributed mode alike: the init elements are assembled before the first
    instance or group is handed to its constructor. So a constructor that
    returns was given the strings. *)
Theorem constructor_throws_without_the_strings scope self id props :
  ~ strings_supplied props ->
  InfraStack_constructor scope self id props = Thrown TypeError.
Proof.
  intros H. unfold_build.
  destruct (singleNodeCluster props).
  - rewrite (getCfnInitElement_throws _ _ _ _ H). reflexivity.
  - destruct (managerNodeCount props >? 0)%Z;
      match goal with
      | |- context [if ?b then _ else _] => destruct b
      end;
      rewrite ?(getCfnInitElement_throws _ _ _ _ H); cbn;
      rewrite ?(getCfnInitElement_throws _ _ _ _ H); reflexivity.
Qed.

(** *** The shape of what is built *)

(** X2. In single-node mode the role counts play no part: the constructor
    builds one instance and no group. The instance has the data instance type
    when one is given (else R5 or R6G by processor), the data volume size,
    the init elements of no node type and the tag [role: client], and every
    listener targets it. *)
Theorem single_node_builds_one_instance scope self id props :
  strings_supplied props ->
  singleNodeCluster props = true ->
  exists tree i,
    InfraStack_constructor scope self id props = Returned (None, tree)
    /\ heap tree = [{| constructId := "single-node-instance";
                       resource := AnInstance i;
                       tags := [("role", "client")] |}]
    /\ inst_instanceType i = Some (singleNodeInstanceType props)
    /\ inst_blockDevices i = [xvda (dataNodeStorage props) props]
    /\ inst_init i = elementsFor self id props None
    /\ targetGroups tree <> []
    /\ Forall (fun tg => targets tg = [0%nat]) (targetGroups tree).
Proof.
  intros Hs Hd.
  unfold Planner.InfraStack_constructor. rewrite Hd.
  run_build Hs;
    (do 2 eexists; split; [reflexivity|]; cbn;
     repeat split; try discriminate; each_construct; reflexivity).
Qed.

(** X3. Whatever is built, the construct ids are pairwise distinct and every
    group is of fixed size: its minimum and its maximum are its desired
    capacity. *)
Theorem groups_have_distinct_ids_and_fixed_size scope self id props :
  strings_supplied props ->
  exists plan tree,
    InfraStack_constructor scope self id props = Returned (plan, tree)
    /\ NoDup (map constructId (heap tree))
    /\ Forall fixed_size (heap tree).
Proof.
  intros Hs.
  run_build Hs;
    (do 2 eexists; split; [reflexivity|]; cbn; split;
     [ repeat (apply NoDup_cons_2; [not_among|]); apply NoDup_nil_2
     | each_construct; unfold fixed_size; cbn; auto ]).
Qed.

(** X4. In distributed mode with a manager count that is not negative, the
    seed is taken out of the allotment: the capacities of the manager group,
    the seed group and the data group add up to the manager count plus the
    data count. *)
Theorem seed_is_taken_out_of_the_allotment scope self id props :
  strings_supplied props ->
  singleNodeCluster props = false ->
  (0 <= managerNodeCount props)%Z ->
  exists plan tree,
    InfraStack_constructor scope self id props = Returned (Some plan, tree)
    /\ (group_capacity tree "managerNodeAsg" + group_capacity tree "seedNodeAsg"
        + group_capacity tree "dataNodeAsg"
        = managerNodeCount props + dataNodeCount props)%Z.
Proof.
  intros Hs Hd Hm.
  unfold Planner.InfraStack_constructor. rewrite Hd.
  run_build Hs;
    (do 2 eexists; split; [reflexivity|]; unfold group_capacity; cbn;
     order_facts; lia).
Qed.


(** X5. In distributed mode with a client count other than 0, a client group
    of its own is created with that capacity, the default instance type and
    a 50 GiB volume; it carries the tags [cluster] (the parent stack's name)
    and [role: client], every listener targets it, and the data group keeps
    the single tag [role: data]. *)
Theorem client_group_of_its_own scope self id props :
  strings_supplied props ->
  singleNodeCluster props = false ->
  clientNodeCount props <> 0%Z ->
  exists plan tree c g d,
    InfraStack_constructor scope self id props = Returned (Some plan, tree)
    /\ clientNodeAsg plan <> dataNodeAsg plan
    /\ construct_at tree (clientNodeAsg plan) = Some c
    /\ constructId c = "clientNodeAsg"
    /\ tags c = [("cluster", stackName scope); ("role", "client")]
    /\ resource c = AnAutoScalingGroup g
    /\ desiredCapacity g = clientNodeCount props
    /\ instanceType g = Some (defaultInstanceType props)
    /\ blockDevices g = [xvda 50 props]
    /\ init g = elementsFor self id props (Some "client")
    /\ construct_at tree (dataNodeAsg plan) = Some d
    /\ constructId d = "dataNodeAsg"
    /\ tags d = [("role", "data")]
    /\ Forall (fun tg => targets tg = [clientNodeAsg plan]) (targetGroups tree).
Proof.
  intros Hs Hd Hc. apply Z.eqb_neq in Hc.
  unfold Planner.InfraStack_constructor. rewrite Hd.
  unfold distributedBranch, clientGroup. rewrite Hc.
  run_build Hs;
    (do 5 eexists; split; [reflexivity|]; cbn;
     split; [discriminate|];
     split; [reflexivity|]; cbn;
     split; [reflexivity|];
     split; [reflexivity|];
     split; [reflexivity|]; cbn;
     split; [reflexivity|];
     split; [reflexivity|];
     split; [reflexivity|];
     split; [reflexivity|];
     split; [reflexivity|]; cbn;
     split; [reflexivity|];
     split; [reflexivity|];
     each_construct; reflexivity).
Qed.

(** X6. In distributed mode the ML group exists exactly for a positive ML
    count. When it exists it has that capacity, the ML instance type, the ML
    volume size and the tag [role: ml-node]; otherwise no construct has its
    id. *)
Theorem ml_group_only_for_a_positive_count scope self id props :
  strings_supplied props ->
  singleNodeCluster props = false ->
  exists plan tree,
    InfraStack_constructor scope self id props = Returned (Some plan, tree)
    /\ match mlNodeAsg plan with
       | Some x =>
           (0 < mlNodeCount props)%Z
           /\ exists c g,
               construct_at tree x = Some c
               /\ constructId c = "mlNodeAsg"
               /\ tags c = [("role", "ml-node")]
               /\ resource c = AnAutoScalingGroup g
               /\ desiredCapacity g = mlNodeCount props
               /\ instanceType g = mlEc2InstanceType props
               /\ blockDevices g = [xvda (mlNodeStorage props) props]
       | None =>
           (mlNodeCount props <= 0)%Z
           /\ Forall (fun c => constructId c <> "mlNodeAsg") (heap tree)
       end.
Proof.
  intros Hs Hd.
  unfold Planner.InfraStack_constructor. rewrite Hd.
  run_build Hs;
    (do 2 eexists; split; [reflexivity|]; cbn; order_facts;
     split; [lia|];
     first [ do 2 eexists; repeat split; reflexivity
           | each_construct; discriminate ]).
Qed.

(** X7. The ingest count is read nowhere, and in single-node mode no role
    count is: the constructor builds the same tree whatever they are. *)
Theorem counts_that_are_ignored scope self id props :
  (forall ingest,
     InfraStack_constructor scope self id (with_ingestNodeCount props ingest)
     = InfraStack_constructor scope self id props)
  /\ (singleNodeCluster props = true ->
      forall manager data ingest client ml,
        InfraStack_constructor scope self id
          (with_counts props manager data ingest client ml)
        = InfraStack_constructor scope self id props).
Proof.
  split; [reflexivity|].
  intros Hd manager data ingest client ml. unfold Planner.InfraStack_constructor.
  change (singleNodeCluster (with_counts props manager data ingest client ml))
    with (singleNodeCluster props).
  rewrite Hd. reflexivity.
Qed.

(** X8. The listeners and where they forward. With security on and a full
    distribution the load balancer listens on 443 and 80, otherwise on 9200
    and 19200; the first forwards to port 9200 and the second to port 19200
    of the one client-facing target, and a third listener on 8443 forwards to
    port 5601 of that same target exactly when a dashboards URL is set. *)
Theorem listeners_forward_to_one_target scope self id props :
  strings_supplied props ->
  exists plan tree x,
    InfraStack_constructor scope self id props = Returned (plan, tree)
    /\ map (fun tg => (listenerPort (ofListener tg), targetPort tg, targets tg))
         (targetGroups tree)
       = [ (if negb (securityDisabled props) && negb (minDistribution props)
            then 443%Z else 9200%Z, 9200%Z, [x]);
           (if negb (securityDisabled props) && negb (minDistribution props)
            then 80%Z else 19200%Z, 19200%Z, [x]) ]
         ++ (if negb (String.eqb (dashboardsUrl props) "undefined")
             then [(8443%Z, 5601%Z, [x])] else [])
    /\ x = match plan with
           | Some p => clientNodeAsg p
           | None => 0%nat
           end.
Proof.
  intros Hs.
  unfold_build.
  unfold opensearchListener, opensearchListener19200, dashboardsListener.
  run_build Hs; (do 3 eexists; split; [reflexivity|]; cbn; split; reflexivity).
Qed.

End Facts.

End PlannerMore.

(** ** The assembler *)

Module AssemblerMore.
Import Shell ShellFacts Assembler AssemblerFacts.

Section Facts.

Variable dump : JsValue -> string.
Variable nodeConfig : string -> JsValue.
Variable single_node_base_config : list (string * JsValue).
Variable multi_node_base_config : list (string * JsValue).

#[local] Abbreviation getCfnInitElement :=
  (getCfnInitElement dump nodeConfig single_node_base_config multi_node_base_config).
#[local] Abbreviation commonConfig := (commonConfig dump multi_node_base_config).
#[local] Abbreviation nodeConfigData := (nodeConfigData dump nodeConfig).
#[local] Abbreviation opensearchConfig := (opensearchConfig dump single_node_base_config).
#[local] Abbreviation structural :=
  (structural dump nodeConfig single_node_base_config multi_node_base_config).
#[local] Abbreviation structural_texts_plain :=
  (structural_texts_plain dump nodeConfig single_node_base_config
     multi_node_base_config).

Lemma pushed_if (c : bool) (l x : list InitElement) :
  (if c then l ++ x else l) = l ++ (if c then x else []).
Proof. destruct c; [reflexivity | rewrite app_nil_r; reflexivity]. Qed.

Lemma if_app (c : bool) (l x y : list InitElement) :
  l ++ (if c then x else y) = if c then l ++ x else l ++ y.
Proof. destruct c; reflexivity. Qed.

(** The list for every input on which the function returns. *)
Lemma getCfnInitElement_shape scope logGroup props nodeType jvm extra :
  jvmSysPropsString props = Some jvm ->
  additionalConfig props = Some extra ->
  (dashboardsUrl props <> "undefined" -> is_Some (additionalOsdConfig props)) ->
  getCfnInitElement scope logGroup props nodeType
  = Returned (structural scope logGroup props nodeType jvm
              ++ userElements extra
              ++ trailing props (dashboards props)).
Proof.
  intros Hjvm Hextra Hosd.
  unfold Assembler.getCfnInitElement, Assembler.structural, trailing, dashboards,
    singleNodeElements, userElements.
  rewrite Hjvm, Hextra. cbn [toString obind]. cbv zeta.
  rewrite !pushed_if.
  rewrite <- (if_app (singleNodeCluster props)).
  destruct (negb (String.eqb (dashboardsUrl props) "undefined")) eqn:Hurl.
  - destruct Hosd as [osd Hosd].
    { intros E. rewrite E in Hurl. discriminate. }
    unfold dashboardsElements. rewrite Hosd. cbn [toString obind].
    rewrite <- !app_assoc. reflexivity.
  - rewrite app_nil_r, <- !app_assoc. reflexivity.
Qed.

Ltac not_this_command :=
  let H := fresh in
  intros H; rewrite ?in_app_iff in H; cbn [In] in H;
  repeat match goal with
         | H : _ \/ _ |- _ => destruct H
         | H : False |- _ => destruct H
         | H : In _ (if ?b then _ else _) |- _ => destruct b; cbn [In] in H
         | H : In _ (match ?o with Some _ => _ | None => _ end) |- _ =>
             destruct o; cbn [In] in H
         | H : In _ (_ ++ _) |- _ => rewrite in_app_iff in H
         | H : In _ (_ :: _) |- _ => cbn [In] in H
         | H : In _ [] |- _ => destruct H
         | H : _ = _ |- _ => discriminate H
         end.

(** X9. Elasticsearch is started once, and only when its configuration is
    complete: in the list the start command stands after every command that
    writes elasticsearch.yml and after the commands that edit jvm.options
    (system properties and heap size); only the capture-proxy and dashboards
    elements follow it. *)
Theorem elasticsearch_is_started_after_its_configuration scope logGroup props nodeType :
  strings_supplied props ->
  exists before after,
    getCfnInitElement scope logGroup props nodeType
    = Returned (before ++ runCommand :: after)
    /\ ~ In runCommand before
    /\ ~ In runCommand after
    /\ Forall (fun e => writes elasticsearch_yml e = false) after
    /\ after = (if truthy (captureProxyEnabled props)
                then captureProxyElements props else [])
               ++ dashboards props
    /\ (use50PercentHeap props = true -> In heapCommand before)
    /\ (forall jvm, jvmSysPropsString props = Some jvm -> jvm <> "undefined" ->
                    In (jvmSysPropsCommand jvm) before).
Proof.
  intros ([jvm Hjvm] & [extra Hextra] & Hosd).
  exists (structural scope logGroup props nodeType jvm ++ userElements extra),
         ((if truthy (captureProxyEnabled props)
           then captureProxyElements props else []) ++ dashboards props).
  split.
  { rewrite (getCfnInitElement_shape _ _ _ _ _ _ Hjvm Hextra Hosd).
    unfold trailing. rewrite <- !app_assoc. reflexivity. }
  split.
  { unfold Assembler.structural, userElements, initialElements,
      Assembler.multiNodeElements, remoteStoreElements.
    not_this_command. }
  split.
  { unfold dashboards, dashboardsElements, captureProxyElements.
    destruct (additionalOsdConfig props); cbn [toString obind];
      not_this_command. }
  split.
  { pose proof (trailing_does_not_write props) as H. unfold trailing in H.
    apply Forall_app in H as [_ H]. exact H. }
  split; [reflexivity|].
  split.
  - intros Hheap. unfold Assembler.structural. rewrite Hheap.
    apply in_or_app. left. apply in_or_app. right. apply in_or_app. right.
    apply in_or_app. right. left. reflexivity.
  - intros jvm' Hjvm' Hne. rewrite Hjvm in Hjvm'. injection Hjvm' as <-.
    apply String.eqb_neq in Hne. unfold Assembler.structural. rewrite Hne.
    apply in_or_app. left. apply in_or_app. right. apply in_or_app. right.
    apply in_or_app. left. left. reflexivity.
Qed.


(** *** The objects handed to [dump] *)

Lemma obj_get_set k v m : obj_get k (obj_set k v m) = v.
Proof.
  induction m as [|[k' v'] m IH]; cbn [obj_set obj_get].
  - rewrite String.eqb_refl. reflexivity.
  - destruct (String.eqb k k') eqn:E; cbn [obj_get].
    + rewrite String.eqb_refl. reflexivity.
    + rewrite E. exact IH.
Qed.

Lemma obj_get_set_other k k' v m :
  k' <> k -> obj_get k' (obj_set k v m) = obj_get k' m.
Proof.
  intros Hne. apply String.eqb_neq in Hne.
  induction m as [|[k0 v0] m IH]; cbn [obj_set obj_get].
  - rewrite Hne. reflexivity.
  - destruct (String.eqb k k0) eqn:E; cbn [obj_get].
    + apply String.eqb_eq in E. subst k0. rewrite Hne. reflexivity.
    + rewrite IH. reflexivity.
Qed.

Lemma obj_set_keys k v m :
  map fst (obj_set k v m)
  = map fst m ++ (if bool_decide (k ∈ map fst m) then [] else [k]).
Proof.
  induction m as [|[k' v'] m IH]; cbn [obj_set map fst].
  - reflexivity.
  - destruct (String.eqb k k') eqn:E.
    + apply String.eqb_eq in E. subst k'.
      rewrite bool_decide_eq_true_2 by left.
      cbn [map fst]. rewrite app_nil_r. reflexivity.
    + apply String.eqb_neq in E. cbn [map fst]. rewrite IH.
      rewrite (bool_decide_ext (k ∈ k' :: map fst m) (k ∈ map fst m)).
      * reflexivity.
      * rewrite elem_of_cons. tauto.
Qed.

Lemma obj_set_keys_NoDup k v m : NoDup (map fst m) -> NoDup (map fst (obj_set k v m)).
Proof.
  intros H. rewrite obj_set_keys. case_bool_decide as Hin.
  - rewrite app_nil_r. exact H.
  - apply NoDup_app. split; [exact H|]. split.
    + intros x Hx Hk. apply list_elem_of_singleton in Hk. subst x. contradiction.
    + apply NoDup_singleton.
Qed.

(** X11. The documents carry the identity of the stack whatever the base
    files say. The object dumped for a multi-node cluster has [cluster.name]
    set to stack name, account and region and [discovery.ec2.tag.Name] set to
    the seed and manager groups of the stack; every other key has the value
    of the base file, the keys of the base file keep their order with new
    keys added at the end, and no key is repeated if none was. The object
    dumped for a single node has the same [cluster.name]. *)
Theorem dumped_objects_carry_the_stack_identity scope :
  commonConfig scope = dump (JObject (baseConfig multi_node_base_config scope))
  /\ obj_get "cluster.name" (baseConfig multi_node_base_config scope)
     = JString (stackName scope +:+ "-" +:+ account scope +:+ "-" +:+ region scope)
  /\ obj_get "discovery.ec2.tag.Name" (baseConfig multi_node_base_config scope)
     = JString (stackName scope +:+ "/seedNodeAsg," +:+ stackName scope
                +:+ "/managerNodeAsg")
  /\ (forall k, k <> "cluster.name" -> k <> "discovery.ec2.tag.Name" ->
                obj_get k (baseConfig multi_node_base_config scope)
                = obj_get k multi_node_base_config)
  /\ (exists added,
        map fst (baseConfig multi_node_base_config scope)
        = map fst multi_node_base_config ++ added)
  /\ (NoDup (map fst multi_node_base_config) ->
      NoDup (map fst (baseConfig multi_node_base_config scope)))
  /\ opensearchConfig scope = dump (JObject (fileContent single_node_base_config scope))
  /\ obj_get "cluster.name" (fileContent single_node_base_config scope)
     = JString (stackName scope +:+ "-" +:+ account scope +:+ "-" +:+ region scope).
Proof.
  unfold baseConfig, fileContent.
  split; [reflexivity|].
  split; [rewrite obj_get_set_other by discriminate; apply obj_get_set|].
  split; [apply obj_get_set|].
  split; [intros k H1 H2; rewrite !obj_get_set_other by assumption; reflexivity|].
  split; [rewrite !obj_set_keys, <- app_assoc; eauto|].
  split; [intros H; do 2 apply obj_set_keys_NoDup; exact H|].
  split; [reflexivity | apply obj_get_set].
Qed.


(** *** The capture proxy *)

Ltac none_there :=
  repeat (first [apply Forall_nil_2 | apply Forall_cons_2]); reflexivity.

Lemma structural_not_in_capture_proxy scope logGroup props nodeType jvm :
  Forall (fun e => in_capture_proxy e = false)
    (structural scope logGroup props nodeType jvm).
Proof.
  unfold Assembler.structural, Assembler.multiNodeElements.
  repeat (apply Forall_app; split).
  - unfold initialElements. none_there.
  - destruct (singleNodeCluster props); [none_there|].
    repeat (apply Forall_app; split).
    + none_there.
    + destruct nodeType; none_there.
    + destruct (negb (minDistribution props)); none_there.
    + destruct (enableRemoteStore props); [unfold remoteStoreElements|]; none_there.
  - destruct (negb (String.eqb jvm "undefined")); none_there.
  - destruct (use50PercentHeap props); none_there.
Qed.

Lemma dashboards_not_in_capture_proxy props :
  Forall (fun e => in_capture_proxy e = false) (dashboards props).
Proof.
  unfold dashboards, dashboardsElements.
  destruct (negb (String.eqb (dashboardsUrl props) "undefined")); [|none_there].
  destruct (additionalOsdConfig props) as [osd|]; cbn [toString obind]; [|none_there].
  destruct (securityDisabled props && negb (minDistribution props)),
           (negb (String.eqb osd "undefined")); cbn [app]; none_there.
Qed.

Lemma userElements_not_in_capture_proxy extra :
  Forall (fun e => in_capture_proxy e = false) (userElements extra ++ [runCommand]).
Proof.
  unfold userElements. destruct (negb (String.eqb extra "undefined")); none_there.
Qed.

(** X12. The capture proxy is installed exactly when [captureProxyEnabled]
    is a string that is not empty (the text [false] included). Then the list
    holds the archive command and [startCaptureProxy.sh], one after the other
    right after the start of Elasticsearch, and no other element runs in the
    capture proxy's directory or puts a file there. When the string is empty
    no element of the list does. *)
Theorem capture_proxy_is_installed_for_any_text scope logGroup props nodeType :
  strings_supplied props ->
  exists l,
    getCfnInitElement scope logGroup props nodeType = Returned l
    /\ (In startCaptureProxy_file l <-> captureProxyEnabled props <> EmptyString)
    /\ (captureProxyEnabled props = EmptyString ->
        Forall (fun e => in_capture_proxy e = false) l)
    /\ (captureProxyEnabled props <> EmptyString ->
        exists before after,
          l = before ++ runCommand :: captureProxyElements props ++ after
          /\ Forall (fun e => in_capture_proxy e = false) (before ++ runCommand :: after))
    /\ captureProxyElements props
       = [ InitCommand_shellCommand
             ("set -ex; curl -L0 " +:+ captureProxyTarUrl props
              +:+ " --output CaptureProxyX64.tar.gz; tar -xvf CaptureProxyX64.tar.gz;")
             {| cwd := Some "/home/ec2-user/capture-proxy";
                ignoreErrors := Some false |};
           startCaptureProxy_file ]
    /\ Forall (fun e => in_capture_proxy e = true) (captureProxyElements props).
Proof.
  intros ([jvm Hjvm] & [extra Hextra] & Hosd).
  eexists. split; [apply (getCfnInitElement_shape _ _ _ _ _ _ Hjvm Hextra Hosd)|].
  assert (Forall (fun e => in_capture_proxy e = false)
            (structural scope logGroup props nodeType jvm
             ++ userElements extra ++ [runCommand] ++ [] ++ dashboards props))
    as Hnone.
  { apply Forall_app; split; [apply structural_not_in_capture_proxy|].
    rewrite app_assoc.
    apply Forall_app; split; [apply userElements_not_in_capture_proxy|].
    apply dashboards_not_in_capture_proxy. }
  unfold trailing, truthy.
  split; [split|split; [|split; [|split]]].
  - intros Hin Hempty. rewrite Hempty in Hin.
    change (negb (String.eqb EmptyString EmptyString)) with false in Hin.
    cbn iota in Hin.
    rewrite Forall_forall in Hnone. apply list_elem_of_In in Hin.
    specialize (Hnone _ Hin). discriminate.
  - intros Hne. apply String.eqb_neq in Hne. rewrite Hne. cbn [negb].
    apply in_or_app. right. apply in_or_app. right.
    apply in_or_app. right. apply in_or_app. left.
    right. left. reflexivity.
  - intros Hempty. rewrite Hempty.
    change (negb (String.eqb EmptyString EmptyString)) with false.
    cbn iota. exact Hnone.
  - intros Hne. apply String.eqb_neq in Hne. rewrite Hne. cbn [negb].
    exists (structural scope logGroup props nodeType jvm ++ userElements extra),
           (dashboards props).
    split; [rewrite <- !app_assoc; reflexivity|].
    rewrite <- !app_assoc. exact Hnone.
  - reflexivity.
  - none_there.
Qed.


(** *** Running the list on a node *)

(** The node: what the commands the model does not read do. They are taken
    to end well and to leave the directories and the document alone. *)
Variable other : string -> Files -> Step.
Hypothesis other_quiet : forall command files, other command files = Ran files.

#[local] Abbreviation run_element := (run_element other elasticsearch_yml).
#[local] Abbreviation run_elements := (run_elements other elasticsearch_yml).
#[local] Abbreviation elasticsearch := "/home/ec2-user/elasticsearch".
#[local] Abbreviation opensearch := "/home/ec2-user/opensearch".

Lemma append_empty_r (s : string) : s +:+ EmptyString = s.
Proof.
  induction s as [|a s IH]; [reflexivity|].
  change (String a (s +:+ EmptyString) = String a s). rewrite IH. reflexivity.
Qed.

(** A command that enters a directory and does there what the model does not
    read. *)
Lemma run_in_directory command d ignore files :
  parse_cd command = Some d ->
  parse_echo command = None ->
  exists_dir ("/home/ec2-user" +:+ "/" +:+ d) files = true ->
  run_element (shellCommandIn command "/home/ec2-user" ignore) files = Ran files.
Proof.
  intros Hcd Hecho Hdir.
  unfold Shell.run_element, shellCommandIn, run_command. cbn [cwd].
  rewrite Hcd, Hdir, Hecho, other_quiet. reflexivity.
Qed.

(** An [echo] into elasticsearch.yml, in a directory that exists. *)
Lemma run_echo command t r ignore printed files :
  parse_echo command
  = Some {| directory := "elasticsearch"; text := t; redirect := r;
            file := "config/elasticsearch.yml" |} ->
  parse_cd command = Some "elasticsearch" ->
  shell_reads t = Some printed ->
  exists_dir elasticsearch files = true ->
  run_element (shellCommandIn command "/home/ec2-user" ignore) files
  = Ran {| directories := directories files;
           document := match r with
                       | Truncate => printed +:+ nl
                       | Append => document files +:+ printed +:+ nl
                       end |}.
Proof.
  intros Hecho Hcd Hreads Hdir.
  unfold Shell.run_element, shellCommandIn, run_command. cbn [cwd].
  rewrite Hcd. change ("/home/ec2-user" +:+ "/" +:+ "elasticsearch") with elasticsearch.
  rewrite Hdir, Hecho. cbn [text target directory file redirect]. rewrite Hreads.
  change (String.eqb _ elasticsearch_yml) with true. cbn iota. reflexivity.
Qed.

Lemma run_truncate t files :
  plain t = true ->
  exists_dir elasticsearch files = true ->
  run_element
    (shellCommandIn ("set -ex;cd elasticsearch; echo " +:+ dq +:+ t +:+ dq
                     +:+ " > config/elasticsearch.yml") "/home/ec2-user" None)
    files
  = Ran {| directories := directories files; document := t +:+ nl |}.
Proof.
  intros Hplain Hdir.
  apply (run_echo _ t Truncate None t files);
    [apply parse_truncate | reflexivity | apply plain_shell_reads; exact Hplain
    | exact Hdir].
Qed.

Lemma run_append t files :
  plain t = true ->
  exists_dir elasticsearch files = true ->
  run_element
    (shellCommandIn ("set -ex;cd elasticsearch; echo " +:+ dq +:+ t +:+ dq
                     +:+ " >> config/elasticsearch.yml") "/home/ec2-user" None)
    files
  = Ran {| directories := directories files;
           document := document files +:+ t +:+ nl |}.
Proof.
  intros Hplain Hdir.
  apply (run_echo _ t Append None t files);
    [apply parse_append | reflexivity | apply plain_shell_reads; exact Hplain
    | exact Hdir].
Qed.

Lemma run_additionalConfigCommand extra files :
  plain extra = true ->
  exists_dir elasticsearch files = true ->
  run_element (additionalConfigCommand extra) files
  = Ran {| directories := directories files;
           document := document files +:+ extra +:+ nl |}.
Proof.
  intros Hplain Hdir. unfold additionalConfigCommand.
  apply (run_echo _ extra Append (Some false) extra files);
    [apply parse_additionalConfig | reflexivity
    | apply plain_shell_reads; exact Hplain | exact Hdir].
Qed.

(** The first elements make [elasticsearch] and leave the document alone. *)
Lemma run_initialElements scope logGroup props files :
  exists_dir elasticsearch files = false ->
  run_elements (initialElements scope logGroup props) files
  = Ran (enter elasticsearch files).
Proof.
  intros Hdir. unfold initialElements, shellCommand, shellCommandIn.
  cbn [Shell.run_elements Shell.run_element cwd noOptions].
  rewrite !other_quiet. cbn [ignored ignoreErrors].
  unfold run_command.
  change (parse_cd _) with (@None string).
  change (parse_mkdir _) with (Some "elasticsearch").
  cbv iota. change ("/home/ec2-user" +:+ "/" +:+ "elasticsearch") with elasticsearch.
  rewrite Hdir, !other_quiet. reflexivity.
Qed.

Lemma entered dir files : exists_dir dir (enter dir files) = true.
Proof.
  unfold exists_dir, enter. cbn [directories existsb].
  rewrite String.eqb_refl. reflexivity.
Qed.

(** The commands between the documents' texts and the user's text: the
    plugin, the system properties and the heap size. *)
Lemma run_discoveryPluginCommand files :
  exists_dir elasticsearch files = true ->
  run_element discoveryPluginCommand files = Ran files.
Proof.
  intros H.
  apply (run_in_directory _ "elasticsearch"); [reflexivity | reflexivity | exact H].
Qed.

Lemma run_jvmSysPropsCommand jvm files :
  exists_dir elasticsearch files = true ->
  run_element (jvmSysPropsCommand jvm) files = Ran files.
Proof.
  intros H.
  apply (run_in_directory _ "elasticsearch"); [reflexivity | reflexivity | exact H].
Qed.

Lemma run_heapCommand files :
  exists_dir elasticsearch files = true ->
  run_element heapCommand files = Ran files.
Proof.
  intros H.
  apply (run_in_directory _ "elasticsearch"); [reflexivity | reflexivity | exact H].
Qed.

Lemma run_runCommand files :
  exists_dir elasticsearch files = true ->
  run_element runCommand files = Ran files.
Proof.
  intros H.
  apply (run_in_directory _ "elasticsearch"); [reflexivity | reflexivity | exact H].
Qed.

Lemma run_jvm_and_heap props jvm files :
  exists_dir elasticsearch files = true ->
  run_elements
    ((if negb (String.eqb jvm "undefined") then [jvmSysPropsCommand jvm] else [])
     ++ (if use50PercentHeap props then [heapCommand] else [])) files
  = Ran files.
Proof.
  intros H.
  destruct (negb (String.eqb jvm "undefined")), (use50PercentHeap props);
    cbn [app Shell.run_elements];
    rewrite ?(run_jvmSysPropsCommand _ _ H), ?(run_heapCommand _ H); reflexivity.
Qed.

(** A remote-store command stops the run where [opensearch] does not
    exist. *)
Lemma run_remote_store t files :
  exists_dir opensearch files = false ->
  run_element
    (shellCommandIn ("set -ex;cd opensearch; echo " +:+ dq +:+ t +:+ dq
                     +:+ " >> config/opensearch.yml") "/home/ec2-user" (Some false))
    files
  = Stopped files.
Proof.
  intros Hdir. unfold Shell.run_element, shellCommandIn, run_command. cbn [cwd].
  change (parse_cd _) with (Some "opensearch"). cbv iota.
  change ("/home/ec2-user" +:+ "/" +:+ "opensearch") with opensearch.
  rewrite Hdir. reflexivity.
Qed.

(** Multi-node mode, up to the plugin: the document holds the texts of the
    base and of the node type. *)
Lemma run_documents scope logGroup props nodeType files :
  Shell.plain (commonConfig scope) = true ->
  (forall t, nodeType = Some t -> Shell.plain (nodeConfigData t) = true) ->
  exists_dir elasticsearch files = false ->
  run_elements
    (initialElements scope logGroup props
     ++ [Assembler.commonConfigCommand dump multi_node_base_config scope]
     ++ match nodeType with
        | Some t => [Assembler.nodeConfigCommand dump nodeConfig t]
        | None => []
        end
     ++ (if negb (minDistribution props) then [discoveryPluginCommand] else []))
    files
  = Ran {| directories := elasticsearch :: directories files;
           document := commonConfig scope +:+ nl
                       +:+ match nodeType with
                           | Some t => nodeConfigData t +:+ nl
                           | None => EmptyString
                           end |}.
Proof.
  intros Hcommon Hnode Hdir.
  rewrite run_elements_app, (run_initialElements _ _ _ _ Hdir).
  pose proof (entered elasticsearch files) as Hin.
  cbn [app Shell.run_elements]. unfold Assembler.commonConfigCommand at 1.
  rewrite (run_truncate _ _ Hcommon Hin).
  set (files1 := {| directories := _; document := commonConfig scope +:+ nl |}).
  assert (exists_dir elasticsearch files1 = true) as Hin1 by exact Hin.
  destruct nodeType as [t|].
  - cbn [app Shell.run_elements]. unfold Assembler.nodeConfigCommand.
    rewrite (run_append _ _ (Hnode t eq_refl) Hin1).
    set (files2 := {| directories := _; document := _ |}).
    assert (exists_dir elasticsearch files2 = true) as Hin2 by exact Hin.
    destruct (negb (minDistribution props)); cbn [Shell.run_elements];
      rewrite ?(run_discoveryPluginCommand _ Hin2);
      subst files2 files1; cbn [document directories enter];
      rewrite !append_assoc; reflexivity.
  - cbn [app].
    destruct (negb (minDistribution props)); cbn [Shell.run_elements];
      rewrite ?(run_discoveryPluginCommand _ Hin1);
      subst files1; cbn [document directories enter];
      rewrite append_empty_r; reflexivity.
Qed.

(** The structural commands, where the remote store is off or the cluster
    is a single node: they run, make [elasticsearch] and leave the document
    with the texts of the base and of the node type. *)
Lemma run_structural scope logGroup props nodeType jvm files :
  structural_texts_plain scope props nodeType ->
  singleNodeCluster props = true \/ enableRemoteStore props = false ->
  exists_dir elasticsearch files = false ->
  run_elements (structural scope logGroup props nodeType jvm) files
  = Ran {| directories := elasticsearch :: directories files;
           document := if singleNodeCluster props
                       then opensearchConfig scope +:+ nl
                       else commonConfig scope +:+ nl
                            +:+ match nodeType with
                                | Some t => nodeConfigData t +:+ nl
                                | None => EmptyString
                                end |}.
Proof.
  unfold structural_texts_plain, Assembler.structural. intros Hplain Hoff Hdir.
  destruct (singleNodeCluster props).
  - rewrite run_elements_app, (run_initialElements _ _ _ _ Hdir).
    pose proof (entered elasticsearch files) as Hin.
    rewrite run_elements_app.
    cbn [Shell.run_elements]. unfold Assembler.singleNodeCommand.
    rewrite (run_truncate _ _ Hplain Hin).
    apply run_jvm_and_heap. exact Hin.
  - destruct Hoff as [Hoff|Hoff]; [discriminate|].
    destruct Hplain as [Hcommon Hnode].
    unfold Assembler.multiNodeElements. rewrite Hoff, !app_nil_r.
    match goal with
    | |- Shell.run_elements _ _ (?i ++ (?c ++ ?n ++ ?p) ++ ?r) _ = _ =>
        replace (i ++ (c ++ n ++ p) ++ r) with ((i ++ c ++ n ++ p) ++ r)
          by (rewrite <- !app_assoc; reflexivity)
    end.
    rewrite run_elements_app, (run_documents _ _ _ _ _ Hcommon Hnode Hdir).
    apply run_jvm_and_heap. apply (entered elasticsearch files).
Qed.

(** X13. Elasticsearch is started on a document rebuilt from nothing. On a
    node without an [elasticsearch] directory, where the commands that are
    not read end well, with plain texts and with the remote store off (or a
    single node), the list runs up to and including the start of
    Elasticsearch, and elasticsearch.yml then holds the dumped base document,
    then the dumped overlay of the node type (multi-node mode, when a node
    type is given), then the user's text unless that text is [undefined],
    each followed by a line end, whatever the document held before. *)
Theorem elasticsearch_yml_is_rebuilt scope logGroup props nodeType extra files :
  strings_supplied props ->
  additionalConfig props = Some extra ->
  structural_texts_plain scope props nodeType ->
  extra = "undefined" \/ plain extra = true ->
  singleNodeCluster props = true \/ enableRemoteStore props = false ->
  exists_dir elasticsearch files = false ->
  exists before after,
    getCfnInitElement scope logGroup props nodeType
    = Returned (before ++ runCommand :: after)
    /\ run_elements (before ++ [runCommand]) files
       = Ran {| directories := elasticsearch :: directories files;
                document :=
                  (if singleNodeCluster props
                   then opensearchConfig scope +:+ nl
                   else commonConfig scope +:+ nl
                        +:+ match nodeType with
                            | Some t => nodeConfigData t +:+ nl
                            | None => EmptyString
                            end)
                  +:+ (if String.eqb extra "undefined"
                       then EmptyString else extra +:+ nl) |}.
Proof.
  intros ([jvm Hjvm] & _ & Hosd) Hextra Hplain Huser Hoff Hdir.
  exists (structural scope logGroup props nodeType jvm ++ userElements extra),
         ((if truthy (captureProxyEnabled props)
           then captureProxyElements props else []) ++ dashboards props).
  split.
  { rewrite (getCfnInitElement_shape _ _ _ _ _ _ Hjvm Hextra Hosd).
    unfold trailing. rewrite <- !app_assoc. reflexivity. }
  rewrite <- app_assoc, run_elements_app.
  rewrite (run_structural _ _ _ _ _ _ Hplain Hoff Hdir).
  set (files1 := {| directories := _; document := _ |}).
  assert (exists_dir elasticsearch files1 = true) as Hin by apply entered.
  unfold userElements.
  destruct (String.eqb extra "undefined") eqn:E; cbn [negb app Shell.run_elements].
  - rewrite (run_runCommand _ Hin). subst files1. cbn [document directories].
    rewrite append_empty_r. reflexivity.
  - destruct Huser as [->|Huser]; [discriminate|].
    rewrite (run_additionalConfigCommand _ _ Huser Hin).
    rewrite run_runCommand by exact Hin.
    subst files1. cbn [document directories].
    reflexivity.
Qed.

(** X10. The remote store stops the run. Its five commands enter
    [opensearch] to append to [config/opensearch.yml], and the list never
    makes that directory (it makes [elasticsearch]). On a node without it,
    in multi-node mode with the remote store on, the commands before the
    first remote-store command run and that command fails, so the rest of the
    list is never reached: elasticsearch.yml is left with the texts of the
    base and of the node type, and the command of the user's text and the
    start of Elasticsearch stand in the part that is not run. *)
Theorem remote_store_stops_the_run scope logGroup props nodeType files :
  strings_supplied props ->
  singleNodeCluster props = false ->
  enableRemoteStore props = true ->
  structural_texts_plain scope props nodeType ->
  exists_dir elasticsearch files = false ->
  exists_dir opensearch files = false ->
  exists ran first others rest,
    getCfnInitElement scope logGroup props nodeType
    = Returned (ran ++ first :: others ++ rest)
    /\ remoteStoreElements scope = first :: others
    /\ Forall (fun e => writes opensearch_yml e = true
                        /\ writes elasticsearch_yml e = false)
         (remoteStoreElements scope)
    /\ run_elements ran files
       = Ran {| directories := elasticsearch :: directories files;
                document := commonConfig scope +:+ nl
                            +:+ match nodeType with
                                | Some t => nodeConfigData t +:+ nl
                                | None => EmptyString
                                end |}
    /\ run_elements (ran ++ first :: others ++ rest) files
       = Stopped {| directories := elasticsearch :: directories files;
                    document := commonConfig scope +:+ nl
                                +:+ match nodeType with
                                    | Some t => nodeConfigData t +:+ nl
                                    | None => EmptyString
                                    end |}
    /\ In runCommand rest
    /\ (forall extra, additionalConfig props = Some extra -> extra <> "undefined" ->
                      In (additionalConfigCommand extra) rest).
Proof.
  intros ([jvm Hjvm] & [extra Hextra] & Hosd) Hmulti Hon Hplain Hdir Hnone.
  unfold structural_texts_plain in Hplain. rewrite Hmulti in Hplain.
  destruct Hplain as [Hcommon Hnode].
  pose proof (run_documents scope logGroup props nodeType files Hcommon Hnode Hdir)
    as Hran.
  set (ran := initialElements scope logGroup props
              ++ [Assembler.commonConfigCommand dump multi_node_base_config scope]
              ++ match nodeType with
                 | Some t => [Assembler.nodeConfigCommand dump nodeConfig t]
                 | None => []
                 end
              ++ (if negb (minDistribution props) then [discoveryPluginCommand] else []))
    in *.
  set (rest := (if negb (String.eqb jvm "undefined") then [jvmSysPropsCommand jvm] else [])
               ++ (if use50PercentHeap props then [heapCommand] else [])
               ++ userElements extra ++ trailing props (dashboards props)).
  assert (getCfnInitElement scope logGroup props nodeType
          = Returned (ran ++ remoteStoreElements scope ++ rest)) as Hlist.
  { rewrite (getCfnInitElement_shape _ _ _ _ _ _ Hjvm Hextra Hosd).
    unfold Assembler.structural, Assembler.multiNodeElements. rewrite Hmulti, Hon.
    subst ran rest. rewrite <- !app_assoc. reflexivity. }
  destruct (remoteStoreElements scope) as [|first others] eqn:Hremote;
    [discriminate Hremote|].
  exists ran, first, others, rest.
  split; [exact Hlist|].
  split; [reflexivity|].
  split.
  { rewrite <- Hremote. unfold remoteStoreElements.
    repeat (first [apply Forall_nil_2 | apply Forall_cons_2]);
      unfold writes, shellCommandIn; rewrite parse_remote_store; split; reflexivity. }
  split; [exact Hran|].
  split.
  { rewrite run_elements_app, Hran. cbn [Shell.run_elements].
    injection Hremote as <- _.
    rewrite run_remote_store; [reflexivity|].
    unfold exists_dir. cbn [directories existsb].
    change (String.eqb opensearch elasticsearch) with false. exact Hnone. }
  subst rest. split.
  - apply in_or_app. right. apply in_or_app. right. apply in_or_app. right.
    unfold trailing. left. reflexivity.
  - intros extra' Hextra' Hne. rewrite Hextra in Hextra'. injection Hextra' as <-.
    apply in_or_app. right. apply in_or_app. right. apply in_or_app. left.
    unfold userElements. apply String.eqb_neq in Hne. rewrite Hne. left. reflexivity.
Qed.

End Facts.

End AssemblerMore.

(** ** The supervisor *)

Module SupervisorMore.
Import Supervisor SupervisorFacts.

(** A list the loop does not accept ends the run in the loop, with status 1
    and nothing done. *)
Lemma parse_arguments_rejected args k n :
  accepted args = false ->
  exists out,
    parse_arguments args k n
    = Exited 1 {| stdout := stdout n ++ out; actions := actions n;
                  config := config n |}.
Proof.
  revert k. induction args as [| a | a b args IH1 IH2] using args_ind2; intros k Hacc.
  - discriminate.
  - cbn [accepted parse_arguments] in *.
    destruct (String.eqb a "--kafka-endpoints").
    + exists []. unfold exit. rewrite app_nil_r. destruct n; reflexivity.
    + destruct (String.eqb a "-h" || String.eqb a "--help").
      * rewrite usage_run. eauto.
      * destruct (String.prefix "-" a); [|discriminate].
        unfold mbind, script_bind, echo. rewrite usage_run. cbn.
        rewrite <- app_assoc. eauto.
  - cbn [accepted parse_arguments] in *.
    destruct (String.eqb a "--kafka-endpoints"); [apply IH1; exact Hacc|].
    destruct (String.eqb a "-h" || String.eqb a "--help").
    + rewrite usage_run. eauto.
    + destruct (String.prefix "-" a); [|apply IH2; exact Hacc].
      unfold mbind, script_bind, echo. rewrite usage_run. cbn.
      rewrite <- app_assoc. eauto.
Qed.

Lemma verify_capture_proxy_run env n :
  exists out,
    verify_capture_proxy env n
    = Continue tt {| stdout := stdout n ++ out;
                     actions := actions n ++ verify_actions env;
                     config := config n |}.
Proof.
  unfold verify_actions.
  destruct (String.eqb (capture_pgrep_verify env) EmptyString) eqn:E.
  - apply String.eqb_eq in E. rewrite (verify_capture_proxy_dead _ _ E).
    eexists. reflexivity.
  - unfold verify_capture_proxy. unfold_script. rewrite E. cbn.
    exists []. rewrite app_nil_r, <- app_assoc. reflexivity.
Qed.


Ltac finish_row env :=
  unfold mbind, script_bind, start_elasticsearch, start_capture_proxy;
  unfold_script;
  repeat match goal with
         | H : String.eqb _ _ = _ |- _ => rewrite !H
         end;
  cbn [negb andb];
  repeat match goal with
         | |- context [kill_succeeds env ?p] =>
             destruct (kill_succeeds env p) eqn:?
         end;
  cbn -[verify_capture_proxy verify_actions];
  try match goal with
      | |- context [verify_capture_proxy env ?n] =>
          let out := fresh "out" in
          let H := fresh in
          destruct (verify_capture_proxy_run env n) as [out H]; rewrite H
      end;
  cbn -[verify_actions];
  eexists; rewrite <- ?app_assoc; reflexivity.

Lemma run_row args env :
  exists out,
    startCaptureProxy args env
    = {| status := (rows args env).1.1;
         node := {| stdout := out;
                    actions := (rows args env).1.2;
                    config := (rows args env).2 |} |}.
Proof.
  unfold rows, startCaptureProxy, script, mbind, script_bind.
  destruct (accepted args) eqn:Hacc; cbn [negb].
  2:{ destruct (parse_arguments_rejected args (KAFKA_ENDPOINTS_inherited env)
                  {| stdout := []; actions := []; config := yml env |} Hacc)
        as [out ->].
      eexists. reflexivity. }
  rewrite parse_arguments_all_accepted by exact Hacc.
  unfold body, converge, mbind, script_bind.
  destruct (observe_run env {| stdout := []; actions := []; config := yml env |})
    as [out ->].
  cbn [stdout actions config app].
  set (n1 := {| stdout := out; actions := _; config := yml env |}).
  destruct (String.eqb (es_pgrep env) EmptyString) eqn:Hes;
    destruct (String.eqb (capture_pgrep env) EmptyString) eqn:Hcap;
    cbn [negb andb]; unfold_script.
  4:{ eexists. reflexivity. }
  all: destruct (decide (grep_http_port (yml env) = [])) as [Hg|Hg];
    [ rewrite bool_decide_eq_true_2 by exact Hg;
      rewrite (reconcile_port_absent n1 Hg); eexists; reflexivity
    | rewrite bool_decide_eq_false_2 by exact Hg ].
  all: unfold rewrite_needed;
    destruct (String.eqb (join_lines (grep_http_port (yml env))) "http.port: 19200")
      eqn:Hentry; cbn [negb];
    [ apply String.eqb_eq in Hentry;
      rewrite (reconcile_port_correct n1 Hentry)
    | apply String.eqb_neq in Hentry;
      rewrite (reconcile_port_different n1 Hg Hentry) ].
  all: subst n1; finish_row env.
Qed.

Lemma row_of_run args env :
  (status (startCaptureProxy args env), actions (node (startCaptureProxy args env)),
   config (node (startCaptureProxy args env)))
  = rows args env.
Proof.
  destruct (run_row args env) as [out ->]. cbn.
  destruct (rows args env) as [[? ?] ?]. reflexivity.
Qed.

(** X14. Every run is one row of a table read off the script. A rejected
    argument list: status 1, nothing done. Both processes found: status 0
    after the two looks. No [http.port] line: status 1 after reading the
    file. Otherwise the file is rewritten by [sed] unless [grep] printed
    exactly the setting at 19200, and then: with no Elasticsearch, it is
    started, a running capture proxy is killed, and the capture proxy is
    started with the endpoints; with Elasticsearch running, it is killed and
    started again only after a rewrite, and the capture proxy is started. A
    [kill] that fails ends the run with status 1 on the spot. Every run that
    starts the capture proxy sleeps, looks again and ends with status 0. *)
Theorem every_run_is_a_row args env :
  let r := startCaptureProxy args env in
  (status r, actions (node r), config (node r)) = rows args env.
Proof.
  intros r. apply row_of_run.
Qed.


Ltac by_rows args env :=
  let H := fresh "Hrow" in
  pose proof (row_of_run args env) as H;
  unfold rows in H;
  repeat match type of H with
         | context [if ?b then _ else _] => destruct b eqn:?
         end;
  let Hs := fresh "Hstatus" in
  let Ha := fresh "Hactions" in
  let Hc := fresh "Hconfig" in
  injection H as Hs Ha Hc; rewrite ?Hs, ?Ha, ?Hc;
  cbn [negb andb] in *;
  repeat match goal with
         | H : negb _ = false |- _ => apply negb_false_iff in H
         | H : negb _ = true |- _ => apply negb_true_iff in H
         end.

Ltac in_actions :=
  rewrite ?in_app_iff; cbn [In]; rewrite ?in_app_iff; cbn [In].

(** X15. The exit status tells what happened. A run ends with status 0 or
    1, and with status 0 exactly when it found both processes and did nothing
    or when it started the capture proxy. *)
Theorem exit_status_tells_the_outcome args env :
  let r := startCaptureProxy args env in
  (status r = 0%Z \/ status r = 1%Z)
  /\ (status r = 0%Z <->
      actions (node r) = [Pgrep "bin/elasticsearch"; Pgrep "trafficCaptureProxyServer"]
      \/ exists kafka, In (StartCaptureProxy kafka) (actions (node r))).
Proof.
  intros r. subst r. by_rows args env; (split; [auto|]); split; intros H;
    try reflexivity; try discriminate;
    try (right; eexists; in_actions; cbn; tauto);
    try (left; reflexivity);
    try (exfalso; destruct H as [H|[kafka H]];
         [discriminate H
         | revert H; in_actions; cbn; intuition discriminate]).
Qed.


Lemma verify_actions_look env a :
  In a (verify_actions env) -> mutation a = false.
Proof.
  unfold verify_actions, diagnosis_actions. in_actions.
  destruct (String.eqb (capture_pgrep_verify env) EmptyString),
           (nohup_out env); cbn [In]; intuition (subst; reflexivity).
Qed.

Ltac not_in_verify env :=
  match goal with
  | H : In ?a (verify_actions env) |- _ =>
      apply verify_actions_look in H; discriminate H
  end.

(** X16. A run kills only what it found. Every [kill] goes to a process id
    one of the two looks printed, never to an empty one; the capture proxy is
    killed only when no Elasticsearch was found, and Elasticsearch is killed
    only when no capture proxy was found and [sed] has rewritten the file. *)
Theorem kills_only_what_was_found args env pid :
  In (Kill pid) (actions (node (startCaptureProxy args env))) ->
  pid <> EmptyString
  /\ ((pid = capture_pgrep env /\ es_pgrep env = EmptyString)
      \/ (pid = es_pgrep env /\ capture_pgrep env = EmptyString
          /\ In SedConfig (actions (node (startCaptureProxy args env))))).
Proof.
  by_rows args env; in_actions; intros H;
    repeat match goal with
           | H : _ \/ _ |- _ => destruct H
           | H : False |- _ => destruct H
           | H : _ = Kill _ |- _ => first [discriminate H | injection H as <-]
           | H : String.eqb _ _ = true |- _ => apply String.eqb_eq in H
           | H : String.eqb _ _ = false |- _ => apply String.eqb_neq in H
           | H : In _ (verify_actions env) |- _ => not_in_verify env
           end;
    (split; [assumption|]);
    first [ left; split; [reflexivity | assumption]
          | right; split; [reflexivity|]; split; [assumption|]; in_actions; tauto ].
Qed.

Ltac no_such_action env :=
  repeat match goal with
         | H : _ \/ _ |- _ => destruct H
         | H : False |- _ => destruct H
         | H : _ = SedConfig |- _ => discriminate H
         | H : _ = AppendConfig _ |- _ => discriminate H
         | H : In _ (verify_actions env) |- _ => not_in_verify env
         end.

Lemma file_kept_without_sed args env :
  ~ In SedConfig (actions (node (startCaptureProxy args env))) ->
  config (node (startCaptureProxy args env)) = yml env.
Proof.
  by_rows args env; in_actions; intros H;
    first [reflexivity | exfalso; apply H; tauto].
Qed.

(** X17. The configuration file changes only through [sed]. A run that
    performs [sed] leaves the file with [sed] applied to each line; any other
    run leaves the file as it was. No run appends a line, and the number of
    lines stays. *)
Theorem file_changes_only_through_sed args env :
  let r := startCaptureProxy args env in
  (In SedConfig (actions (node r)) -> config (node r) = map sed_line (yml env))
  /\ (~ In SedConfig (actions (node r)) -> config (node r) = yml env)
  /\ (forall line, ~ In (AppendConfig line) (actions (node r)))
  /\ length (config (node r)) = length (yml env).
Proof.
  intros r. subst r. by_rows args env; in_actions;
    (split; [intros H; first [reflexivity | exfalso; no_such_action env]|];
     split; [intros H; first [reflexivity | exfalso; apply H; tauto]|];
     split; [intros line H; no_such_action env|];
     first [reflexivity | apply length_map]).
Qed.


(** *** The endpoints handed to the capture proxy *)

Lemma endpoints_accepted pre rest k :
  accepted pre = true ->
  endpoints (pre ++ rest) k = endpoints rest (endpoints pre k).
Proof.
  revert k. induction pre as [| a | a b pre IH1 IH2] using args_ind2; intros k Hacc.
  - reflexivity.
  - cbn [accepted endpoints app] in *.
    destruct (String.eqb a "--kafka-endpoints"); [discriminate | reflexivity].
  - change ((a :: b :: pre) ++ rest) with (a :: b :: (pre ++ rest)).
    cbn [accepted endpoints] in *.
    destruct (String.eqb a "--kafka-endpoints").
    + apply IH1. exact Hacc.
    + destruct (String.prefix "-" a); [discriminate|]. apply (IH2 k Hacc).
Qed.

Lemma endpoints_without_option args k :
  ~ In "--kafka-endpoints" args -> endpoints args k = k.
Proof.
  induction args as [|a args IH]; [reflexivity|].
  intros Hnot. cbn [endpoints].
  destruct (String.eqb a "--kafka-endpoints") eqn:E.
  - apply String.eqb_eq in E. exfalso. apply Hnot. left. exact E.
  - apply IH. intros Hin. apply Hnot. right. exact Hin.
Qed.

Lemma started_with_the_endpoints args env kafka :
  In (StartCaptureProxy kafka) (actions (node (startCaptureProxy args env))) ->
  kafka = endpoints args (KAFKA_ENDPOINTS_inherited env).
Proof.
  by_rows args env; in_actions; intros H;
    repeat match goal with
           | H : _ \/ _ |- _ => destruct H
           | H : False |- _ => destruct H
           | H : _ = StartCaptureProxy _ |- _ =>
               first [discriminate H | injection H as <-; reflexivity]
           | H : In _ (verify_actions env) |- _ => not_in_verify env
           end.
Qed.

(** X18. The capture proxy is started with the value of the last
    [--kafka-endpoints] option: the words after it that are not that option
    do not change it. With no such option among the arguments it is started
    with the value [KAFKA_ENDPOINTS] had when the script began. *)
Theorem the_last_endpoints_option_wins env kafka :
  (forall pre value post,
     accepted pre = true ->
     ~ In "--kafka-endpoints" post ->
     In (StartCaptureProxy kafka)
       (actions (node (startCaptureProxy
                         (pre ++ "--kafka-endpoints" :: value :: post) env))) ->
     kafka = value)
  /\ (forall args,
        ~ In "--kafka-endpoints" args ->
        In (StartCaptureProxy kafka) (actions (node (startCaptureProxy args env))) ->
        kafka = KAFKA_ENDPOINTS_inherited env).
Proof.
  split.
  - intros pre value post Hpre Hpost Hin.
    apply started_with_the_endpoints in Hin. rewrite Hin.
    rewrite (endpoints_accepted _ _ _ Hpre). cbn [endpoints String.eqb].
    change (String.eqb "--kafka-endpoints" "--kafka-endpoints") with true.
    cbn iota. apply endpoints_without_option. exact Hpost.
  - intros args Hargs Hin.
    apply started_with_the_endpoints in Hin. rewrite Hin.
    apply endpoints_without_option. exact Hargs.
Qed.

(** *** The port rewrite *)

Lemma match_here_app p q s :
  match_here (p ++ q) s
  = match match_here p s with
    | Some rest => match_here q rest
    | None => None
    end.
Proof.
  revert s. induction p as [|c p IH]; intros s; [reflexivity|].
  cbn [app match_here]. destruct s as [|a s]; [reflexivity|].
  destruct c as [c|]; [destruct (Ascii.eqb a c)|]; auto.
Qed.

(** [sed] leaves alone every line that [grep] does not print. *)
Lemma sed_line_silent line : silent line = true -> sed_line line = line.
Proof.
  unfold silent. intros H. apply negb_true_iff in H.
  induction line as [|a line IH].
  - reflexivity.
  - cbn [contains_match] in H.
    destruct (match_here http_port (String a line)) eqn:Hm; [discriminate|].
    cbn [sed_line]. unfold match_port_setting.
    rewrite match_here_app, Hm. rewrite (IH H). reflexivity.
Qed.

Lemma skip_digits_all s : Shell.all_chars is_digit s = true -> skip_digits s = EmptyString.
Proof.
  induction s as [|a s IH]; [reflexivity|].
  cbn [Shell.all_chars skip_digits]. intros H.
  apply andb_true_iff in H as [Ha Hs]. rewrite Ha. exact (IH Hs).
Qed.

Lemma sed_line_unfold s :
  sed_line s
  = match match_port_setting s with
    | Some rest => "http.port: 19200" +:+ rest
    | None =>
        match s with
        | EmptyString => EmptyString
        | String c s' => String c (sed_line s')
        end
    end.
Proof. destruct s; reflexivity. Qed.

Lemma match_port_setting_port a port :
  match_port_setting ("http.port: " +:+ String a port)
  = if is_digit a then Some (skip_digits port) else None.
Proof. reflexivity. Qed.

(** [sed] turns a setting with any port number into the setting at 19200. *)
Lemma sed_line_port port :
  digits port = true -> sed_line ("http.port: " +:+ port) = "http.port: 19200".
Proof.
  unfold digits. intros H. apply andb_true_iff in H as [Hne Hd].
  destruct port as [|a port]; [discriminate|].
  cbn [Shell.all_chars] in Hd. apply andb_true_iff in Hd as [Ha Hd].
  rewrite sed_line_unfold, match_port_setting_port, Ha, (skip_digits_all _ Hd).
  reflexivity.
Qed.

Lemma contains_match_port port :
  contains_match http_port ("http.port: " +:+ port) = true.
Proof. reflexivity. Qed.

Lemma grep_silent lines :
  Forall (fun l => silent l = true) lines -> grep_http_port lines = [].
Proof.
  unfold grep_http_port. induction 1 as [|l lines Hl _ IH]; [reflexivity|].
  rewrite filter_cons. unfold silent in Hl. apply negb_true_iff in Hl.
  rewrite decide_False by (rewrite Hl; discriminate). exact IH.
Qed.

Lemma grep_one_setting pre line post :
  Forall (fun l => silent l = true) pre ->
  Forall (fun l => silent l = true) post ->
  contains_match http_port line = true ->
  grep_http_port (pre ++ [line] ++ post) = [line].
Proof.
  intros Hpre Hpost Hline. unfold grep_http_port.
  rewrite !filter_app. fold (grep_http_port pre). fold (grep_http_port post).
  rewrite (grep_silent _ Hpre), (grep_silent _ Hpost).
  rewrite filter_cons, decide_True by exact Hline. reflexivity.
Qed.

Lemma sed_silent_lines lines :
  Forall (fun l => silent l = true) lines -> map sed_line lines = lines.
Proof.
  induction 1 as [|l lines Hl _ IH]; [reflexivity|].
  cbn [map]. rewrite (sed_line_silent _ Hl), IH. reflexivity.
Qed.


Lemma sed_only_when_needed args env :
  In SedConfig (actions (node (startCaptureProxy args env))) ->
  rewrite_needed (yml env) = true.
Proof.
  by_rows args env; in_actions; intros H;
    first [reflexivity | exfalso; no_such_action env].
Qed.

(** X19. The port rewrite converges. On a file whose one [http.port] line
    carries a port number other than 19200, with Elasticsearch running alone
    and its [kill] succeeding, a run rewrites that line to 19200 and leaves
    every other line, kills Elasticsearch and starts it again, starts the
    capture proxy and ends with status 0. Any later run on the file it
    leaves performs no [sed] and leaves the file as it is. *)
Theorem port_rewrite_converges args env pre port post :
  accepted args = true ->
  yml env = pre ++ ["http.port: " +:+ port] ++ post ->
  Forall (fun l => silent l = true) pre ->
  Forall (fun l => silent l = true) post ->
  digits port = true ->
  port <> "19200" ->
  es_pgrep env <> EmptyString ->
  capture_pgrep env = EmptyString ->
  kill_succeeds env (es_pgrep env) = true ->
  let r := startCaptureProxy args env in
  status r = 0%Z
  /\ config (node r) = pre ++ ["http.port: 19200"] ++ post
  /\ actions (node r)
     = [Pgrep "bin/elasticsearch"; Pgrep "trafficCaptureProxyServer"; ReadConfig;
        SedConfig; Kill (es_pgrep env); StartElasticsearch;
        StartCaptureProxy (endpoints args (KAFKA_ENDPOINTS_inherited env))]
       ++ verify_actions env
  /\ forall args' env',
       yml env' = config (node r) ->
       ~ In SedConfig (actions (node (startCaptureProxy args' env')))
       /\ config (node (startCaptureProxy args' env')) = config (node r).
Proof.
  intros Hacc Hyml Hpre Hpost Hport Hne Hes Hcap Hkill r. subst r.
  assert (grep_http_port (yml env) = ["http.port: " +:+ port]) as Hgrep.
  { rewrite Hyml. apply grep_one_setting; [assumption..|apply contains_match_port]. }
  assert (rewrite_needed (yml env) = true) as Hneed.
  { unfold rewrite_needed. rewrite Hgrep. cbn [join_lines].
    apply negb_true_iff, String.eqb_neq. intros E.
    apply Hne. cbn in E. injection E as E. exact E. }
  assert (map sed_line (yml env) = pre ++ ["http.port: 19200"] ++ post) as Hsed.
  { rewrite Hyml, !map_app. cbn [map].
    rewrite (sed_silent_lines _ Hpre), (sed_silent_lines _ Hpost), (sed_line_port _ Hport).
    reflexivity. }
  pose proof (row_of_run args env) as Hrow.
  unfold rows in Hrow.
  rewrite Hacc, Hcap, (not_empty_eqb _ Hes), Hneed, Hkill, Hgrep, Hsed in Hrow.
  cbn [negb andb String.eqb] in Hrow.
  rewrite bool_decide_eq_false_2 in Hrow by discriminate.
  injection Hrow as Hstatus Hactions Hconfig.
  rewrite Hstatus, Hactions, Hconfig.
  split; [reflexivity|]. split; [reflexivity|]. split; [reflexivity|].
  intros args' env' Hyml'.
  assert (rewrite_needed (yml env') = false) as Hneed'.
  { unfold rewrite_needed. rewrite Hyml'.
    change (pre ++ "http.port: 19200" :: post)
      with (pre ++ ["http.port: 19200"] ++ post).
    rewrite (grep_one_setting pre "http.port: 19200" post Hpre Hpost eq_refl).
    reflexivity. }
  assert (~ In SedConfig (actions (node (startCaptureProxy args' env')))) as Hnosed.
  { intros Hin. apply sed_only_when_needed in Hin. congruence. }
  split; [exact Hnosed|].
  rewrite (file_kept_without_sed args' env' Hnosed). exact Hyml'.
Qed.

End SupervisorMore.

(** ** Further examples *)

Module PlannerMoreExamples.
Import Planner.

#[local] Abbreviation InfraStack_constructor :=
  (InfraStack_constructor Samples.dump Samples.nodeConfig Samples.base_config
     Samples.base_config).
#[local] Abbreviation elementsFor :=
  (elementsFor Samples.dump Samples.nodeConfig Samples.base_config Samples.base_config).

Lemma single_node_strings_supplied : strings_supplied MoreSamples.single_node.
Proof.
  repeat split; simpl; eauto.
Defined.

(** The single node without the text of the system properties. *)
Lemma constructor_throws_without_the_strings_witness :
  InfraStack_constructor Samples.parent Samples.self "infra"
    MoreSamples.single_node_without_jvm_text
  = Thrown TypeError.
Proof.
  apply (PlannerMore.constructor_throws_without_the_strings
           Samples.dump Samples.nodeConfig Samples.base_config Samples.base_config
           Samples.parent Samples.self "infra"
           MoreSamples.single_node_without_jvm_text).
  intros ([jvm Hjvm] & _). discriminate Hjvm.
Defined.

(** The single node of the samples. *)
Lemma single_node_builds_one_instance_witness :
  exists tree i,
    InfraStack_constructor Samples.parent Samples.self "infra" MoreSamples.single_node = Returned (None, tree)
    /\ heap tree = [{| constructId := "single-node-instance";
                       resource := AnInstance i;
                       tags := [("role", "client")] |}]
    /\ inst_instanceType i = Some (singleNodeInstanceType MoreSamples.single_node)
    /\ inst_blockDevices i = [xvda (dataNodeStorage MoreSamples.single_node) MoreSamples.single_node]
    /\ inst_init i = elementsFor Samples.self "infra" MoreSamples.single_node None
    /\ targetGroups tree <> []
    /\ Forall (fun tg => targets tg = [0%nat]) (targetGroups tree).
Proof.
  apply (PlannerMore.single_node_builds_one_instance
           Samples.dump Samples.nodeConfig Samples.base_config Samples.base_config
           Samples.parent Samples.self "infra" MoreSamples.single_node).
  - apply single_node_strings_supplied.
  - reflexivity.
Defined.

(** The cluster with every kind of group. *)
Lemma groups_have_distinct_ids_and_fixed_size_witness :
  exists plan tree,
    InfraStack_constructor Samples.parent Samples.self "infra" MoreSamples.full_cluster = Returned (plan, tree)
    /\ NoDup (map constructId (heap tree))
    /\ Forall fixed_size (heap tree).
Proof.
  apply (PlannerMore.groups_have_distinct_ids_and_fixed_size
           Samples.dump Samples.nodeConfig Samples.base_config Samples.base_config
           Samples.parent Samples.self "infra" MoreSamples.full_cluster).
  - apply PlannerExamples.sample_strings_supplied.
Defined.

(** Three managers and two data nodes: five nodes in the three groups. *)
Lemma seed_is_taken_out_of_the_allotment_witness :
  exists plan tree,
    InfraStack_constructor Samples.parent Samples.self "infra" MoreSamples.full_cluster = Returned (Some plan, tree)
    /\ (group_capacity tree "managerNodeAsg" + group_capacity tree "seedNodeAsg"
        + group_capacity tree "dataNodeAsg"
        = managerNodeCount MoreSamples.full_cluster + dataNodeCount MoreSamples.full_cluster)%Z.
Proof.
  apply (PlannerMore.seed_is_taken_out_of_the_allotment
           Samples.dump Samples.nodeConfig Samples.base_config Samples.base_config
           Samples.parent Samples.self "infra" MoreSamples.full_cluster).
  - apply PlannerExamples.sample_strings_supplied.
  - reflexivity.
  - simpl; lia.
Defined.

(** Two client nodes. *)
Lemma client_group_of_its_own_witness :
  exists plan tree c g d,
    InfraStack_constructor Samples.parent Samples.self "infra" MoreSamples.full_cluster = Returned (Some plan, tree)
    /\ clientNodeAsg plan <> dataNodeAsg plan
    /\ construct_at tree (clientNodeAsg plan) = Some c
    /\ constructId c = "clientNodeAsg"
    /\ tags c = [("cluster", stackName Samples.parent); ("role", "client")]
    /\ resource c = AnAutoScalingGroup g
    /\ desiredCapacity g = clientNodeCount MoreSamples.full_cluster
    /\ instanceType g = Some (defaultInstanceType MoreSamples.full_cluster)
    /\ blockDevices g = [xvda 50 MoreSamples.full_cluster]
    /\ init g = elementsFor Samples.self "infra" MoreSamples.full_cluster (Some "client")
    /\ construct_at tree (dataNodeAsg plan) = Some d
    /\ constructId d = "dataNodeAsg"
    /\ tags d = [("role", "data")]
    /\ Forall (fun tg => targets tg = [clientNodeAsg plan]) (targetGroups tree).
Proof.
  apply (PlannerMore.client_group_of_its_own
           Samples.dump Samples.nodeConfig Samples.base_config Samples.base_config
           Samples.parent Samples.self "infra" MoreSamples.full_cluster).
  - apply PlannerExamples.sample_strings_supplied.
  - reflexivity.
  - simpl; lia.
Defined.

(** One ML node. *)
Lemma ml_group_only_for_a_positive_count_witness :
  exists plan tree,
    InfraStack_constructor Samples.parent Samples.self "infra" MoreSamples.full_cluster = Returned (Some plan, tree)
    /\ match mlNodeAsg plan with
       | Some x =>
           (0 < mlNodeCount MoreSamples.full_cluster)%Z
           /\ exists c g,
               construct_at tree x = Some c
               /\ constructId c = "mlNodeAsg"
               /\ tags c = [("role", "ml-node")]
               /\ resource c = AnAutoScalingGroup g
               /\ desiredCapacity g = mlNodeCount MoreSamples.full_cluster
               /\ instanceType g = mlEc2InstanceType MoreSamples.full_cluster
               /\ blockDevices g = [xvda (mlNodeStorage MoreSamples.full_cluster) MoreSamples.full_cluster]
       | None =>
           (mlNodeCount MoreSamples.full_cluster <= 0)%Z
           /\ Forall (fun c => constructId c <> "mlNodeAsg") (heap tree)
       end.
Proof.
  apply (PlannerMore.ml_group_only_for_a_positive_count
           Samples.dump Samples.nodeConfig Samples.base_config Samples.base_config
           Samples.parent Samples.self "infra" MoreSamples.full_cluster).
  - apply PlannerExamples.sample_strings_supplied.
  - reflexivity.
Defined.

(** The single node, with security and a dashboards URL. *)
Lemma listeners_forward_to_one_target_witness :
  exists plan tree x,
    InfraStack_constructor Samples.parent Samples.self "infra" MoreSamples.single_node = Returned (plan, tree)
    /\ map (fun tg => (listenerPort (ofListener tg), targetPort tg, targets tg))
         (targetGroups tree)
       = [ (if negb (securityDisabled MoreSamples.single_node) && negb (minDistribution MoreSamples.single_node)
            then 443%Z else 9200%Z, 9200%Z, [x]);
           (if negb (securityDisabled MoreSamples.single_node) && negb (minDistribution MoreSamples.single_node)
            then 80%Z else 19200%Z, 19200%Z, [x]) ]
         ++ (if negb (String.eqb (dashboardsUrl MoreSamples.single_node) "undefined")
             then [(8443%Z, 5601%Z, [x])] else [])
    /\ x = match plan with
           | Some p => clientNodeAsg p
           | None => 0%nat
           end.
Proof.
  apply (PlannerMore.listeners_forward_to_one_target
           Samples.dump Samples.nodeConfig Samples.base_config Samples.base_config
           Samples.parent Samples.self "infra" MoreSamples.single_node).
  - apply single_node_strings_supplied.
Defined.

(** In single-node mode other counts build the same tree. *)
Lemma counts_that_are_ignored_witness :
  InfraStack_constructor Samples.parent Samples.self "infra"
    (with_counts MoreSamples.single_node 0 0 7 0 0)
  = InfraStack_constructor Samples.parent Samples.self "infra" MoreSamples.single_node.
Proof.
  apply (proj2 (PlannerMore.counts_that_are_ignored
                  Samples.dump Samples.nodeConfig Samples.base_config
                  Samples.base_config
                  Samples.parent Samples.self "infra" MoreSamples.single_node)).
  reflexivity.
Defined.

End PlannerMoreExamples.

Module AssemblerMoreExamples.
Import Shell Assembler.

#[local] Abbreviation getCfnInitElement :=
  (getCfnInitElement Samples.dump Samples.nodeConfig Samples.base_config
     Samples.base_config).
#[local] Abbreviation commonConfig := (commonConfig Samples.dump Samples.base_config).
#[local] Abbreviation nodeConfigData := (nodeConfigData Samples.dump Samples.nodeConfig).
#[local] Abbreviation opensearchConfig :=
  (opensearchConfig Samples.dump Samples.base_config).

Lemma cluster_with_text_strings_supplied : strings_supplied Samples.cluster_with_text.
Proof.
  repeat split; simpl; eauto.
Defined.

Lemma cluster_with_text_is_plain :
  structural_texts_plain Samples.dump Samples.nodeConfig Samples.base_config
    Samples.base_config Samples.self Samples.cluster_with_text (Some "data").
Proof.
  split; [reflexivity | intros t Ht; injection Ht as <-; reflexivity].
Defined.

(** The data nodes of the cluster with a user text. *)
Lemma elasticsearch_is_started_after_its_configuration_witness :
  exists before after,
    getCfnInitElement Samples.self Samples.logs Samples.cluster_with_text (Some "data")
    = Returned (before ++ runCommand :: after)
    /\ ~ In runCommand before
    /\ ~ In runCommand after
    /\ Forall (fun e => writes elasticsearch_yml e = false) after
    /\ after = (if truthy (captureProxyEnabled Samples.cluster_with_text)
                then captureProxyElements Samples.cluster_with_text else [])
               ++ dashboards Samples.cluster_with_text
    /\ (use50PercentHeap Samples.cluster_with_text = true -> In heapCommand before)
    /\ (forall jvm, jvmSysPropsString Samples.cluster_with_text = Some jvm -> jvm <> "undefined" ->
                    In (jvmSysPropsCommand jvm) before).
Proof.
  apply (AssemblerMore.elasticsearch_is_started_after_its_configuration
           Samples.dump Samples.nodeConfig Samples.base_config Samples.base_config
           Samples.self Samples.logs Samples.cluster_with_text (Some "data")).
  - apply cluster_with_text_strings_supplied.
Defined.

(** The cluster with the remote store on, on a new instance. *)
Lemma remote_store_stops_the_run_witness :
  exists ran first others rest,
    getCfnInitElement Samples.self Samples.logs Samples.cluster_with_text (Some "data")
    = Returned (ran ++ first :: others ++ rest)
    /\ remoteStoreElements Samples.self = first :: others
    /\ Forall (fun e => writes opensearch_yml e = true
                        /\ writes elasticsearch_yml e = false)
         (remoteStoreElements Samples.self)
    /\ run_elements quiet elasticsearch_yml ran Samples.new_instance
       = Ran {| directories :=
                  "/home/ec2-user/elasticsearch" :: directories Samples.new_instance;
                document := commonConfig Samples.self +:+ nl
                            +:+ match Some "data" with
                                | Some t => nodeConfigData t +:+ nl
                                | None => EmptyString
                                end |}
    /\ run_elements quiet elasticsearch_yml (ran ++ first :: others ++ rest)
         Samples.new_instance
       = Stopped {| directories :=
                      "/home/ec2-user/elasticsearch" :: directories Samples.new_instance;
                    document := commonConfig Samples.self +:+ nl
                                +:+ match Some "data" with
                                    | Some t => nodeConfigData t +:+ nl
                                    | None => EmptyString
                                    end |}
    /\ In runCommand rest
    /\ (forall extra,
          additionalConfig Samples.cluster_with_text = Some extra ->
          extra <> "undefined" ->
          In (additionalConfigCommand extra) rest).
Proof.
  apply (AssemblerMore.remote_store_stops_the_run
           Samples.dump Samples.nodeConfig Samples.base_config Samples.base_config
           quiet (fun command files => eq_refl)
           Samples.self Samples.logs Samples.cluster_with_text (Some "data")
           Samples.new_instance).
  - apply cluster_with_text_strings_supplied.
  - reflexivity.
  - reflexivity.
  - apply cluster_with_text_is_plain.
  - reflexivity.
  - reflexivity.
Defined.

(** The cluster has the capture proxy enabled. *)
Lemma capture_proxy_is_installed_for_any_text_witness :
  exists l,
    getCfnInitElement Samples.self Samples.logs Samples.cluster_with_text (Some "data")
    = Returned l
    /\ (In startCaptureProxy_file l
        <-> captureProxyEnabled Samples.cluster_with_text <> EmptyString)
    /\ (captureProxyEnabled Samples.cluster_with_text = EmptyString ->
        Forall (fun e => in_capture_proxy e = false) l)
    /\ (captureProxyEnabled Samples.cluster_with_text <> EmptyString ->
        exists before after,
          l = before ++ runCommand :: captureProxyElements Samples.cluster_with_text
                ++ after
          /\ Forall (fun e => in_capture_proxy e = false) (before ++ runCommand :: after))
    /\ captureProxyElements Samples.cluster_with_text
       = [ InitCommand_shellCommand
             ("set -ex; curl -L0 " +:+ captureProxyTarUrl Samples.cluster_with_text
              +:+ " --output CaptureProxyX64.tar.gz; tar -xvf CaptureProxyX64.tar.gz;")
             {| cwd := Some "/home/ec2-user/capture-proxy";
                ignoreErrors := Some false |};
           startCaptureProxy_file ]
    /\ Forall (fun e => in_capture_proxy e = true)
         (captureProxyElements Samples.cluster_with_text).
Proof.
  apply (AssemblerMore.capture_proxy_is_installed_for_any_text
           Samples.dump Samples.nodeConfig Samples.base_config Samples.base_config
           Samples.self Samples.logs Samples.cluster_with_text (Some "data")).
  - apply cluster_with_text_strings_supplied.
Defined.

Lemma cluster_without_remote_store_strings_supplied :
  strings_supplied Samples.cluster_without_remote_store.
Proof.
  repeat split; simpl; eauto.
Defined.

Lemma cluster_without_remote_store_is_plain :
  structural_texts_plain Samples.dump Samples.nodeConfig Samples.base_config
    Samples.base_config Samples.self Samples.cluster_without_remote_store (Some "data").
Proof.
  split; [reflexivity | intros t Ht; injection Ht as <-; reflexivity].
Defined.

(** The document of the data nodes, with the remote store off, on a new
    instance. *)
Lemma elasticsearch_yml_is_rebuilt_witness :
  exists before after,
    getCfnInitElement Samples.self Samples.logs Samples.cluster_without_remote_store
      (Some "data")
    = Returned (before ++ runCommand :: after)
    /\ run_elements quiet elasticsearch_yml (before ++ [runCommand]) Samples.new_instance
       = Ran {| directories :=
                  "/home/ec2-user/elasticsearch" :: directories Samples.new_instance;
                document :=
                  (if singleNodeCluster Samples.cluster_without_remote_store
                   then opensearchConfig Samples.self +:+ nl
                   else commonConfig Samples.self +:+ nl
                        +:+ match Some "data" with
                            | Some t => nodeConfigData t +:+ nl
                            | None => EmptyString
                            end)
                  +:+ (if String.eqb Samples.user_text "undefined"
                       then EmptyString else Samples.user_text +:+ nl) |}.
Proof.
  apply (AssemblerMore.elasticsearch_yml_is_rebuilt
           Samples.dump Samples.nodeConfig Samples.base_config Samples.base_config
           quiet (fun command files => eq_refl)
           Samples.self Samples.logs Samples.cluster_without_remote_store (Some "data")
           Samples.user_text Samples.new_instance).
  - apply cluster_without_remote_store_strings_supplied.
  - reflexivity.
  - apply cluster_without_remote_store_is_plain.
  - right; reflexivity.
  - right; reflexivity.
  - reflexivity.
Defined.

End AssemblerMoreExamples.

Module SupervisorMoreExamples.
Import Supervisor.

(** Elasticsearch, found alone on a file with another port, is killed. *)
Lemma kills_only_what_was_found_witness :
  "4242" <> EmptyString
  /\ (("4242" = capture_pgrep MoreSamples.stale_port_node /\ es_pgrep MoreSamples.stale_port_node = EmptyString)
      \/ ("4242" = es_pgrep MoreSamples.stale_port_node /\ capture_pgrep MoreSamples.stale_port_node = EmptyString
          /\ In SedConfig (actions (node (startCaptureProxy Samples.broker_args MoreSamples.stale_port_node))))).
Proof.
  apply (SupervisorMore.kills_only_what_was_found Samples.broker_args
           MoreSamples.stale_port_node "4242").
  vm_compute. tauto.
Defined.

(** A file that sets port 9200. *)
Lemma port_rewrite_converges_witness :
  let r := startCaptureProxy Samples.broker_args MoreSamples.stale_port_node in
  status r = 0%Z
  /\ config (node r) = ["cluster.name: c"] ++ ["http.port: 19200"] ++ []
  /\ actions (node r)
     = [Pgrep "bin/elasticsearch"; Pgrep "trafficCaptureProxyServer"; ReadConfig;
        SedConfig; Kill (es_pgrep MoreSamples.stale_port_node); StartElasticsearch;
        StartCaptureProxy (endpoints Samples.broker_args (KAFKA_ENDPOINTS_inherited MoreSamples.stale_port_node))]
       ++ verify_actions MoreSamples.stale_port_node
  /\ forall args' env',
       yml env' = config (node r) ->
       ~ In SedConfig (actions (node (startCaptureProxy args' env')))
       /\ config (node (startCaptureProxy args' env')) = config (node r).
Proof.
  apply (SupervisorMore.port_rewrite_converges Samples.broker_args
           MoreSamples.stale_port_node ["cluster.name: c"] "9200" []).
  - reflexivity.
  - reflexivity.
  - repeat constructor.
  - constructor.
  - reflexivity.
  - discriminate.
  - discriminate.
  - reflexivity.
  - reflexivity.
Defined.

(** Two endpoints options and a further word: the second value is used, the
    first is not. *)
Lemma the_last_endpoints_option_wins_witness :
  let args := ["--kafka-endpoints"; "a:1"] ++ "--kafka-endpoints" :: "b:2" :: ["now"] in
  In (StartCaptureProxy "b:2") (actions (node (startCaptureProxy args Samples.fresh_node)))
  /\ ~ In (StartCaptureProxy "a:1")
         (actions (node (startCaptureProxy args Samples.fresh_node))).
Proof.
  split.
  - vm_compute. tauto.
  - intro H.
    apply (proj1 (SupervisorMore.the_last_endpoints_option_wins Samples.fresh_node "a:1")
             ["--kafka-endpoints"; "a:1"] "b:2" ["now"]) in H.
    + discriminate H.
    + reflexivity.
    + simpl. intros [E | []]. discriminate E.
Defined.

End SupervisorMoreExamples.
